(** * bq76pl536: protocol engine of the battery-monitor chain driver

    A shallow embedding of [bq76pl536.c] (frame codec, batch transport,
    discovery, cell census, telemetry aggregation) together with the
    properties of its specification.

    Conventions.
    - C integers are [Z]; conversions to [u8] and the wrap-around of [int]
      arithmetic are written out ([u8], [int32]); [/] on [int] is [Z.quot].
    - The driver's globals are passed explicitly: the transfer batch
      ([bq_ctl], [xfer_index], [byte_index]) is a record [batch], the pack
      description ([devices_used], [cells_per_device], [cells],
      [total_cell_count]) a record [pack]; the SPI bus is a state [B] with a
      transfer function.
    - A store outside [xfer[]], [tx_buff] or [rx_buff] is undefined behaviour
      in C; the model drops the store and raises the [overrun] flag. *)

From Stdlib Require Import ZArith List Lia Bool Sorted.
From stdpp Require Import base list sorting.
Import ListNotations.
Open Scope Z_scope.

(** ** Constants of [bq76pl536.h] and [bq76pl536.c] *)

Definition DISCOVERY_ADDRESS : Z := 0x00.
Definition BROADCAST : Z := 0x3F.
Definition RESET_COMMAND : Z := 0xA5.
Definition DEVICE_STATUS : Z := 0x00.
Definition DRDY : Z := 0x01.
Definition VCELL1 : Z := 0x03.
Definition VCELL6 : Z := 0x0D.
Definition TEMPERATURE1 : Z := 0x0F.
Definition TEMPERATURE2 : Z := 0x11.
Definition ALERT_STATUS : Z := 0x20.
Definition FAULT_STATUS : Z := 0x21.
Definition COV_FAULT : Z := 0x22.
Definition CUV_FAULT : Z := 0x23.
Definition ADC_CONVERT : Z := 0x34.
Definition AC_CONV : Z := 0x01.
Definition ADDRESS_CONTROL : Z := 0x3b.
Definition AC_ADDR_RQST : Z := 0x80.
Definition RESET : Z := 0x3c.

Definition SPI_BUFF_SIZE : Z := 50.
Definition MAX_BQ_DEVICES : Z := 32.
Definition MAX_XFER : Z := 10.
Definition CRC_TABLE_SIZE : Z := 256.
Definition CELL_MISSING_THRESHOLD : Z := 1000.
Definition EFAULT : Z := 14.

(** Modelled from the spec: the macro [DISCOVERY_ADDR] used by [search_pack]
    has no definition in the sources (the header only defines
    [DISCOVERY_ADDRESS]); it is the reserved discovery pseudo-address, which
    reaches the device that currently holds no address. *)
Definition DISCOVERY_ADDR : Z := DISCOVERY_ADDRESS.

(** ** C integer conversions *)

(** Conversion to [u8]. *)
Definition u8 (x : Z) : Z := x mod 256.

(** Wrap-around of 32-bit [int] arithmetic. *)
Definition int32 (x : Z) : Z := (x + 2 ^ 31) mod 2 ^ 32 - 2 ^ 31.

(** Plain [char] is unsigned on the ARM target the driver is written for
    ("only been tested on a Beaglebone board"); reading a byte through
    [char*] therefore yields the byte itself. Where plain [char] is signed
    the byte is sign-extended. *)
Definition plain_char_signed : bool := false.

Definition char_of_byte (signed : bool) (b : Z) : Z :=
  if signed then (if 128 <=? b then b - 256 else b) else b.

(** ** CRC-8 of the kernel library ([linux/crc8.h])

    [crc8_populate_msb] and [crc8] belong to the Linux kernel (lib/crc8.c),
    not to the driver; they are rendered here statement by statement. *)

(** One round of the outer loop of [crc8_populate_msb]: [t] is advanced and
    the entries [table[i+j] = table[j] ^ t] for [j < i] are appended to the
    [i] entries built so far. *)
Fixpoint crc8_populate_rounds (rounds : nat) (polynomial t : Z) (table : list Z)
  : list Z :=
  match rounds with
  | O => table
  | S r =>
      let t' := Z.lxor (u8 (Z.shiftl t 1))
                       (if Z.eqb (Z.land t 0x80) 0 then 0 else polynomial) in
      crc8_populate_rounds r polynomial t' (table ++ map (fun e => Z.lxor e t') table)
  end.

(** [for (i = 1; i < 256; i *= 2)] runs eight rounds from [table[0] = 0],
    [t = msbit]. *)
Definition crc8_populate_msb (polynomial : Z) : list Z :=
  crc8_populate_rounds 8 polynomial 0x80 [0].

(** [while (nbytes-- > 0) crc = table[(crc ^ *pdata++) & 0xff];] *)
Fixpoint crc8 (table : list Z) (pdata : list Z) (crc : Z) : Z :=
  match pdata with
  | [] => crc
  | d :: rest =>
      crc8 table rest (nth (Z.to_nat (Z.land (Z.lxor crc d) 0xff)) table 0)
  end.

(** [crc8_populate_msb(crc8_table, 7)] in [bq_probe]. *)
Definition crc8_table : list Z := Eval vm_compute in crc8_populate_msb 7.

(** ** CRC-8 as the specification words it

    Polynomial x^8 + x^2 + x^1 + x^0, initial value 0, most significant bit
    first: the reference the table-driven code is compared with. *)

Definition crc8_spec_bit (c : Z) : Z :=
  if Z.testbit c 7 then Z.lxor (u8 (Z.shiftl c 1)) 0x07 else u8 (Z.shiftl c 1).

Definition crc8_spec_byte (crc d : Z) : Z :=
  Nat.iter 8 crc8_spec_bit (Z.land (Z.lxor crc d) 0xff).

Definition crc8_spec (data : list Z) : Z := fold_left crc8_spec_byte data 0.

(** ** Byte buffers as arrays *)

Definition in_bounds {A} (l : list A) (i : Z) : bool :=
  (0 <=? i) && (i <? Z.of_nat (length l)).

(** [l[i] = x]; dropped when [i] is outside the array. *)
Definition store {A} (l : list A) (i : Z) (x : A) : list A :=
  if in_bounds l i then <[Z.to_nat i := x]> l else l.

(** [l[i]] of a byte buffer; 0 stands for whatever lies outside. *)
Definition load (l : list Z) (i : Z) : Z :=
  if in_bounds l i then nth (Z.to_nat i) l 0 else 0.

(** The [n] bytes at [p], [p+1], ... *)
Fixpoint load_bytes (l : list Z) (p : Z) (n : nat) : list Z :=
  match n with
  | O => []
  | S k => load l p :: load_bytes l (p + 1) k
  end.

(** Copy [data] to [l[p], l[p+1], ...]. *)
Fixpoint store_bytes (l : list Z) (p : Z) (data : list Z) : list Z :=
  match data with
  | [] => l
  | d :: rest => store_bytes (store l p d) (p + 1) rest
  end.

(** ** The transfer batch ([struct bq_control], [xfer_index], [byte_index]) *)

(** [struct spi_transfer], the fields the driver sets; a buffer pointer is an
    offset into [tx_buff] (resp. [rx_buff]), [None] is the null pointer. *)
Record spi_transfer := {
  cs_change : Z;
  tx_buf : option Z;
  rx_buf : option Z;
  len : Z
}.

(** [msg] is the transfer list of [bq_ctl.msg], each entry the index of the
    slot of [xfer] that [spi_message_add_tail] linked. *)
Record batch := {
  xfer : list spi_transfer;
  msg : list Z;
  tx_buff : list Z;
  rx_buff : list Z;
  xfer_index : Z;
  byte_index : Z;
  overrun : bool
}.

(** The pack description: [devices_used], [cells_per_device], [cells],
    [total_cell_count]. *)
Record cell_t := { chip : Z; index : Z }.

Record pack := {
  devices_used : Z;
  cells_per_device : list Z;
  cells : list cell_t;
  total_cell_count : Z
}.

(** What one transfer puts on the wire: the bytes clocked out and whether the
    bytes clocked in are kept. *)
Record wire_xfer := { wx_tx : list Z; wx_rx : bool }.

Definition raise_overrun (c : bool) (s : batch) : batch :=
  {| xfer := xfer s; msg := msg s; tx_buff := tx_buff s; rx_buff := rx_buff s;
     xfer_index := xfer_index s; byte_index := byte_index s;
     overrun := overrun s || c |}.

(** [static void bq_prepare_spi_message(void)] *)
Definition bq_prepare_spi_message (s : batch) : batch :=
  {| xfer := xfer s;
     msg := [];
     tx_buff := tx_buff s;
     rx_buff := repeat 0 (Z.to_nat SPI_BUFF_SIZE);
     xfer_index := -1;
     byte_index := 0;
     overrun := overrun s |}.

(** [static int writeRegister(u8 address, u8 reg, u8 data)] *)
Definition writeRegister (address reg data : Z) (s : batch) : Z * batch :=
  let address := u8 address in
  let reg := u8 reg in
  let data := u8 data in
  if MAX_XFER <=? xfer_index s then (- EFAULT, s)
  else
    let xi := xfer_index s + 1 in
    let bi := byte_index s in
    let slot := {| cs_change := 1; tx_buf := Some bi; rx_buf := None; len := 4 |} in
    let command := Z.lor (u8 (Z.shiftl address 1)) 1 in
    let tx1 := store (tx_buff s) bi command in
    let tx2 := store tx1 (bi + 1) reg in
    let tx3 := store tx2 (bi + 2) data in
    let tx4 := store tx3 (bi + 3) (crc8 crc8_table (load_bytes tx3 bi 3) 0) in
    (0, {| xfer := store (xfer s) xi slot;
           msg := msg s ++ [xi];
           tx_buff := tx4;
           rx_buff := rx_buff s;
           xfer_index := xi;
           byte_index := bi + 4;
           overrun := overrun s
                      || negb (in_bounds (xfer s) xi)
                      || negb (in_bounds (tx_buff s) bi)
                      || negb (in_bounds (tx_buff s) (bi + 3)) |}).

(** The transfers linked into the message, in order. *)
Definition queued (s : batch) : list spi_transfer :=
  omap (fun i => if in_bounds (xfer s) i then xfer s !! Z.to_nat i else None)
       (msg s).

Definition wire_of (tx : list Z) (t : spi_transfer) : wire_xfer :=
  {| wx_tx := match tx_buf t with
              | Some p => load_bytes tx p (Z.to_nat (len t))
              | None => repeat 0 (Z.to_nat (len t))
              end;
     wx_rx := match rx_buf t with Some _ => true | None => false end |}.

Definition wire (s : batch) : list wire_xfer := map (wire_of (tx_buff s)) (queued s).

(** Exactly [n] received bytes: what the bus hands over, cut or padded. *)
Definition fit (n : nat) (rx : list Z) : list Z :=
  take n (map u8 rx ++ repeat 0 n).

(** The controller copies the bytes received during each transfer to its
    [rx_buf], transfer after transfer. *)
Fixpoint rx_stores (ts : list spi_transfer) (rxs : list (list Z))
    (acc : list Z * bool) : list Z * bool :=
  match ts with
  | [] => acc
  | t :: ts' =>
      let acc' :=
        match rx_buf t with
        | Some p =>
            (store_bytes (fst acc) p (fit (Z.to_nat (len t)) (hd [] rxs)),
             snd acc
             || (0 <? len t)
                && negb (in_bounds (fst acc) p && in_bounds (fst acc) (p + len t - 1)))
        | None => acc
        end in
      rx_stores ts' (tl rxs) acc'
  end.

Section Driver.

(** The bus primitive behind [spi_sync]: it executes the transfers of a
    message in order and answers with the new bus state, the status and
    the bytes received during each transfer. *)
Context {B : Type}.
Variable hw : B -> list wire_xfer -> B * Z * list (list Z).

(** [spi_sync(bq_dev.spi_device, &bq_ctl.msg)] *)
Definition spi_sync (s : batch) (b : B) : Z * batch * B :=
  let '(b', status, rxs) := hw b (wire s) in
  let '(rx, ov) := rx_stores (queued s) rxs (rx_buff s, overrun s) in
  (status,
   {| xfer := xfer s; msg := msg s; tx_buff := tx_buff s; rx_buff := rx;
      xfer_index := xfer_index s; byte_index := byte_index s; overrun := ov |},
   b').

(** The first half of [readRegister] (lines 187-215): the request is
    queued. The caller has checked [count] and the transfer index. *)
Definition queue_read (address reg count : Z) (s : batch) : batch :=
  let xi := xfer_index s + 1 in
  let bi := byte_index s in
  let slot := {| cs_change := 1; tx_buf := Some bi; rx_buf := Some bi;
                 len := 4 + count |} in
  let command := u8 (Z.shiftl address 1) in
  let tx1 := store (tx_buff s) bi command in
  let tx2 := store tx1 (bi + 1) reg in
  let tx3 := store tx2 (bi + 2) (u8 count) in
  {| xfer := store (xfer s) xi slot;
     msg := msg s ++ [xi];
     tx_buff := tx3;
     rx_buff := rx_buff s;
     xfer_index := xi;
     byte_index := bi + 3 + count + 1;
     overrun := overrun s
                || negb (in_bounds (xfer s) xi)
                || negb (in_bounds (tx_buff s) bi)
                || negb (in_bounds (tx_buff s) (bi + 2)) |}.

(** The second half of [readRegister] (lines 225-242), after a transfer of
    status 0: [bi] is the offset the slot's [tx_buf] and [rx_buf] were set
    to, [signed] the signedness of plain [char], through which line 227
    reads the CRC byte. *)
Definition check_read_as (signed : bool) (count bi : Z) (s : batch) : Z :=
  let result := bi + 3 in
  let crc := crc8 crc8_table (load_bytes (tx_buff s) bi 3) 0 in
  let crc := crc8 crc8_table (load_bytes (rx_buff s) (bi + 3) (Z.to_nat count)) crc in
  if negb (crc =? char_of_byte signed (load (rx_buff s) (bi + count + 3)))
  then - EFAULT
  else if count =? 1 then load (rx_buff s) result
  else Z.lor (Z.shiftl (load (rx_buff s) result) 8) (load (rx_buff s) (result + 1)).

Definition check_read : Z -> Z -> batch -> Z := check_read_as plain_char_signed.

(** [int readRegister(u8 address, u8 reg, int count)] *)
Definition readRegister (address reg count : Z) (s : batch) (b : B)
  : Z * batch * B :=
  let address := u8 address in
  let reg := u8 reg in
  if negb (count =? 1) && negb (count =? 2) then (- EFAULT, s, b)
  else
    let xi := xfer_index s + 1 in
    if MAX_XFER <=? xi then
      (- EFAULT,
       {| xfer := xfer s; msg := msg s; tx_buff := tx_buff s;
          rx_buff := rx_buff s; xfer_index := xi;
          byte_index := byte_index s; overrun := overrun s |},
       b)
    else
      let '(status, s2, b') := spi_sync (queue_read address reg count s) b in
      if negb (status =? 0) then (status, s2, b')
      else (check_read count (byte_index s) s2, s2, b').

End Driver.

(** ** Telemetry scaling (lines 294, 309-311, 322) *)

(** [*p++ = ((temp * 6250) / 327660);] with [temp] an [int]. *)
Definition voltage_byte (temp : Z) : Z :=
  u8 (Z.quot (int32 (temp * 6250)) 327660).

(** [temp -= 2048; temp /= 120; *p++ = temp;] *)
Definition temperature_byte (temp : Z) : Z :=
  u8 (Z.quot (int32 (temp - 2048)) 120).

(** The voltage byte as the specification words it:
    [round(raw16 * 6250 / 327660)], to the nearest integer. *)
Definition voltage_byte_spec (raw16 : Z) : Z :=
  (2 * (raw16 * 6250) + 327660) / (2 * 327660).

(** The registers visited by [for(j=VCELL1; j<=VCELL6; j+=2)]. *)
Definition tap_registers : list Z :=
  map (fun k => VCELL1 + 2 * k) (seqZ 0 ((VCELL6 - VCELL1) / 2 + 1)).

(** How an inner [do ... while] of [search_pack] is left: by one of its
    [return] statements, or by its condition turning false. *)
Inductive loop_exit :=
| Returned (v : Z)
| Completed (n : Z).

Section Operations.

Context {B : Type}.
Variable hw : B -> list wire_xfer -> B * Z * list (list Z).

(** The polling loop of [get_voltages] (lines 270-283), [tries] being the
    value of the counter on entry of the body. [Some (false, _)] is the
    [return 0] of line 280, [Some (true, _)] the exit through the loop
    condition; [None] only when the fuel runs out. *)
Fixpoint wait_ready (fuel : nat) (tries : Z) (s : batch) (b : B)
  : option (bool * batch * B) :=
  match fuel with
  | O => None
  | S f =>
      let s := bq_prepare_spi_message s in
      let '(temp, s, b) := readRegister hw 1 DEVICE_STATUS 1 s b in
      if 5 <? tries then Some (false, s, b)
      else if Z.land temp DRDY =? 0 then wait_ready f (tries + 1) s b
      else Some (true, s, b)
  end.

(** Body of the loop of lines 287-295. *)
Definition emit_voltage (pk : pack) (acc : list Z * batch * B) (i : Z)
  : list Z * batch * B :=
  let '(p, s, b) := acc in
  let s := bq_prepare_spi_message s in
  let c := nth (Z.to_nat i) (cells pk) {| chip := 0; index := 0 |} in
  let '(temp, s, b) := readRegister hw (chip c) (index c) 2 s b in
  (p ++ [voltage_byte temp], s, b).

(** Body of the loop of lines 299-327. *)
Definition emit_device (pk : pack) (acc : list Z * batch * B) (i : Z)
  : list Z * batch * B :=
  let '(p, s, b) := acc in
  let p := p ++ [u8 (nth (Z.to_nat i) (cells_per_device pk) 0)] in
  let s := bq_prepare_spi_message s in
  let '(temp, s, b) := readRegister hw i TEMPERATURE1 2 s b in
  let p := p ++ [temperature_byte temp] in
  let s := bq_prepare_spi_message s in
  let '(temp, s, b) := readRegister hw i TEMPERATURE2 2 s b in
  let p := p ++ [temperature_byte temp] in
  let s := bq_prepare_spi_message s in
  let '(v, s, b) := readRegister hw i DEVICE_STATUS 1 s b in
  let p := p ++ [u8 v] in
  let '(v, s, b) := readRegister hw i FAULT_STATUS 1 s b in
  let p := p ++ [u8 v] in
  let '(v, s, b) := readRegister hw i ALERT_STATUS 1 s b in
  let p := p ++ [u8 v] in
  let '(v, s, b) := readRegister hw i CUV_FAULT 1 s b in
  let p := p ++ [u8 v] in
  let '(v, s, b) := readRegister hw i COV_FAULT 1 s b in
  let p := p ++ [u8 v] in
  (p, s, b).

(** [int get_voltages(u8* p)]: the result is the returned length and the
    bytes written from [p] on. *)
Definition get_voltages (fuel : nat) (pk : pack) (s : batch) (b : B)
  : option (Z * list Z * batch * B) :=
  let s := bq_prepare_spi_message s in
  let '(_, s) := writeRegister BROADCAST ADC_CONVERT AC_CONV s in
  let '(status, s, b) := spi_sync hw s b in
  if negb (status =? 0) then Some (0, [], s, b)
  else
    match wait_ready fuel 0 s b with
    | None => None
    | Some (false, s, b) => Some (0, [], s, b)
    | Some (true, s, b) =>
        let p := [u8 (total_cell_count pk)] in
        let '(p, s, b) :=
          fold_left (emit_voltage pk) (seqZ 0 (total_cell_count pk)) (p, s, b) in
        let p := p ++ [u8 (devices_used pk)] in
        let '(p, s, b) :=
          fold_left (emit_device pk) (seqZ 1 (devices_used pk)) (p, s, b) in
        let size := Z.of_nat (length p) in
        let p := p ++ [crc8 crc8_table p 0] in
        Some (size + 1, p, s, b)
    end.

(** The inner loop of [search_pack] (lines 477-499), entered with the
    value [n] has before [n++]. *)
Fixpoint search_inner (fuel : nat) (look_for n : Z) (s : batch) (b : B)
  : option (loop_exit * batch * B) :=
  match fuel with
  | O => None
  | S f =>
      let n := u8 (n + 1) in
      let '(status, s) := writeRegister DISCOVERY_ADDR ADDRESS_CONTROL n s in
      if negb (status =? 0) then Some (Returned (u8 status), s, b)
      else
        let '(verify, s, b) := readRegister hw n ADDRESS_CONTROL 1 s b in
        if verify <? 0 then Some (Returned (u8 (n - 1)), s, b)
        else if negb (verify =? Z.lor n AC_ADDR_RQST) then
          Some (Returned (u8 (n - 1)), s, b)
        else
          let s := bq_prepare_spi_message s in
          if n <? look_for then search_inner f look_for n s b
          else Some (Completed n, s, b)
  end.

(** The outer loop of [search_pack] (lines 468-500), entered with the
    value [look_for] has before [look_for++]. *)
Fixpoint search_outer (fuel : nat) (used look_for : Z) (s : batch) (b : B)
  : option (Z * batch * B) :=
  match fuel with
  | O => None
  | S f =>
      let '(status, s) := writeRegister BROADCAST RESET RESET_COMMAND s in
      if negb (status =? 0) then Some (u8 status, s, b)
      else
        let look_for := u8 (look_for + 1) in
        match search_inner (S f) look_for 0 s b with
        | None => None
        | Some (Returned v, s, b) => Some (v, s, b)
        | Some (Completed n, s, b) =>
            if n <? used then search_outer f used look_for s b
            else Some (n, s, b)
        end
  end.

(** [u8 search_pack (void)], [used] being [devices_used]. *)
Definition search_pack (fuel : nat) (used : Z) (s : batch) (b : B)
  : option (Z * batch * B) :=
  search_outer fuel used 0 (bq_prepare_spi_message s) b.

(** Census, first pass (lines 640-651): one tap of chip [i]. The counters
    are [total_cell_count] and [chip_cell_count]. *)
Definition count_tap (i : Z) (acc : Z * Z * batch * B) (j : Z)
  : Z * Z * batch * B :=
  let '(total, chip_count, s, b) := acc in
  let s := bq_prepare_spi_message s in
  let '(temp, s, b) := readRegister hw i j 2 s b in
  if CELL_MISSING_THRESHOLD <? temp then (total + 1, chip_count + 1, s, b)
  else (total, chip_count, s, b).

(** Census, first pass (lines 635-663): chip [i]. *)
Definition count_chip (acc : pack * batch * B) (i : Z) : pack * batch * B :=
  let '(pk, s, b) := acc in
  let '(total, chip_count, s, b) :=
    fold_left (count_tap i) tap_registers (total_cell_count pk, 0, s, b) in
  let cpd :=
    if negb (nth (Z.to_nat i) (cells_per_device pk) 0 =? chip_count)
    then store (cells_per_device pk) i chip_count
    else cells_per_device pk in
  ({| devices_used := devices_used pk; cells_per_device := cpd;
      cells := cells pk; total_cell_count := total |},
   raise_overrun
     (negb (nth (Z.to_nat i) (cells_per_device pk) 0 =? chip_count)
      && negb (in_bounds (cells_per_device pk) i)) s,
   b).

(** Census, second pass (lines 675-684): one tap of chip [i]. *)
Definition fill_tap (i : Z) (acc : list cell_t * Z * batch * B) (j : Z)
  : list cell_t * Z * batch * B :=
  let '(cs, cell_index, s, b) := acc in
  let s := bq_prepare_spi_message s in
  let '(temp, s, b) := readRegister hw i j 2 s b in
  if CELL_MISSING_THRESHOLD <? temp then
    (store cs cell_index {| chip := i; index := j |}, cell_index + 1,
     raise_overrun (negb (in_bounds cs cell_index)) s, b)
  else (cs, cell_index, s, b).

Definition fill_chip (acc : list cell_t * Z * batch * B) (i : Z)
  : list cell_t * Z * batch * B :=
  fold_left (fill_tap i) tap_registers acc.

(** The cell census of [bq_probe] (lines 633-685) for [count] chips: the
    taps are counted, [cells] is allocated for that many entries, and the
    taps are read again to fill it in. *)
Definition census (count : Z) (pk : pack) (s : batch) (b : B)
  : pack * batch * B :=
  let pk0 := {| devices_used := devices_used pk;
                cells_per_device := cells_per_device pk;
                cells := cells pk; total_cell_count := 0 |} in
  let '(pk1, s, b) := fold_left count_chip (seqZ 1 count) (pk0, s, b) in
  let fresh := repeat {| chip := 0; index := 0 |}
                      (Z.to_nat (total_cell_count pk1)) in
  let '(cs, _, s, b) := fold_left fill_chip (seqZ 1 count) (fresh, 0, s, b) in
  ({| devices_used := devices_used pk1;
      cells_per_device := cells_per_device pk1;
      cells := cs; total_cell_count := total_cell_count pk1 |}, s, b).

End Operations.

(** ** A simulated device chain

    The bus the testable properties are stated against: a chain of devices,
    each with an address register (0: no address yet) and a register file.
    A device checks the CRC of every write frame; the RESET command on the
    broadcast address clears every address; a write of ADDRESS_CONTROL on
    the discovery address is taken by the first device without an address,
    which then ignores further assignments; a read frame is answered by the
    device holding the address, with the CRC of request and payload.
    [sd_ac_flip] and [sd_crc_flip] inject faults: bits flipped in the
    ADDRESS_CONTROL read-back and in the CRC of every answer. *)

Record sim_device := {
  sd_addr : Z;
  sd_regs : Z -> Z;
  sd_ac_flip : Z;
  sd_crc_flip : Z
}.

Definition set_addr (a : Z) (d : sim_device) : sim_device :=
  {| sd_addr := a; sd_regs := sd_regs d;
     sd_ac_flip := sd_ac_flip d; sd_crc_flip := sd_crc_flip d |}.

Fixpoint assign_first (a : Z) (ds : list sim_device) : list sim_device :=
  match ds with
  | [] => []
  | d :: rest =>
      if sd_addr d =? 0 then set_addr a d :: rest
      else d :: assign_first a rest
  end.

Definition sim_write (a reg data : Z) (ds : list sim_device) : list sim_device :=
  if (a =? BROADCAST) && (reg =? RESET) && (data =? RESET_COMMAND) then
    map (set_addr 0) ds
  else if (a =? DISCOVERY_ADDR) && (reg =? ADDRESS_CONTROL) then
    assign_first (Z.land data 0x3F) ds
  else ds.

Definition reg_value (d : sim_device) (reg : Z) : Z :=
  if reg =? ADDRESS_CONTROL then
    u8 (Z.lxor (Z.lor (sd_addr d) AC_ADDR_RQST) (sd_ac_flip d))
  else u8 (sd_regs d reg).

Definition sim_answer (d : sim_device) (cmd reg count : Z) : list Z :=
  let payload := map (fun k => reg_value d (reg + k)) (seqZ 0 count) in
  [0; 0; 0] ++ payload
    ++ [u8 (Z.lxor (crc8_spec ([cmd; reg; count] ++ payload)) (sd_crc_flip d))].

Definition sim_frame (ds : list sim_device) (w : wire_xfer)
  : list sim_device * list Z :=
  let silence := repeat 0 (length (wx_tx w)) in
  match wx_tx w with
  | cmd :: reg :: x :: rest =>
      let a := Z.shiftr cmd 1 in
      if Z.testbit cmd 0 then
        match rest with
        | [crc] =>
            if crc =? crc8_spec [cmd; reg; x] then (sim_write a reg x ds, silence)
            else (ds, silence)
        | _ => (ds, silence)
        end
      else
        match List.find (fun d => sd_addr d =? a) ds with
        | Some d => (ds, sim_answer d cmd reg x)
        | None => (ds, silence)
        end
  | _ => (ds, silence)
  end.

Fixpoint sim_run (ds : list sim_device) (ws : list wire_xfer)
  : list sim_device * list (list Z) :=
  match ws with
  | [] => (ds, [])
  | w :: rest =>
      let '(ds1, rx) := sim_frame ds w in
      let '(ds2, rxs) := sim_run ds1 rest in
      (ds2, rx :: rxs)
  end.

(** The simulated bus: every message completes with status 0. *)
Definition sim_hw (ds : list sim_device) (ws : list wire_xfer)
  : list sim_device * Z * list (list Z) :=
  let '(ds', rxs) := sim_run ds ws in (ds', 0, rxs).

(** A bus that also counts the messages it executes. *)
Definition metered {B : Type} (hw : B -> list wire_xfer -> B * Z * list (list Z))
    (bn : B * Z) (ws : list wire_xfer) : (B * Z) * Z * list (list Z) :=
  let '(b', status, rxs) := hw (fst bn) ws in
  ((b', snd bn + 1), status, rxs).

(** A device fresh from the factory, with register file [regs]. *)
Definition device (regs : Z -> Z) : sim_device :=
  {| sd_addr := 0; sd_regs := regs; sd_ac_flip := 0; sd_crc_flip := 0 |}.

(** The batch as [bq_init] and [bq_probe] leave it: the control block
    cleared, both buffers allocated. *)
Definition initial_batch : batch :=
  {| xfer := repeat {| cs_change := 0; tx_buf := None; rx_buf := None; len := 0 |}
                    (Z.to_nat MAX_XFER);
     msg := [];
     tx_buff := repeat 0 (Z.to_nat SPI_BUFF_SIZE);
     rx_buff := repeat 0 (Z.to_nat SPI_BUFF_SIZE);
     xfer_index := 0;
     byte_index := 0;
     overrun := false |}.

(** ** Definitions used to state the properties *)

(** The big-endian value of a payload. *)
Definition be_value (payload : list Z) : Z :=
  fold_left (fun acc x => acc * 256 + x) payload 0.

(** Bit [j] of byte number [k] flipped. *)
Definition flip_bit (k : nat) (j : Z) (l : list Z) : list Z :=
  alter (fun x => Z.lxor x (2 ^ j)) k l.

Definition is_byte (x : Z) : Prop := 0 <= x < 256.

(** The CRC of one byte from a zero register. *)
Definition crc_T (x : Z) : Z := Nat.iter 8 crc8_spec_bit (Z.land x 0xff).

(** A queued transfer whose bytes lie in the buffers below [bound]. *)
Definition slot_below (bound : Z) (t : spi_transfer) : Prop :=
  exists p, tx_buf t = Some p /\ 0 <= p /\ 0 <= len t /\ p + len t <= bound
            /\ (rx_buf t = None \/ rx_buf t = Some p).

(** The batch between two calls of the driver: the control block and the
    buffers have the size they are allocated with, the transfer index stays
    inside [xfer], and the queued transfers occupy the buffers below
    [byte_index]. *)
Record tidy (s : batch) : Prop := {
  tidy_xfer : length (xfer s) = Z.to_nat MAX_XFER;
  tidy_tx : length (tx_buff s) = Z.to_nat SPI_BUFF_SIZE;
  tidy_rx : length (rx_buff s) = Z.to_nat SPI_BUFF_SIZE;
  tidy_index : -1 <= xfer_index s < MAX_XFER;
  tidy_bytes : 0 <= byte_index s <= SPI_BUFF_SIZE;
  tidy_msg : Forall (fun i => 0 <= i <= xfer_index s) (msg s);
  tidy_slots : Forall (slot_below (byte_index s)) (queued s)
}.

(** The write frame of the codec: [address<<1 | 1, register, data, crc8]. *)
Definition write_frame (address reg data : Z) : list Z :=
  let command := Z.lor (u8 (Z.shiftl (u8 address) 1)) 1 in
  [command; u8 reg; u8 data; crc8_spec [command; u8 reg; u8 data]].

(** The read request of the codec: [address<<1, register, count]. *)
Definition read_request (address reg count : Z) : list Z :=
  [u8 (Z.shiftl (u8 address) 1); u8 reg; u8 count].

(** A batch holding the maximum number of pending transfers: ten writes
    queued after [bq_prepare_spi_message], one per slot of [xfer]. *)
Definition full_batch : batch :=
  Nat.iter 10 (fun s => snd (writeRegister BROADCAST ADC_CONVERT AC_CONV s))
           (bq_prepare_spi_message initial_batch).

(** Lines 256-258 of [get_voltages]: the conversion is started. *)
Definition start_conversion {B : Type}
    (hw : B -> list wire_xfer -> B * Z * list (list Z)) (s : batch) (b : B)
  : Z * batch * B :=
  spi_sync hw
    (snd (writeRegister BROADCAST ADC_CONVERT AC_CONV (bq_prepare_spi_message s))) b.

(** One polling read of lines 272-273, and [k] of them in a row. *)
Definition poll_once {B : Type}
    (hw : B -> list wire_xfer -> B * Z * list (list Z)) (sb : batch * B)
  : Z * (batch * B) :=
  let '(temp, s, b) :=
    readRegister hw 1 DEVICE_STATUS 1 (bq_prepare_spi_message (fst sb)) (snd sb) in
  (temp, (s, b)).

Fixpoint polls {B : Type}
    (hw : B -> list wire_xfer -> B * Z * list (list Z)) (k : nat) (sb : batch * B)
  : batch * B :=
  match k with
  | O => sb
  | S k' => polls hw k' (snd (poll_once hw sb))
  end.

(** A chain of one addressed device whose status never shows data ready. *)
Definition never_ready_chain : list sim_device :=
  [set_addr 1 (device (fun _ => 0x80))].

(** The pack description the driver is loaded with by default. *)
Definition default_pack : pack :=
  {| devices_used := 4;
     cells_per_device := [0; 4; 4; 4; 3] ++ repeat 0 28;
     cells := [];
     total_cell_count := 0 |}.

(** A chain of two addressed devices that report data ready, with two
    populated taps each, and the pack description the census gives it. *)
Definition ready_regs (reg : Z) : Z :=
  if reg =? DEVICE_STATUS then 0x81
  else if reg =? VCELL1 then 0x30
  else if reg =? VCELL1 + 2 then 0x2C
  else if reg =? TEMPERATURE1 then 0x10
  else 0.

Definition ready_chain : list sim_device :=
  [set_addr 1 (device ready_regs); set_addr 2 (device ready_regs)].

Definition ready_pack : pack :=
  {| devices_used := 2;
     cells_per_device := [0; 2; 2] ++ repeat 0 30;
     cells := [{| chip := 1; index := 3 |}; {| chip := 1; index := 5 |};
               {| chip := 2; index := 3 |}; {| chip := 2; index := 5 |}];
     total_cell_count := 4 |}.

(** A bus that works for [k] more messages and then fails every transfer
    with status [st]. *)
Definition flaky {B : Type} (hw : B -> list wire_xfer -> B * Z * list (list Z))
    (st : Z) (bk : B * nat) (ws : list wire_xfer)
  : (B * nat) * Z * list (list Z) :=
  match snd bk with
  | O => (bk, st, [])
  | S k => let '(b', status, rxs) := hw (fst bk) ws in ((b', k), status, rxs)
  end.

(** The eight bytes of one device in the telemetry buffer when every read
    returns [e]. *)
Definition device_bytes_of (pk : pack) (e : Z) (i : Z) : list Z :=
  [u8 (nth (Z.to_nat i) (cells_per_device pk) 0);
   temperature_byte e; temperature_byte e; u8 e; u8 e; u8 e; u8 e; u8 e].

(** [ready_chain] with a second device whose answers all carry a wrong CRC. *)
Definition garbled_chain : list sim_device :=
  [set_addr 1 (device ready_regs);
   {| sd_addr := 2; sd_regs := ready_regs; sd_ac_flip := 0; sd_crc_flip := 1 |}].

(** The chain with its first [j] devices holding the addresses [base],
    [base+1], ... and the others none. *)
Fixpoint readdress (base : Z) (j : nat) (ds : list sim_device) : list sim_device :=
  match ds with
  | [] => []
  | d :: rest =>
      match j with
      | O => set_addr 0 d :: readdress base O rest
      | S j' => set_addr base d :: readdress (base + 1) j' rest
      end
  end.

Definition addressed (j : nat) (ds : list sim_device) : list sim_device :=
  readdress 1 j ds.

(** A device that answers as the protocol says: no injected fault. *)
Definition healthy (d : sim_device) : Prop :=
  u8 (sd_ac_flip d) = 0 /\ u8 (sd_crc_flip d) = 0.

(** The payload a device sends for [count] registers from [reg] on. *)
Definition sim_payload (d : sim_device) (reg count : Z) : list Z :=
  map (fun k => reg_value d (reg + k)) (seqZ 0 count).

(** The batch right after [bq_prepare_spi_message]. *)
Definition prepared (s : batch) : Prop :=
  tidy s /\ xfer_index s = -1 /\ byte_index s = 0 /\ wire s = [].

(** Where the inner loop of [search_pack] stands before it probes address
    [n0 + 1] on the simulated chain [dc]: at most the RESET is pending, and
    once the pending transfers are executed the first [n0] devices of
    [chain] hold the addresses 1 to [n0]. *)
Definition probing (chain : list sim_device) (n0 : nat) (s : batch)
    (dc : list sim_device) : Prop :=
  tidy s /\ xfer_index s <= 0 /\ byte_index s <= 4
  /\ fst (sim_run dc (wire s)) = addressed n0 chain.

(** Four healthy devices, as they come out of reset. *)
Definition fresh_chain : list sim_device := repeat (device ready_regs) 4.

(** A chain whose third device reads its address back wrong. *)
Definition faulty_chain : list sim_device :=
  [device ready_regs; device ready_regs;
   {| sd_addr := 0; sd_regs := ready_regs; sd_ac_flip := 0x40; sd_crc_flip := 0 |};
   device ready_regs].

(** One probe of [search_pack] (lines 480-486): the address is written to
    the discovery address and read back. *)
Definition probe {B : Type} (hw : B -> list wire_xfer -> B * Z * list (list Z))
    (n : Z) (s : batch) (b : B) : Z * batch * B :=
  readRegister hw n ADDRESS_CONTROL 1
    (snd (writeRegister DISCOVERY_ADDR ADDRESS_CONTROL n s)) b.

(** The raw 2-byte reading a device gives for the pair of registers at [j]. *)
Definition sim_raw (d : sim_device) (j : Z) : Z :=
  256 * u8 (sd_regs d j) + u8 (sd_regs d (j + 1)).

(** A tap of the chain is populated when the reading of its register is
    above the threshold; [chip] counts the devices from 1. *)
Definition populated (ds : list sim_device) (c : cell_t) : bool :=
  match ds !! Z.to_nat (chip c - 1) with
  | Some d => CELL_MISSING_THRESHOLD <? sim_raw d (index c)
  | None => false
  end.

(** The six candidate taps of each chip of [chips], chip after chip. *)
Definition taps_of (chips : list Z) : list cell_t :=
  flat_map (fun i => map (fun j => {| chip := i; index := j |}) tap_registers) chips.

Definition all_taps (count : Z) : list cell_t := taps_of (seqZ 1 count).

(** (device address, register offset) order. *)
Definition tap_lt (c1 c2 : cell_t) : Prop :=
  chip c1 < chip c2 \/ (chip c1 = chip c2 /\ index c1 < index c2).

(** ** Configuration and diagnostics

    The constants and operations of the attach sequence next to discovery
    and census ([write_defaults], [get_chip_status] and its decoders,
    [bq_probe]) and the read entry point of the character device
    ([bq_read]). *)

Definition DS_ADDR_RQST : Z := 0x80.
Definition DS_FAULT : Z := 0x40.
Definition DS_ALERT : Z := 0x20.
Definition AS_AR : Z := 0x80.
Definition FS_POR : Z := 0x08.
Definition FS_COV : Z := 0x01.
Definition ADC_CONTROL : Z := 0x30.
Definition AC_TS2 : Z := 0x20.
Definition AC_TS1 : Z := 0x10.
Definition AC_CELL_SEL_6 : Z := 0x05.
Definition IO_CONTROL : Z := 0x31.
Definition TS2 : Z := 0x02.
Definition TS1 : Z := 0x01.
Definition SHDW_CTRL : Z := 0x3a.
Definition SC_ENABLE : Z := 0x35.
Definition CONFIG_COV : Z := 0x42.
Definition COV_300 : Z := 0x14.
Definition COV_350 : Z := 0x1E.
Definition CONFIG_COVT : Z := 0x43.
Definition CC_USMS : Z := 0x80.
Definition USER_BUFF_SIZE : Z := 128.

(** [ERESTARTSYS] of the kernel's [linux/errno.h]. *)
Definition ERESTARTSYS : Z := 512.

Section Attach.

Context {B : Type}.
Variable hw : B -> list wire_xfer -> B * Z * list (list Z).

(** The macro [CONFIG_CUV] that line 359 writes to is defined nowhere in
    the sources (the header names the under-voltage set point
    [CONFIG_UV]); the register number is left open. *)
Variable CONFIG_CUV : Z.

(** [int write_defaults(void)] *)
Definition write_defaults (s : batch) (b : B) : Z * batch * B :=
  let s := bq_prepare_spi_message s in
  let '(_, s) :=
    writeRegister BROADCAST ADC_CONTROL
      (Z.lor (Z.lor AC_CELL_SEL_6 AC_TS1) AC_TS2) s in
  let '(_, s) := writeRegister BROADCAST IO_CONTROL (Z.lor TS1 TS2) s in
  let '(_, s) := writeRegister BROADCAST SHDW_CTRL SC_ENABLE s in
  let '(_, s) := writeRegister BROADCAST ADC_CONVERT AC_CONV s in
  let '(_, s) := writeRegister BROADCAST SHDW_CTRL SC_ENABLE s in
  let '(_, s) := writeRegister BROADCAST CONFIG_COV COV_350 s in
  let '(_, s) := writeRegister BROADCAST SHDW_CTRL SC_ENABLE s in
  let '(_, s) := writeRegister BROADCAST CONFIG_CUV COV_300 s in
  let '(_, s) := writeRegister BROADCAST SHDW_CTRL SC_ENABLE s in
  let '(_, s) := writeRegister BROADCAST CONFIG_COVT (Z.lor CC_USMS 1) s in
  spi_sync hw s b.

(** [void cov(int address)] *)
Definition cov (address : Z) (s : batch) (b : B) : batch * B :=
  let '(_, s, b) := readRegister hw address COV_FAULT 1 s b in
  let '(_, s, b) := readRegister hw address CONFIG_COV 1 s b in
  (s, b).

(** [void get_fault(u8 address)] *)
Definition get_fault (address : Z) (s : batch) (b : B) : batch * B :=
  let address := u8 address in
  let '(fault, s, b) := readRegister hw address FAULT_STATUS 1 s b in
  let '(_, s) := writeRegister address FAULT_STATUS fault s in
  let '(_, s) := writeRegister address FAULT_STATUS 0 s in
  if negb (Z.land fault FS_COV =? 0) then cov address s b else (s, b).

(** [void get_alert(int address)] *)
Definition get_alert (address : Z) (s : batch) (b : B) : batch * B :=
  let '(alert, s, b) := readRegister hw address ALERT_STATUS 1 s b in
  let '(_, s) := writeRegister address ALERT_STATUS alert s in
  let '(_, s) := writeRegister address ALERT_STATUS 0 s in
  if Z.land alert AS_AR =? 0 then
    let '(_, s, b) := readRegister hw address ADDRESS_CONTROL 1 s b in (s, b)
  else (s, b).

(** [int get_chip_status(int address)] *)
Definition get_chip_status (address : Z) (s : batch) (b : B) : Z * batch * B :=
  let s := bq_prepare_spi_message s in
  let '(val, s, b) := readRegister hw address DEVICE_STATUS 1 s b in
  if val <? 0 then (val, s, b)
  else
    let '(s, b) :=
      if negb (Z.land val DS_FAULT =? 0) then get_fault address s b else (s, b) in
    let '(s, b) :=
      if negb (Z.land val DS_ALERT =? 0) then get_alert address s b else (s, b) in
    (val, s, b).

(** Body of the loop of lines 631-632; the value is dropped. *)
Definition report_chip (sb : batch * B) (i : Z) : batch * B :=
  let '(_, s, b) := get_chip_status i (fst sb) (snd sb) in (s, b).

(** [static int bq_probe(struct spi_device *spi_device)] from line 613 on,
    once the semaphore is taken and the two buffers and the CRC table are
    allocated; the allocation of [cells] succeeds. The result is [retval]
    and the pack description the driver is left with; a [retval] other than
    0 makes lines 692-705 free the buffers afterwards. *)
Definition bq_probe (fuel : nat) (pk : pack) (s : batch) (b : B)
  : option (Z * pack * batch * B) :=
  match search_pack hw fuel (devices_used pk) s b with
  | None => None
  | Some (count, s, b) =>
      let pk :=
        if count =? devices_used pk then pk
        else {| devices_used := count;
                cells_per_device := cells_per_device pk;
                cells := cells pk;
                total_cell_count := total_cell_count pk |} in
      let '(retval, s, b) := write_defaults s b in
      let '(s, b) := fold_left report_chip (seqZ 1 count) (s, b) in
      let '(pk, s, b) := census hw count pk s b in
      Some (retval, pk, s, b)
  end.

End Attach.

(** What a call of [bq_read] leaves behind: the returned status, the bytes
    that reached the caller's buffer, the file offset, and whether
    [get_voltages] wrote past the [USER_BUFF_SIZE] bytes of [user_buff]. *)
Record read_outcome := {
  rd_status : Z;
  rd_bytes : list Z;
  rd_offp : Z;
  rd_overrun : bool
}.

Section Reading.

Context {B : Type}.
Variable hw : B -> list wire_xfer -> B * Z * list (list Z).

(** [static ssize_t bq_read(struct file *filp, char __user *buff,
    size_t count, loff_t *offp)]: [buff] tells whether the caller's pointer
    is non-null, [offp] is the offset on entry, [interrupted] the outcome
    of [down_interruptible] and [uncopied] the value [copy_to_user]
    returns, the number of bytes it could not copy. [copy_to_user] takes
    its bytes from [user_buff] on without reference to [USER_BUFF_SIZE]:
    they are the bytes [get_voltages] wrote there, also where these run
    past the end of [user_buff], which [rd_overrun] records. *)
Definition bq_read (fuel : nat) (pk : pack) (buff : bool) (count offp : Z)
    (interrupted : bool) (uncopied : Z) (s : batch) (b : B)
  : option (read_outcome * batch * B) :=
  let quit status :=
    {| rd_status := status; rd_bytes := []; rd_offp := offp; rd_overrun := false |} in
  if negb buff then Some (quit (- EFAULT), s, b)
  else if 0 <? offp then Some (quit 0, s, b)
  else if interrupted then Some (quit (- ERESTARTSYS), s, b)
  else
    match get_voltages hw fuel pk s b with
    | None => None
    | Some (len, p, s, b) =>
        let over := USER_BUFF_SIZE <? Z.of_nat (length p) in
        if len =? 0 then
          Some ({| rd_status := 0; rd_bytes := []; rd_offp := offp;
                   rd_overrun := over |}, s, b)
        else
          let count := if len <? count then len else count in
          if negb (uncopied =? 0) then
            Some ({| rd_status := - EFAULT;
                     rd_bytes := take (Z.to_nat (count - uncopied)) p;
                     rd_offp := offp; rd_overrun := over |}, s, b)
          else
            Some ({| rd_status := count;
                     rd_bytes := take (Z.to_nat count) p;
                     rd_offp := offp + count; rd_overrun := over |}, s, b)
    end.

End Reading.

(** ** Further definitions used to state the properties *)

(** A bus that also keeps the messages it executes, oldest first. *)
Definition recording {B : Type} (hw : B -> list wire_xfer -> B * Z * list (list Z))
    (bl : B * list (list wire_xfer)) (ws : list wire_xfer)
  : (B * list (list wire_xfer)) * Z * list (list Z) :=
  let '(b', status, rxs) := hw (fst bl) ws in
  ((b', snd bl ++ [ws]), status, rxs).

(** The request as [readRegister] puts it on the wire from a batch [s]: the
    three request bytes, then [count + 1] bytes of whatever [tx_buff] holds
    there while the answer is clocked in. *)
Definition read_frame (address reg count : Z) (s : batch) : wire_xfer :=
  {| wx_tx := read_request address reg count
              ++ load_bytes (tx_buff s) (byte_index s + 3) (Z.to_nat (count + 1));
     wx_rx := true |}.

(** What the codec makes of the bytes [rx] received during a read transfer:
    cut or padded to [4 + count] bytes, the payload follows the three bytes
    clocked in during the request, then the CRC. *)
Definition decode_response (address reg count : Z) (rx : list Z) : Z :=
  let resp := fit (Z.to_nat (4 + count)) rx in
  let payload := take (Z.to_nat count) (drop 3 resp) in
  if crc8_spec (read_request address reg count ++ payload)
     =? nth (Z.to_nat (3 + count)) resp 0
  then be_value payload else - EFAULT.

(** The ten settings of [write_defaults], register and value. *)
Definition default_settings (CONFIG_CUV : Z) : list (Z * Z) :=
  [(ADC_CONTROL, 0x35); (IO_CONTROL, 0x03); (SHDW_CTRL, SC_ENABLE);
   (ADC_CONVERT, AC_CONV); (SHDW_CTRL, SC_ENABLE); (CONFIG_COV, COV_350);
   (SHDW_CTRL, SC_ENABLE); (CONFIG_CUV, COV_300); (SHDW_CTRL, SC_ENABLE);
   (CONFIG_COVT, 0x81)].

(** A byte read as two's complement. *)
Definition s8 (x : Z) : Z := if 128 <=? x then x - 256 else x.

(** A tidy batch with at most [k] as transfer index, at most [m] bytes
    queued, and the overrun flag at [o]. *)
Definition within (k m : Z) (o : bool) (s : batch) : Prop :=
  tidy s /\ xfer_index s <= k /\ byte_index s <= m /\ overrun s = o.

(** Executing the pending transfers of [s] leaves the simulated chain [ds]
    as it is. *)
Definition settled (ds : list sim_device) (s : batch) : Prop :=
  fst (sim_run ds (wire s)) = ds.

(** Both: room in the batch, and pending transfers the chain ignores. *)
Definition calm (ds : list sim_device) (k m : Z) (o : bool) (s : batch) : Prop :=
  within k m o s /\ settled ds s.

(** What the device at position [i] of the chain, counted from 1, answers
    for [count] registers from [reg] on, as a big-endian value. *)
Definition sim_reading (ds : list sim_device) (i reg count : Z) : Z :=
  match ds !! Z.to_nat (i - 1) with
  | Some d => be_value (sim_payload d reg count)
  | None => 0
  end.

(** The telemetry bytes of the simulated chain: one byte per cell, eight
    bytes per device. *)
Definition sim_cell_byte (ds : list sim_device) (c : cell_t) : Z :=
  voltage_byte (sim_reading ds (chip c) (index c) 2).

Definition sim_device_bytes (ds : list sim_device) (pk : pack) (i : Z) : list Z :=
  [u8 (nth (Z.to_nat i) (cells_per_device pk) 0);
   temperature_byte (sim_reading ds i TEMPERATURE1 2);
   temperature_byte (sim_reading ds i TEMPERATURE2 2);
   sim_reading ds i DEVICE_STATUS 1;
   sim_reading ds i FAULT_STATUS 1;
   sim_reading ds i ALERT_STATUS 1;
   sim_reading ds i CUV_FAULT 1;
   sim_reading ds i COV_FAULT 1].

(** The number of populated taps of chip [i] of the chain. *)
Definition chip_population (ds : list sim_device) (i : Z) : Z :=
  Z.of_nat (length (List.filter (populated ds)
                      (map (fun j => {| chip := i; index := j |}) tap_registers))).

(** [cells_per_device[i]] *)
Definition declared_cells (pk : pack) (i : Z) : Z :=
  nth (Z.to_nat i) (cells_per_device pk) 0.

Definition sum_Z (l : list Z) : Z := fold_right Z.add 0 l.

(** Byte number [k] disturbed by the non-zero pattern [e]. *)
Definition corrupt_byte (k : nat) (e : Z) (l : list Z) : list Z :=
  alter (fun x => Z.lxor x e) k l.

(** A device that reports a fault and an alert, an over-voltage as the
    fault, and no pending address request in the alert register. *)
Definition busy_regs (reg : Z) : Z :=
  if reg =? DEVICE_STATUS then 0xE0
  else if reg =? FAULT_STATUS then 0x01
  else 0.

Definition busy_chain : list sim_device := [set_addr 1 (device busy_regs)].

(** A device after power-on: the fault bit in the status, power-on reset
    as the fault. *)
Definition por_regs (reg : Z) : Z :=
  if reg =? DEVICE_STATUS then 0xC0
  else if reg =? FAULT_STATUS then 0x08
  else 0.

Definition por_chain : list sim_device := [set_addr 1 (device por_regs)].

(** Nine devices with six populated taps each, and their pack description
    as the census leaves it. *)
Definition full_regs (reg : Z) : Z :=
  if reg =? DEVICE_STATUS then 0x81
  else if (VCELL1 <=? reg) && (reg <=? VCELL6) && Z.odd reg then 0x30
  else 0.

Definition crowded_chain : list sim_device :=
  addressed 9 (repeat (device full_regs) 9).

Definition crowded_pack : pack :=
  {| devices_used := 9;
     cells_per_device := [0] ++ repeat 6 9 ++ repeat 0 23;
     cells := all_taps 9;
     total_cell_count := 54 |}.

(** * Properties *)

(** ** Bytes *)

Lemma forall_bytes (f : Z -> bool) :
  forallb f (seqZ 0 256) = true -> forall x, is_byte x -> f x = true.
Proof.
  intros H x Hx. rewrite forallb_forall in H. apply H.
  apply list_elem_of_In, elem_of_seqZ. unfold is_byte in Hx. lia.
Qed.

Lemma forall_bytes2 (f : Z -> Z -> bool) :
  forallb (fun x => forallb (f x) (seqZ 0 256)) (seqZ 0 256) = true ->
  forall x y, is_byte x -> is_byte y -> f x y = true.
Proof.
  intros H x y Hx Hy.
  apply (forall_bytes (f x)); [|exact Hy].
  apply (forall_bytes (fun x => forallb (f x) (seqZ 0 256))); assumption.
Qed.

Lemma u8_byte x : is_byte (u8 x).
Proof. unfold is_byte, u8. apply Z.mod_pos_bound. lia. Qed.

Lemma u8_id x : is_byte x -> u8 x = x.
Proof. unfold is_byte, u8. intros H. apply Z.mod_small. lia. Qed.

Lemma land_255 x : Z.land x 0xff = u8 x.
Proof. change 0xff with (Z.ones 8). rewrite Z.land_ones by lia. reflexivity. Qed.

Lemma lxor_byte x y : is_byte x -> is_byte y -> is_byte (Z.lxor x y).
Proof.
  intros Hx Hy.
  pose proof (forall_bytes2
    (fun x y => (0 <=? Z.lxor x y) && (Z.lxor x y <? 256))) as H.
  specialize (H ltac:(vm_compute; reflexivity) x y Hx Hy). cbv beta in H.
  apply andb_prop in H as [H1 H2]. unfold is_byte. lia.
Qed.

(** ** CRC-8: the table-driven code against the polynomial *)

Lemma crc8_table_populated : crc8_table = crc8_populate_msb 7.
Proof. vm_compute. reflexivity. Qed.

Lemma crc8_table_length : length crc8_table = Z.to_nat CRC_TABLE_SIZE.
Proof. vm_compute. reflexivity. Qed.

Lemma crc8_table_entry x :
  is_byte x -> nth (Z.to_nat x) crc8_table 0 = crc_T x.
Proof.
  intros Hx.
  pose proof (forall_bytes
    (fun x => nth (Z.to_nat x) crc8_table 0 =? crc_T x)) as H.
  specialize (H ltac:(vm_compute; reflexivity) x Hx). cbv beta in H.
  by apply Z.eqb_eq in H.
Qed.

Lemma crc8_spec_byte_T c d : crc8_spec_byte c d = crc_T (Z.lxor c d).
Proof. reflexivity. Qed.

Lemma crc8_step c d :
  nth (Z.to_nat (Z.land (Z.lxor c d) 0xff)) crc8_table 0 = crc8_spec_byte c d.
Proof.
  rewrite crc8_table_entry by (rewrite land_255; apply u8_byte).
  unfold crc_T, crc8_spec_byte. f_equal.
  rewrite !land_255. unfold u8. rewrite Z.mod_mod by lia. reflexivity.
Qed.

(** The table-driven [crc8] computes the CRC-8 of the polynomial
    x^8 + x^2 + x + 1, from any initial register. *)
Lemma crc8_fold data c :
  crc8 crc8_table data c = fold_left crc8_spec_byte data c.
Proof.
  revert c. induction data as [|d rest IH]; intros c; cbn [crc8 fold_left];
    [reflexivity|].
  rewrite crc8_step. apply IH.
Qed.

Lemma crc8_is_spec data : crc8 crc8_table data 0 = crc8_spec data.
Proof. apply crc8_fold. Qed.

Lemma crc8_app t a b c : crc8 t (a ++ b) c = crc8 t b (crc8 t a c).
Proof. revert c. induction a as [|x a IH]; intros c; simpl; [reflexivity|apply IH]. Qed.

Lemma crc_T_byte x : is_byte (crc_T x).
Proof.
  unfold crc_T. rewrite land_255.
  pose proof (forall_bytes
    (fun x => (0 <=? Nat.iter 8 crc8_spec_bit x) && (Nat.iter 8 crc8_spec_bit x <? 256))) as H.
  specialize (H ltac:(vm_compute; reflexivity) (u8 x) (u8_byte x)). cbv beta in H.
  apply andb_prop in H as [H1 H2]. unfold is_byte. lia.
Qed.

Lemma crc_T_linear x y :
  is_byte x -> is_byte y -> crc_T (Z.lxor x y) = Z.lxor (crc_T x) (crc_T y).
Proof.
  intros Hx Hy.
  pose proof (forall_bytes2
    (fun x y => crc_T (Z.lxor x y) =? Z.lxor (crc_T x) (crc_T y))) as H.
  specialize (H ltac:(vm_compute; reflexivity) x y Hx Hy). cbv beta in H.
  by apply Z.eqb_eq in H.
Qed.

Lemma crc_T_nonzero x : is_byte x -> x <> 0 -> crc_T x <> 0.
Proof.
  intros Hx Hne.
  pose proof (forall_bytes
    (fun x => (x =? 0) || negb (crc_T x =? 0))) as H.
  specialize (H ltac:(vm_compute; reflexivity) x Hx). cbv beta in H.
  apply orb_prop in H as [H|H].
  - apply Z.eqb_eq in H. contradiction.
  - apply negb_true_iff, Z.eqb_neq in H. exact H.
Qed.

Lemma crc8_byte data c : is_byte c -> is_byte (crc8 crc8_table data c).
Proof.
  revert c. induction data as [|d rest IH]; intros c Hc; cbn [crc8]; [exact Hc|].
  apply IH. rewrite crc8_step, crc8_spec_byte_T. apply crc_T_byte.
Qed.

Lemma crc8_spec_is_byte data : is_byte (crc8_spec data).
Proof. rewrite <- crc8_is_spec. apply crc8_byte. unfold is_byte. lia. Qed.

(** A disturbance [e] of the register propagates through the remaining
    bytes as [crc_T] applied once per byte. *)
Lemma crc8_disturbed data c e :
  is_byte c -> is_byte e -> Forall is_byte data ->
  crc8 crc8_table data (Z.lxor c e)
  = Z.lxor (crc8 crc8_table data c) (Nat.iter (length data) crc_T e).
Proof.
  intros Hc He Hd. revert c e Hc He.
  induction Hd as [|d rest Hdb Hrest IH]; intros c e Hc He;
    cbn [crc8 length Nat.iter nat_rect]; [reflexivity|].
  rewrite !crc8_step, !crc8_spec_byte_T.
  replace (Z.lxor (Z.lxor c e) d) with (Z.lxor (Z.lxor c d) e)
    by (rewrite !Z.lxor_assoc; f_equal; apply Z.lxor_comm).
  rewrite crc_T_linear by (auto using lxor_byte).
  rewrite IH by (auto using crc_T_byte).
  f_equal. clear. induction (length rest) as [|n IHn]; simpl; [reflexivity|].
  rewrite <- IHn. reflexivity.
Qed.

Lemma crc_T_iter_nonzero n e :
  is_byte e -> e <> 0 -> is_byte (Nat.iter n crc_T e) /\ Nat.iter n crc_T e <> 0.
Proof.
  intros He Hne. induction n as [|n [IH1 IH2]]; simpl; [auto|].
  split; [apply crc_T_byte|apply crc_T_nonzero; assumption].
Qed.

Lemma lxor_nonzero_ne x e : e <> 0 -> Z.lxor x e <> x.
Proof.
  intros He Heq. apply He.
  assert (H : Z.lxor x (Z.lxor x e) = e)
    by (rewrite <- Z.lxor_assoc, Z.lxor_nilpotent, Z.lxor_0_l; reflexivity).
  rewrite Heq, Z.lxor_nilpotent in H. congruence.
Qed.

(** ** Arrays *)

Lemma in_bounds_true {A} (l : list A) i :
  in_bounds l i = true <-> 0 <= i < Z.of_nat (length l).
Proof. unfold in_bounds. rewrite andb_true_iff, Z.leb_le, Z.ltb_lt. tauto. Qed.

Lemma in_bounds_false {A} (l : list A) i :
  in_bounds l i = false <-> ~ (0 <= i < Z.of_nat (length l)).
Proof. rewrite <- in_bounds_true. destruct (in_bounds l i); split; congruence. Qed.

Lemma length_store {A} (l : list A) i x : length (store l i x) = length l.
Proof. unfold store. destruct (in_bounds l i); [apply length_insert|reflexivity]. Qed.

Lemma in_bounds_store {A} (l : list A) i x j :
  in_bounds (store l i x) j = in_bounds l j.
Proof. unfold in_bounds. rewrite length_store. reflexivity. Qed.

Lemma load_store_eq l i x :
  0 <= i < Z.of_nat (length l) -> load (store l i x) i = x.
Proof.
  intros H. unfold load, store. rewrite <- in_bounds_true in H.
  rewrite H. unfold in_bounds. rewrite length_insert. fold (in_bounds l i).
  rewrite H, nth_lookup, list_lookup_insert_eq; [reflexivity|].
  apply in_bounds_true in H. lia.
Qed.

Lemma load_store_ne l i x j : i <> j -> load (store l i x) j = load l j.
Proof.
  intros H. unfold load. rewrite in_bounds_store.
  destruct (in_bounds l j) eqn:Hj; [|reflexivity].
  unfold store. destruct (in_bounds l i) eqn:Hi; [|reflexivity].
  apply in_bounds_true in Hi, Hj.
  rewrite !nth_lookup, list_lookup_insert_ne; [reflexivity|lia].
Qed.

Lemma lookup_store_eq {A} (l : list A) i x :
  0 <= i < Z.of_nat (length l) -> store l i x !! Z.to_nat i = Some x.
Proof.
  intros H. unfold store. apply in_bounds_true in H as H'. rewrite H'.
  apply list_lookup_insert_eq. lia.
Qed.

Lemma lookup_store_ne {A} (l : list A) i x j :
  0 <= j -> i <> j -> store l i x !! Z.to_nat j = l !! Z.to_nat j.
Proof.
  intros Hj H. unfold store. destruct (in_bounds l i) eqn:Hi; [|reflexivity].
  apply in_bounds_true in Hi. apply list_lookup_insert_ne. lia.
Qed.

Lemma length_load_bytes l p n : length (load_bytes l p n) = n.
Proof. revert p. induction n as [|n IH]; intros p; simpl; [|rewrite IH]; reflexivity. Qed.

Lemma load_bytes_app l p n m :
  load_bytes l p (n + m) = load_bytes l p n ++ load_bytes l (p + Z.of_nat n) m.
Proof.
  revert p. induction n as [|n IH]; intros p.
  - simpl. rewrite Z.add_0_r. reflexivity.
  - cbn [Nat.add load_bytes app]. rewrite IH. do 3 f_equal. lia.
Qed.

Lemma load_bytes_store_out l j x p n :
  j < p \/ p + Z.of_nat n <= j -> load_bytes (store l j x) p n = load_bytes l p n.
Proof.
  revert p. induction n as [|n IH]; intros p H; simpl; [reflexivity|].
  rewrite load_store_ne by lia. rewrite IH by lia. reflexivity.
Qed.

Lemma length_store_bytes l p data : length (store_bytes l p data) = length l.
Proof.
  revert l p. induction data as [|d rest IH]; intros l p; simpl; [reflexivity|].
  rewrite IH. apply length_store.
Qed.

Lemma load_store_bytes_out l p data j :
  j < p \/ p + Z.of_nat (length data) <= j ->
  load (store_bytes l p data) j = load l j.
Proof.
  revert l p. induction data as [|d rest IH]; intros l p H; simpl; [reflexivity|].
  simpl in H. rewrite IH by lia. apply load_store_ne. lia.
Qed.

Lemma load_bytes_store_bytes_out l p data q n :
  q + Z.of_nat n <= p \/ p + Z.of_nat (length data) <= q ->
  load_bytes (store_bytes l p data) q n = load_bytes l q n.
Proof.
  revert q. induction n as [|n IH]; intros q H; simpl; [reflexivity|].
  rewrite load_store_bytes_out by lia. rewrite IH by lia. reflexivity.
Qed.

Lemma load_bytes_store_bytes l p data :
  0 <= p -> p + Z.of_nat (length data) <= Z.of_nat (length l) ->
  load_bytes (store_bytes l p data) p (length data) = data.
Proof.
  revert l p. induction data as [|d rest IH]; intros l p Hp H; simpl; [reflexivity|].
  simpl in H. rewrite load_store_bytes_out by lia.
  rewrite load_store_eq by lia. f_equal.
  apply IH; [lia|]. rewrite length_store. lia.
Qed.

(** ** The batch invariant *)

Lemma tidy_prepare s :
  length (xfer s) = Z.to_nat MAX_XFER ->
  length (tx_buff s) = Z.to_nat SPI_BUFF_SIZE ->
  tidy (bq_prepare_spi_message s).
Proof.
  intros Hx Ht. split; cbn; try assumption; try reflexivity; try lia.
  - unfold MAX_XFER. lia.
  - unfold SPI_BUFF_SIZE. lia.
  - constructor.
  - constructor.
Qed.

Lemma tidy_prepare_tidy s : tidy s -> tidy (bq_prepare_spi_message s).
Proof. intros H. apply tidy_prepare; apply H. Qed.

Lemma slot_below_mono b1 b2 t : b1 <= b2 -> slot_below b1 t -> slot_below b2 t.
Proof.
  intros Hb (p & H1 & H2 & H3 & H4 & H5). exists p. repeat split; try assumption. lia.
Qed.

Lemma wire_of_store tx j x t bound :
  slot_below bound t -> bound <= j -> wire_of (store tx j x) t = wire_of tx t.
Proof.
  intros (p & H1 & H2 & H3 & H4 & H5) Hj. unfold wire_of. rewrite H1.
  f_equal. apply load_bytes_store_out. lia.
Qed.

(** Linking slot [xi] after the queued ones appends it to the message. *)
Lemma queued_link (s : batch) xi slot tx rx bi ov :
  length (xfer s) = Z.to_nat MAX_XFER ->
  Forall (fun i => 0 <= i <= xfer_index s) (msg s) ->
  xi = xfer_index s + 1 -> 0 <= xi < MAX_XFER ->
  queued {| xfer := store (xfer s) xi slot; msg := msg s ++ [xi];
            tx_buff := tx; rx_buff := rx; xfer_index := xi;
            byte_index := bi; overrun := ov |}
  = queued s ++ [slot].
Proof.
  intros Hlen Hmsg Hxi Hrange. unfold queued. cbn [msg xfer].
  rewrite omap_app. f_equal.
  - induction Hmsg as [|i rest Hi Hrest IH]; [reflexivity|].
    cbn [omap list_omap]. rewrite in_bounds_store, IH.
    rewrite lookup_store_ne by lia. reflexivity.
  - cbn [omap list_omap]. rewrite in_bounds_store.
    assert (Hb : in_bounds (xfer s) xi = true)
      by (apply in_bounds_true; rewrite Hlen; lia).
    rewrite Hb, lookup_store_eq by (rewrite Hlen; lia). reflexivity.
Qed.

Lemma load_bytes_3 tx bi a b c :
  0 <= bi -> bi + 3 <= Z.of_nat (length tx) ->
  load_bytes (store (store (store tx bi a) (bi + 1) b) (bi + 2) c) bi 3 = [a; b; c].
Proof.
  intros H0 H1. cbn [load_bytes].
  replace (bi + 1 + 1) with (bi + 2) by lia.
  rewrite load_store_ne, load_store_ne, load_store_eq by lia.
  rewrite load_store_ne, load_store_eq by (rewrite ?length_store; lia).
  rewrite load_store_eq by (rewrite ?length_store; lia). reflexivity.
Qed.

Lemma load_bytes_4 tx bi a b c d :
  0 <= bi -> bi + 4 <= Z.of_nat (length tx) ->
  load_bytes
    (store (store (store (store tx bi a) (bi + 1) b) (bi + 2) c) (bi + 3) d) bi 4
  = [a; b; c; d].
Proof.
  intros H0 H1. change 4%nat with (3 + 1)%nat. rewrite load_bytes_app.
  rewrite load_bytes_store_out by lia. rewrite load_bytes_3 by lia.
  cbn [load_bytes app]. change (Z.of_nat 3) with 3.
  rewrite load_store_eq by (rewrite ?length_store; lia). reflexivity.
Qed.

Lemma shiftl1_even x : Z.testbit (u8 (Z.shiftl x 1)) 0 = false.
Proof.
  unfold u8. rewrite Z.shiftl_mul_pow2 by lia. change (2 ^ 1) with 2.
  rewrite Z.bit0_odd. change 256 with (2 * 128).
  rewrite Z.mul_comm, Zmult_mod_distr_l, Z.odd_mul. reflexivity.
Qed.

(** [writeRegister] on a batch with room: the frame of the codec is queued
    after the transfers already pending. *)
Lemma writeRegister_tidy a r d s :
  tidy s -> xfer_index s < MAX_XFER - 1 -> byte_index s + 4 <= SPI_BUFF_SIZE ->
  exists s',
    writeRegister a r d s = (0, s') /\ tidy s'
    /\ wire s' = wire s ++ [{| wx_tx := write_frame a r d; wx_rx := false |}]
    /\ xfer_index s' = xfer_index s + 1
    /\ byte_index s' = byte_index s + 4
    /\ overrun s' = overrun s
    /\ rx_buff s' = rx_buff s.
Proof.
  intros [Hx Ht Hr Hi Hb Hm Hs] Hroom Hbytes.
  unfold MAX_XFER, SPI_BUFF_SIZE in *.
  unfold writeRegister.
  destruct (MAX_XFER <=? xfer_index s) eqn:Hfull;
    [apply Z.leb_le in Hfull; unfold MAX_XFER in Hfull; lia|].
  eexists. split; [reflexivity|].
  set (cmd := Z.lor (u8 (Z.shiftl (u8 a) 1)) 1).
  set (bi := byte_index s) in *.
  set (xi := xfer_index s + 1).
  set (slot := {| cs_change := 1; tx_buf := Some bi; rx_buf := None; len := 4 |}).
  assert (Hq := queued_link s xi slot).
  match goal with |- tidy ?s' /\ _ => set (s1 := s') end.
  assert (Hq1 : queued s1 = queued s ++ [slot]).
  { apply Hq; unfold MAX_XFER; try assumption; try reflexivity; lia. }
  assert (Hxi : in_bounds (xfer s) xi = true)
    by (apply in_bounds_true; rewrite Hx; unfold MAX_XFER; lia).
  assert (Hb0 : in_bounds (tx_buff s) bi = true)
    by (apply in_bounds_true; rewrite Ht; unfold SPI_BUFF_SIZE; lia).
  assert (Hb3 : in_bounds (tx_buff s) (bi + 3) = true)
    by (apply in_bounds_true; rewrite Ht; unfold SPI_BUFF_SIZE; lia).
  split; [|split; [|repeat split]].
  - split; cbn [xfer tx_buff rx_buff xfer_index byte_index msg s1].
    + rewrite length_store. exact Hx.
    + rewrite !length_store. exact Ht.
    + exact Hr.
    + unfold MAX_XFER. lia.
    + unfold SPI_BUFF_SIZE. fold bi. lia.
    + apply Forall_app. split.
      * eapply Forall_impl; [exact Hm|]. cbv beta. intros. lia.
      * constructor; [lia|constructor].
    + rewrite Hq1. apply Forall_app. split.
      * eapply Forall_impl; [exact Hs|]. intros t. apply slot_below_mono. lia.
      * constructor; [|constructor]. exists bi. cbn. repeat split; try lia. left. reflexivity.
  - unfold wire. rewrite Hq1, map_app. cbn [tx_buff s1]. f_equal.
    + apply map_ext_Forall. eapply Forall_impl; [exact Hs|]. intros t Ht0. cbv beta.
      rewrite !(wire_of_store _ _ _ t bi) by (assumption || lia). reflexivity.
    + cbn [map]. unfold wire_of. cbn [tx_buf rx_buf len slot]. do 2 f_equal.
      change (Z.to_nat 4) with 4%nat.
      rewrite load_bytes_3 by (rewrite ?Ht; unfold SPI_BUFF_SIZE; lia).
      rewrite load_bytes_4 by (rewrite ?Ht; unfold SPI_BUFF_SIZE; lia).
      unfold write_frame. fold cmd. rewrite crc8_is_spec. reflexivity.
  - cbn. rewrite Hxi, Hb0, Hb3. cbn. rewrite !orb_false_r. reflexivity.
Qed.

Lemma length_fit n rx : length (fit n rx) = n.
Proof.
  unfold fit. rewrite length_take, length_app, length_map, repeat_length. lia.
Qed.

Lemma fit_is_byte n rx : Forall is_byte (fit n rx).
Proof.
  unfold fit. apply Forall_take, Forall_app. split.
  - apply Forall_forall. intros x Hx. apply list_elem_of_fmap in Hx as (y & -> & _).
    apply u8_byte.
  - apply Forall_forall. intros x Hx. apply list_elem_of_In, repeat_spec in Hx.
    subst. unfold is_byte. lia.
Qed.

Lemma fit_exact n rx :
  length rx = n -> Forall is_byte rx -> fit n rx = rx.
Proof.
  intros Hn Hb. unfold fit.
  rewrite take_app_length' by (rewrite length_map; symmetry; exact Hn).
  clear Hn. induction Hb as [|x l Hx Hl IH]; [reflexivity|].
  cbn [map]. rewrite (u8_id x Hx). f_equal. exact IH.
Qed.

Lemma rx_stores_app ts t rxs rx acc :
  length ts = length rxs ->
  rx_stores (ts ++ [t]) (rxs ++ [rx]) acc = rx_stores [t] [rx] (rx_stores ts rxs acc).
Proof.
  revert rxs acc. induction ts as [|t0 ts IH]; intros rxs acc Hlen.
  - destruct rxs; [reflexivity|discriminate].
  - destruct rxs as [|rx0 rxs]; [discriminate|].
    cbn [app rx_stores hd tl]. apply IH. simpl in Hlen. lia.
Qed.

Lemma rx_stores_safe ts rxs buf ov bound :
  Forall (slot_below bound) ts -> bound <= Z.of_nat (length buf) ->
  length (fst (rx_stores ts rxs (buf, ov))) = length buf
  /\ snd (rx_stores ts rxs (buf, ov)) = ov.
Proof.
  intros Hts. revert rxs buf ov.
  induction Hts as [|t ts Ht Hts IH]; intros rxs buf ov Hb; [split; reflexivity|].
  cbn [rx_stores]. destruct Ht as (p & H1 & H2 & H3 & H4 & [H5|H5]); rewrite H5.
  - apply IH. exact Hb.
  - cbn [fst snd].
    match goal with |- context [rx_stores ts _ (?b1, ?o1)] =>
      destruct (IH (tl rxs) b1 o1) as [IH1 IH2] end.
    { rewrite length_store_bytes. exact Hb. }
    rewrite IH1, IH2, length_store_bytes. split; [reflexivity|].
    destruct (0 <? len t) eqn:Hl; [|apply orb_false_r].
    apply Z.ltb_lt in Hl.
    assert (E1 : in_bounds buf p = true) by (apply in_bounds_true; lia).
    assert (E2 : in_bounds buf (p + len t - 1) = true) by (apply in_bounds_true; lia).
    rewrite E1, E2. apply orb_false_r.
Qed.

Lemma lor_shift_bytes x y :
  is_byte x -> is_byte y -> Z.lor (Z.shiftl x 8) y = x * 256 + y.
Proof.
  intros Hx Hy.
  pose proof (forall_bytes2 (fun x y => Z.lor (Z.shiftl x 8) y =? x * 256 + y)) as H.
  specialize (H ltac:(vm_compute; reflexivity) x y Hx Hy). cbv beta in H.
  by apply Z.eqb_eq in H.
Qed.

(** [queue_read] on a batch with room: the request is queued after the
    transfers already pending, followed by [count + 1] bytes of whatever
    [tx_buff] holds. *)
Lemma queue_read_tidy a r count s :
  tidy s -> xfer_index s < MAX_XFER - 1 -> count = 1 \/ count = 2 ->
  byte_index s + 4 + count <= SPI_BUFF_SIZE ->
  let s1 := queue_read (u8 a) (u8 r) count s in
  let slot := {| cs_change := 1; tx_buf := Some (byte_index s);
                 rx_buf := Some (byte_index s); len := 4 + count |} in
  tidy s1
  /\ queued s1 = queued s ++ [slot]
  /\ wire s1 = wire s ++
       [{| wx_tx := read_request a r count
                    ++ load_bytes (tx_buff s) (byte_index s + 3) (Z.to_nat (count + 1));
           wx_rx := true |}]
  /\ load_bytes (tx_buff s1) (byte_index s) 3 = read_request a r count
  /\ xfer_index s1 = xfer_index s + 1
  /\ byte_index s1 = byte_index s + 4 + count
  /\ overrun s1 = overrun s
  /\ rx_buff s1 = rx_buff s.
Proof.
  intros [Hx Ht Hr Hi Hb Hm Hs] Hroom Hcount Hbytes s1 slot.
  unfold MAX_XFER, SPI_BUFF_SIZE in *.
  set (bi := byte_index s) in *.
  set (xi := xfer_index s + 1).
  assert (Hq1 : queued s1 = queued s ++ [slot]).
  { apply (queued_link s xi slot); unfold MAX_XFER; try assumption; try reflexivity; lia. }
  assert (Hxi : in_bounds (xfer s) xi = true)
    by (apply in_bounds_true; rewrite Hx; unfold MAX_XFER; lia).
  assert (Hb0 : in_bounds (tx_buff s) bi = true)
    by (apply in_bounds_true; rewrite Ht; unfold SPI_BUFF_SIZE; lia).
  assert (Hb2 : in_bounds (tx_buff s) (bi + 2) = true)
    by (apply in_bounds_true; rewrite Ht; unfold SPI_BUFF_SIZE; lia).
  assert (Hl3 : load_bytes (tx_buff s1) bi 3 = read_request a r count).
  { cbn [s1 queue_read tx_buff]. fold bi.
    rewrite load_bytes_3 by (rewrite ?Ht; unfold SPI_BUFF_SIZE; lia). reflexivity. }
  split; [|split; [exact Hq1|split; [|split; [exact Hl3|repeat split]]]].
  - split; cbn [xfer tx_buff rx_buff xfer_index byte_index msg s1 queue_read].
    + rewrite length_store. exact Hx.
    + rewrite !length_store. exact Ht.
    + exact Hr.
    + unfold MAX_XFER. lia.
    + unfold SPI_BUFF_SIZE. fold bi. lia.
    + apply Forall_app. split.
      * eapply Forall_impl; [exact Hm|]. cbv beta. intros. lia.
      * constructor; [lia|constructor].
    + fold s1. rewrite Hq1. apply Forall_app. split.
      * eapply Forall_impl; [exact Hs|]. intros t. apply slot_below_mono. fold bi. lia.
      * constructor; [|constructor]. exists bi. cbn. fold bi. repeat split; try lia.
        right. reflexivity.
  - unfold wire. rewrite Hq1, map_app. f_equal.
    + cbn [s1 queue_read tx_buff]. fold bi.
      apply map_ext_Forall. eapply Forall_impl; [exact Hs|]. intros t Ht0. cbv beta.
      rewrite !(wire_of_store _ _ _ t bi) by (assumption || lia). reflexivity.
    + cbn [map]. unfold wire_of. cbn [tx_buf rx_buf len slot]. do 2 f_equal.
      replace (Z.to_nat (4 + count)) with (3 + Z.to_nat (count + 1))%nat by lia.
      rewrite load_bytes_app. fold bi. rewrite Hl3. f_equal.
      cbn [s1 queue_read tx_buff]. change (Z.of_nat 3) with 3. fold bi.
      rewrite !load_bytes_store_out by lia. reflexivity.
  - cbn [s1 queue_read byte_index]. fold bi. lia.
  - cbn [s1 queue_read overrun]. fold xi bi. rewrite Hxi, Hb0, Hb2. cbn.
    rewrite !orb_false_r. reflexivity.
Qed.

Lemma tidy_ext s s2 :
  tidy s -> xfer s2 = xfer s -> msg s2 = msg s ->
  length (tx_buff s2) = length (tx_buff s) ->
  length (rx_buff s2) = length (rx_buff s) ->
  xfer_index s2 = xfer_index s -> byte_index s2 = byte_index s ->
  tidy s2.
Proof.
  intros [Hx Ht Hr Hi Hb Hm Hs] E1 E2 E3 E4 E5 E6.
  assert (Hq : queued s2 = queued s) by (unfold queued; rewrite E1, E2; reflexivity).
  split; rewrite ?E1, ?E2, ?E3, ?E4, ?E5, ?E6, ?Hq; assumption.
Qed.

Section Transport.

Context {B : Type}.
Variable hw : B -> list wire_xfer -> B * Z * list (list Z).

(** After [spi_sync], the bytes received during the last transfer of the
    message are in [rx_buff] at its [rx_buf]; nothing else of the batch
    changes. *)
Lemma spi_sync_last s b b' status rxs0 rx ts t p :
  tidy s -> queued s = ts ++ [t] -> rx_buf t = Some p ->
  hw b (wire s) = (b', status, rxs0 ++ [rx]) -> length rxs0 = length ts ->
  exists s2,
    spi_sync hw s b = (status, s2, b')
    /\ tidy s2 /\ queued s2 = queued s /\ wire s2 = wire s
    /\ tx_buff s2 = tx_buff s
    /\ xfer_index s2 = xfer_index s /\ byte_index s2 = byte_index s
    /\ overrun s2 = overrun s
    /\ load_bytes (rx_buff s2) p (Z.to_nat (len t)) = fit (Z.to_nat (len t)) rx.
Proof.
  intros Htidy Hq Hrx Hhw Hlen.
  pose proof Htidy as [Hx Ht Hr Hi Hb Hm Hs].
  unfold SPI_BUFF_SIZE in Hr, Hb.
  unfold spi_sync. rewrite Hhw, Hq, rx_stores_app by (symmetry; exact Hlen).
  rewrite Hq in Hs. apply Forall_app in Hs as [Hs0 Hs1].
  apply Forall_cons in Hs1 as [(p' & H1 & H2 & H3 & H4 & H5) _].
  assert (p' = p) as -> by (destruct H5 as [H5|H5]; congruence).
  destruct (rx_stores_safe ts rxs0 (rx_buff s) (overrun s) (byte_index s) Hs0)
    as [L1 L2]; [rewrite Hr; lia|].
  destruct (rx_stores ts rxs0 (rx_buff s, overrun s)) as [buf ov].
  cbn [fst snd] in L1, L2. subst ov.
  cbn [rx_stores]. rewrite Hrx. cbn [fst snd hd tl].
  assert (Hov : (0 <? len t)
                && negb (in_bounds buf p && in_bounds buf (p + len t - 1)) = false).
  { destruct (0 <? len t) eqn:Hl; [|reflexivity]. apply Z.ltb_lt in Hl.
    assert (E1 : in_bounds buf p = true)
      by (apply in_bounds_true; rewrite L1, Hr; lia).
    assert (E2 : in_bounds buf (p + len t - 1) = true)
      by (apply in_bounds_true; rewrite L1, Hr; lia).
    rewrite E1, E2. reflexivity. }
  rewrite Hov, orb_false_r.
  eexists. split; [reflexivity|].
  cbn [xfer msg tx_buff rx_buff xfer_index byte_index overrun].
  split; [|split; [|split; [|repeat split]]].
  - eapply tidy_ext; [exact Htidy|..]; cbn; try reflexivity.
    rewrite length_store_bytes. exact L1.
  - rewrite <- Hq. reflexivity.
  - reflexivity.
  - pose proof (length_fit (Z.to_nat (len t)) rx) as Lf.
    set (data := fit (Z.to_nat (len t)) rx) in *. rewrite <- Lf.
    apply load_bytes_store_bytes; [lia|].
    rewrite Lf, L1, Hr. lia.
Qed.

(** A non-zero transfer status is what [readRegister] returns. *)
Lemma readRegister_status a r count s b b' status rxs :
  count = 1 \/ count = 2 -> xfer_index s < MAX_XFER - 1 ->
  hw b (wire (queue_read (u8 a) (u8 r) count s)) = (b', status, rxs) ->
  status <> 0 ->
  exists s2, readRegister hw a r count s b = (status, s2, b').
Proof.
  intros Hc Hx Hhw Hst. unfold readRegister.
  assert (E : negb (count =? 1) && negb (count =? 2) = false)
    by (destruct Hc; subst; reflexivity).
  rewrite E.
  destruct (MAX_XFER <=? xfer_index s + 1) eqn:Hfull;
    [apply Z.leb_le in Hfull; lia|].
  unfold spi_sync. rewrite Hhw.
  destruct (rx_stores _ _ _) as [rxb ov].
  apply Z.eqb_neq in Hst. rewrite Hst. cbn [negb]. eexists. reflexivity.
Qed.

(** [readRegister] on a batch with room, when the transfer succeeds: the
    bytes received after the three request bytes are checked against the
    CRC-8 of request and payload, and the payload is returned big-endian. *)
Lemma readRegister_response a r count s b b' rxs0 rx pre payload c :
  tidy s -> xfer_index s < MAX_XFER - 1 -> count = 1 \/ count = 2 ->
  byte_index s + 4 + count <= SPI_BUFF_SIZE ->
  hw b (wire (queue_read (u8 a) (u8 r) count s)) = (b', 0, rxs0 ++ [rx]) ->
  length rxs0 = length (queued s) ->
  fit (Z.to_nat (4 + count)) rx = pre ++ payload ++ [c] ->
  length pre = 3%nat -> length payload = Z.to_nat count ->
  exists s2,
    readRegister hw a r count s b
    = (if crc8_spec (read_request a r count ++ payload) =? c
       then be_value payload else - EFAULT, s2, b')
    /\ tidy s2
    /\ wire s2 = wire (queue_read (u8 a) (u8 r) count s)
    /\ xfer_index s2 = xfer_index s + 1
    /\ byte_index s2 = byte_index s + 4 + count
    /\ overrun s2 = overrun s.
Proof.
  intros Htidy Hroom Hc Hbytes Hhw Hlen Hfit Hpre Hpay.
  destruct (queue_read_tidy a r count s Htidy Hroom Hc Hbytes)
    as (T1 & Q1 & W1 & L1 & X1 & B1 & O1 & R1).
  destruct (spi_sync_last _ b b' 0 rxs0 rx _ _ (byte_index s) T1 Q1 eq_refl Hhw Hlen)
    as (s2 & Hsync & T2 & Q2 & W2 & TX2 & X2 & B2 & O2 & L2).
  cbn [len] in L2. rewrite Hfit in L2.
  unfold readRegister.
  assert (E : negb (count =? 1) && negb (count =? 2) = false)
    by (destruct Hc; subst; reflexivity).
  rewrite E.
  destruct (MAX_XFER <=? xfer_index s + 1) eqn:Hfull;
    [apply Z.leb_le in Hfull; lia|].
  rewrite Hsync. cbn [Z.eqb negb].
  exists s2.
  split; [|split; [exact T2|split; [exact W2|split; [congruence|split; congruence]]]].
  f_equal. f_equal. unfold check_read, check_read_as. rewrite TX2, L1.
  pose proof (fit_is_byte (Z.to_nat (4 + count)) rx) as Hfb. rewrite Hfit in Hfb.
  apply Forall_app in Hfb as [_ Hfb]. apply Forall_app in Hfb as [Hpb Hcb].
  apply Forall_cons in Hcb as [Hcb _].
  replace (Z.to_nat (4 + count)) with (3 + (Z.to_nat count + 1))%nat in L2 by lia.
  rewrite load_bytes_app in L2.
  apply app_inj_1 in L2 as [_ L2]; [|rewrite length_load_bytes; lia].
  rewrite load_bytes_app in L2.
  apply app_inj_1 in L2 as [L2 L3]; [|rewrite length_load_bytes; lia].
  change (Z.of_nat 3) with 3 in *. rewrite L2.
  cbn [load_bytes] in L3. injection L3 as L3.
  replace (byte_index s + count + 3) with (byte_index s + 3 + Z.of_nat (Z.to_nat count))
    by lia.
  rewrite L3. unfold char_of_byte, plain_char_signed.
  rewrite <- crc8_app, crc8_is_spec.
  destruct (crc8_spec (read_request a r count ++ payload) =? c); cbn [negb];
    [|reflexivity].
  destruct Hc as [-> | ->].
  - destruct payload as [|x [|? ?]]; try discriminate. cbn [load_bytes] in L2.
    injection L2 as L2. rewrite L2. reflexivity.
  - destruct payload as [|x [|y [|? ?]]]; try discriminate. cbn [load_bytes] in L2.
    injection L2 as L2 L2'. rewrite L2, L2'. cbn.
    apply Forall_cons in Hpb as [Hxb Hyb]. apply Forall_cons in Hyb as [Hyb _].
    apply lor_shift_bytes; assumption.
Qed.

End Transport.

(** ** Error detection of the CRC-8 *)

(** A response passes the check exactly when the CRC register, run over
    payload and CRC byte, ends at zero. *)
Lemma crc8_residue payload c c0 :
  is_byte c0 -> is_byte c ->
  (crc8 crc8_table payload c0 =? c) = (crc8 crc8_table (payload ++ [c]) c0 =? 0).
Proof.
  intros H0 Hc. rewrite crc8_app. cbn [crc8]. rewrite crc8_step, crc8_spec_byte_T.
  pose proof (crc8_byte payload c0 H0) as Hz.
  set (z := crc8 crc8_table payload c0) in *.
  destruct (z =? c) eqn:E.
  - apply Z.eqb_eq in E. subst c. rewrite Z.lxor_nilpotent. reflexivity.
  - symmetry. apply Z.eqb_neq. apply Z.eqb_neq in E.
    apply crc_T_nonzero; [apply lxor_byte; assumption|].
    intros Hx. apply Z.lxor_eq in Hx. contradiction.
Qed.

Lemma pow2_byte j : 0 <= j < 8 -> is_byte (2 ^ j) /\ 2 ^ j <> 0.
Proof.
  intros Hj. unfold is_byte.
  assert (j = 0 \/ j = 1 \/ j = 2 \/ j = 3 \/ j = 4 \/ j = 5 \/ j = 6 \/ j = 7) by lia.
  repeat (destruct H as [-> | H]; [cbn; lia|]). subst. cbn. lia.
Qed.

Lemma flip_bit_is_byte k j l :
  0 <= j < 8 -> Forall is_byte l -> Forall is_byte (flip_bit k j l).
Proof.
  intros Hj Hl. unfold flip_bit. revert k.
  induction Hl as [|x l Hx Hl IH]; intros k; [constructor|].
  destruct k as [|k]; cbn; constructor; auto.
  apply lxor_byte; [assumption|apply pow2_byte; assumption].
Qed.

Lemma length_flip_bit k j l : length (flip_bit k j l) = length l.
Proof. unfold flip_bit. apply length_alter. Qed.

(** One flipped bit moves the CRC register off its value. *)
Lemma crc8_flip_detected k j resp c0 :
  is_byte c0 -> Forall is_byte resp -> (k < length resp)%nat -> 0 <= j < 8 ->
  crc8 crc8_table (flip_bit k j resp) c0 <> crc8 crc8_table resp c0.
Proof.
  intros H0 Hr Hk Hj. revert k c0 H0 Hk.
  induction Hr as [|x l Hx Hl IH]; intros k c0 H0 Hk; [simpl in Hk; lia|].
  destruct (pow2_byte j Hj) as [He Hne].
  destruct k as [|k]; unfold flip_bit; cbn [alter list_alter crc8].
  - rewrite !crc8_step, !crc8_spec_byte_T.
    rewrite <- Z.lxor_assoc, crc_T_linear by (auto using lxor_byte).
    rewrite crc8_disturbed by (auto using crc_T_byte).
    apply lxor_nonzero_ne.
    apply (crc_T_iter_nonzero (length l) (crc_T (2 ^ j)));
      [apply crc_T_byte|apply crc_T_nonzero; assumption].
  - apply IH; [|simpl in Hk; lia].
    rewrite crc8_step, crc8_spec_byte_T. apply crc_T_byte.
Qed.

Lemma be_value_1 x : be_value [x] = x.
Proof. reflexivity. Qed.

Lemma be_value_2 x y : be_value [x; y] = x * 256 + y.
Proof. reflexivity. Qed.

(** ** Frame codec *)

Lemma writeRegister_bytes a r d s :
  xfer_index s < MAX_XFER -> 0 <= byte_index s ->
  byte_index s + 4 <= Z.of_nat (length (tx_buff s)) ->
  load_bytes (tx_buff (snd (writeRegister a r d s))) (byte_index s) 4
  = write_frame a r d.
Proof.
  intros Hx H0 H4. unfold writeRegister.
  destruct (MAX_XFER <=? xfer_index s) eqn:Hfull; [apply Z.leb_le in Hfull; lia|].
  cbn [snd tx_buff]. rewrite load_bytes_3, load_bytes_4 by lia.
  unfold write_frame. rewrite crc8_is_spec. reflexivity.
Qed.

(** C9. For every address, register and data byte, [writeRegister] on a
    batch with room queues exactly the four bytes
    [address<<1 | 1, register, data, c], [c] being the CRC-8 (polynomial
    x^8 + x^2 + x + 1, initial value 0) of the first three: they are the
    bytes stored at [byte_index], which advances by 4, and the bytes the new
    transfer puts on the wire. *)
Theorem writeRegister_frame (address reg data : Z) (s : batch) :
  is_byte address -> is_byte reg -> is_byte data ->
  tidy s -> xfer_index s < MAX_XFER - 1 -> byte_index s + 4 <= SPI_BUFF_SIZE ->
  let command := Z.lor (u8 (Z.shiftl address 1)) 1 in
  let frame := [command; reg; data; crc8_spec [command; reg; data]] in
  let s' := snd (writeRegister address reg data s) in
  fst (writeRegister address reg data s) = 0
  /\ load_bytes (tx_buff s') (byte_index s) 4 = frame
  /\ byte_index s' = byte_index s + 4
  /\ wire s' = wire s ++ [{| wx_tx := frame; wx_rx := false |}].
Proof.
  intros Ha Hr Hd Htidy Hroom Hbytes command frame s'.
  destruct (writeRegister_tidy address reg data s Htidy Hroom Hbytes)
    as (s1 & Hw & T1 & W1 & X1 & B1 & O1 & R1).
  assert (Hf : write_frame address reg data = frame).
  { unfold write_frame, frame, command.
    rewrite (u8_id address), (u8_id reg), (u8_id data) by assumption. reflexivity. }
  subst s'. rewrite Hw. cbn [fst snd]. rewrite W1, Hf.
  split; [reflexivity|split; [|split; [exact B1|reflexivity]]].
  rewrite <- Hf. replace s1 with (snd (writeRegister address reg data s))
    by (rewrite Hw; reflexivity).
  pose proof Htidy as [_ Ht _ _ Hb _ _]. unfold SPI_BUFF_SIZE in *.
  apply writeRegister_bytes; [unfold MAX_XFER in *; lia|lia|rewrite Ht; lia].
Qed.

Lemma writeRegister_frame_witness :
  let s' := snd (writeRegister BROADCAST ADC_CONVERT AC_CONV
                   (bq_prepare_spi_message initial_batch)) in
  fst (writeRegister BROADCAST ADC_CONVERT AC_CONV
         (bq_prepare_spi_message initial_batch)) = 0
  /\ load_bytes (tx_buff s') 0 4 = [0x7F; 0x34; 0x01; crc8_spec [0x7F; 0x34; 0x01]]
  /\ byte_index s' = 4
  /\ wire s' = [{| wx_tx := [0x7F; 0x34; 0x01; crc8_spec [0x7F; 0x34; 0x01]];
                   wx_rx := false |}].
Proof.
  apply (writeRegister_frame BROADCAST ADC_CONVERT AC_CONV
           (bq_prepare_spi_message initial_batch)).
  - unfold is_byte, BROADCAST. lia.
  - unfold is_byte, ADC_CONVERT. lia.
  - unfold is_byte, AC_CONV. lia.
  - apply tidy_prepare; reflexivity.
  - vm_compute. reflexivity.
  - vm_compute. discriminate.
Defined.

(** C1. For every address, register and count in {1, 2}: when the bus
    answers the read with a response whose trailing byte is the CRC-8 of the
    three request bytes followed by the payload, [readRegister] returns the
    payload (the byte itself, or the big-endian pair); when one bit of the
    payload or of the CRC byte is flipped, it returns the error [-EFAULT]
    instead of a value. [pre] are the three bytes clocked in while the
    request goes out, [rxs0] what the transfers queued before received. *)
Theorem readRegister_decode {B : Type}
    (hw : B -> list wire_xfer -> B * Z * list (list Z))
    (address reg count : Z) (s : batch) (b b' : B)
    (rxs0 : list (list Z)) (pre payload resp : list Z) :
  is_byte address -> is_byte reg -> count = 1 \/ count = 2 ->
  tidy s -> xfer_index s < MAX_XFER - 1 ->
  byte_index s + 4 + count <= SPI_BUFF_SIZE ->
  length pre = 3%nat -> Forall is_byte pre ->
  length payload = Z.to_nat count -> Forall is_byte payload ->
  hw b (wire (queue_read address reg count s)) = (b', 0, rxs0 ++ [pre ++ resp]) ->
  length rxs0 = length (queued s) ->
  let request := [u8 (Z.shiftl address 1); reg; count] in
  let good := payload ++ [crc8_spec (request ++ payload)] in
  (resp = good ->
   fst (fst (readRegister hw address reg count s b)) = be_value payload)
  /\ (forall (k : nat) (j : Z),
        (k < length good)%nat -> 0 <= j < 8 -> resp = flip_bit k j good ->
        fst (fst (readRegister hw address reg count s b)) = - EFAULT).
Proof.
  intros Ha Hr Hc Htidy Hroom Hbytes Hpre Hpreb Hpay Hpayb Hhw Hlen request good.
  assert (Hreq : read_request address reg count = request).
  { unfold read_request, request.
    rewrite (u8_id address), (u8_id reg), (u8_id count); try assumption;
      try reflexivity.
    destruct Hc; subst; unfold is_byte; lia. }
  assert (Hgoodb : Forall is_byte good).
  { apply Forall_app. split; [assumption|].
    constructor; [apply crc8_spec_is_byte|constructor]. }
  assert (Hgoodl : length good = (Z.to_nat count + 1)%nat).
  { unfold good. rewrite length_app, Hpay. reflexivity. }
  rewrite <- (u8_id address Ha), <- (u8_id reg Hr) in Hhw.
  split.
  - intros ->.
    destruct (readRegister_response hw address reg count s b b' rxs0 (pre ++ good)
                pre payload (crc8_spec (request ++ payload)))
      as (s2 & Hread & _); try assumption.
    { rewrite fit_exact; [reflexivity| |].
      - rewrite length_app, Hpre, Hgoodl. lia.
      - apply Forall_app. split; assumption. }
    rewrite Hread, Hreq, Z.eqb_refl. reflexivity.
  - intros k j Hk Hj ->.
    pose proof (flip_bit_is_byte k j good Hj Hgoodb) as Hfb.
    pose proof (length_flip_bit k j good) as Hfl.
    destruct (flip_bit k j good) as [|x0 l0] eqn:Hflip using rev_ind;
      [rewrite Hgoodl in Hfl; simpl in Hfl; lia|].
    rename x0 into c'. rename l0 into payload'.
    rewrite length_app, Hgoodl in Hfl. cbn [length] in Hfl.
    apply Forall_app in Hfb as [Hpb' Hcb']. apply Forall_cons in Hcb' as [Hcb' _].
    destruct (readRegister_response hw address reg count s b b' rxs0
                (pre ++ payload' ++ [c']) pre payload' c')
      as (s2 & Hread & _); try assumption; try lia.
    { rewrite fit_exact; [reflexivity| |].
      - rewrite !length_app, Hpre. cbn [length]. lia.
      - apply Forall_app. split; [assumption|]. apply Forall_app. split; auto. }
    rewrite Hread, Hreq. cbn [fst].
    assert (Hbad : (crc8_spec (request ++ payload') =? c') = false).
    { rewrite <- (crc8_is_spec (request ++ payload')), crc8_app, crc8_is_spec.
      rewrite crc8_residue by (auto using crc8_spec_is_byte).
      apply Z.eqb_neq. rewrite <- Hflip.
      assert (Hzero : crc8 crc8_table good (crc8_spec request) = 0).
      { apply Z.eqb_eq. unfold good.
        rewrite <- crc8_residue by (auto using crc8_spec_is_byte).
        rewrite <- (crc8_is_spec (request ++ payload)), crc8_app, crc8_is_spec.
        apply Z.eqb_refl. }
      rewrite <- Hzero.
      apply crc8_flip_detected; auto using crc8_spec_is_byte. }
    rewrite Hbad. reflexivity.
Qed.

Lemma readRegister_decode_witness :
  fst (fst (readRegister sim_hw 1 DEVICE_STATUS 1
              (bq_prepare_spi_message initial_batch) ready_chain)) = 0x81
  /\ fst (fst (readRegister sim_hw 2 DEVICE_STATUS 1
                 (bq_prepare_spi_message initial_batch) garbled_chain)) = - EFAULT.
Proof.
  split.
  - apply (readRegister_decode sim_hw 1 DEVICE_STATUS 1
             (bq_prepare_spi_message initial_batch) ready_chain ready_chain []
             [0; 0; 0] [0x81] [0x81; crc8_spec [2; 0; 1; 0x81]]).
    + unfold is_byte. lia.
    + unfold is_byte, DEVICE_STATUS. lia.
    + left. reflexivity.
    + apply tidy_prepare; reflexivity.
    + vm_compute. reflexivity.
    + vm_compute. discriminate.
    + reflexivity.
    + repeat constructor; unfold is_byte; lia.
    + reflexivity.
    + repeat constructor; unfold is_byte; lia.
    + vm_compute. reflexivity.
    + reflexivity.
    + reflexivity.
  - apply (readRegister_decode sim_hw 2 DEVICE_STATUS 1
             (bq_prepare_spi_message initial_batch) garbled_chain garbled_chain []
             [0; 0; 0] [0x81]
             (flip_bit 1 0 [0x81; crc8_spec [4; 0; 1; 0x81]])) with (k := 1%nat) (j := 0).
    + unfold is_byte. lia.
    + unfold is_byte, DEVICE_STATUS. lia.
    + left. reflexivity.
    + apply tidy_prepare; reflexivity.
    + vm_compute. reflexivity.
    + vm_compute. discriminate.
    + reflexivity.
    + repeat constructor; unfold is_byte; lia.
    + reflexivity.
    + repeat constructor; unfold is_byte; lia.
    + vm_compute. reflexivity.
    + reflexivity.
    + cbn. lia.
    + lia.
    + reflexivity.
Defined.

(** The comparison of line 227 depends on the signedness of plain [char]:
    where it is signed, a correct response whose CRC byte has its top bit
    set is rejected. The status [0x81] read from device 1 is such a
    response (its CRC is 183). *)
Lemma signed_char_rejects_high_crc :
  let s := snd (fst (readRegister sim_hw 1 DEVICE_STATUS 1
                       (bq_prepare_spi_message initial_batch) ready_chain)) in
  check_read_as false 1 0 s = 0x81 /\ check_read_as true 1 0 s = - EFAULT.
Proof. vm_compute. split; reflexivity. Qed.

(** ** Batch capacity *)

(** Once the transfer index has run past the array, [writeRegister] refuses
    and leaves the batch alone. *)
Lemma writeRegister_refused a r d s :
  MAX_XFER <= xfer_index s -> writeRegister a r d s = (- EFAULT, s).
Proof.
  intros H. unfold writeRegister. apply Z.leb_le in H. rewrite H. reflexivity.
Qed.

(** With all [MAX_XFER] slots taken, [readRegister] refuses: nothing is
    queued or executed, but the transfer index has been advanced. *)
Lemma readRegister_refused {B : Type}
    (hw : B -> list wire_xfer -> B * Z * list (list Z)) a r count s (b : B) :
  count = 1 \/ count = 2 -> MAX_XFER - 1 <= xfer_index s ->
  readRegister hw a r count s b
  = (- EFAULT,
     {| xfer := xfer s; msg := msg s; tx_buff := tx_buff s; rx_buff := rx_buff s;
        xfer_index := xfer_index s + 1; byte_index := byte_index s;
        overrun := overrun s |}, b).
Proof.
  intros Hc H. unfold readRegister.
  assert (E : negb (count =? 1) && negb (count =? 2) = false)
    by (destruct Hc; subst; reflexivity).
  rewrite E.
  assert (E2 : (MAX_XFER <=? xfer_index s + 1) = true) by (apply Z.leb_le; lia).
  rewrite E2. reflexivity.
Qed.

(** With all [MAX_XFER] slots taken, [writeRegister] does not refuse: the
    test of line 136 looks at the index before it is advanced, so slot
    [xfer[MAX_XFER]], one past the array, is written. *)
Lemma writeRegister_off_by_one a r d s :
  length (xfer s) = Z.to_nat MAX_XFER -> xfer_index s = MAX_XFER - 1 ->
  fst (writeRegister a r d s) = 0
  /\ xfer_index (snd (writeRegister a r d s)) = MAX_XFER
  /\ overrun (snd (writeRegister a r d s)) = true.
Proof.
  intros Hlen Hx. unfold writeRegister. rewrite Hx.
  change (MAX_XFER <=? MAX_XFER - 1) with false. cbn [fst snd xfer_index overrun].
  split; [reflexivity|split; [unfold MAX_XFER; lia|]].
  assert (E : in_bounds (xfer s) (MAX_XFER - 1 + 1) = false).
  { apply in_bounds_false. rewrite Hlen. unfold MAX_XFER. lia. }
  rewrite E. cbn. rewrite orb_true_r. reflexivity.
Qed.

(** C3. On the batch that holds [MAX_XFER] pending transfers, one more
    [writeRegister] reports success, advances the transfer index to
    [MAX_XFER], moves [byte_index], changes [tx_buff], and stores into the
    slot one past [xfer[]]; one more [readRegister] returns [-EFAULT],
    executes nothing and leaves buffers, slots and [byte_index] alone, but
    has advanced the transfer index. *)
Theorem full_batch_overflow :
  xfer_index full_batch = MAX_XFER - 1
  /\ length (queued full_batch) = Z.to_nat MAX_XFER
  /\ overrun full_batch = false
  /\ (let r := writeRegister BROADCAST ADC_CONVERT AC_CONV full_batch in
      fst r = 0
      /\ xfer_index (snd r) = MAX_XFER
      /\ byte_index (snd r) = byte_index full_batch + 4
      /\ tx_buff (snd r) <> tx_buff full_batch
      /\ overrun (snd r) = true)
  /\ (let r := readRegister sim_hw 1 DEVICE_STATUS 1 full_batch never_ready_chain in
      fst (fst r) = - EFAULT
      /\ xfer_index (snd (fst r)) = MAX_XFER
      /\ byte_index (snd (fst r)) = byte_index full_batch
      /\ xfer (snd (fst r)) = xfer full_batch
      /\ msg (snd (fst r)) = msg full_batch
      /\ tx_buff (snd (fst r)) = tx_buff full_batch
      /\ rx_buff (snd (fst r)) = rx_buff full_batch
      /\ overrun (snd (fst r)) = false
      /\ snd r = never_ready_chain).
Proof.
  vm_compute. repeat split; try reflexivity. discriminate.
Qed.

(** ** Voltage scaling *)

Lemma int32_small x : - 2 ^ 31 <= x < 2 ^ 31 -> int32 x = x.
Proof. intros H. unfold int32. rewrite Z.mod_small; lia. Qed.

Lemma voltage_byte_floor raw16 :
  0 <= raw16 <= 65535 -> voltage_byte raw16 = (raw16 * 6250 / 327660) mod 256.
Proof.
  intros H. unfold voltage_byte, u8. rewrite int32_small by lia.
  rewrite Z.quot_div_nonneg by lia. reflexivity.
Qed.

(** The byte [emit_voltage] appends is [voltage_byte] of what the read of
    the tap returned. *)
Lemma emit_voltage_appends {B : Type}
    (hw : B -> list wire_xfer -> B * Z * list (list Z)) pk p s (b : B) i :
  let c := nth (Z.to_nat i) (cells pk) {| chip := 0; index := 0 |} in
  let r := readRegister hw (chip c) (index c) 2 (bq_prepare_spi_message s) b in
  emit_voltage hw pk (p, s, b) i
  = (p ++ [voltage_byte (fst (fst r))], snd (fst r), snd r).
Proof.
  intros c r. unfold emit_voltage. fold c. fold r.
  destruct r as [[temp s'] b']. reflexivity.
Qed.

(** C4 (as amended). For every 16-bit raw reading returned by the read of a
    tap, the byte the aggregator appends is the quotient
    [raw16 * 6250 / 327660] truncated, not rounded (at most one below the
    rounded value), and reduced modulo 256 by the store into the byte
    buffer. The 32-bit product does not overflow. The quotient fits a byte
    up to [raw16 = 13420]; [raw16 = 0] gives 0 and [raw16 = 65535] gives
    [1250 mod 256 = 226]. *)
Theorem voltage_byte_truncates {B : Type}
    (hw : B -> list wire_xfer -> B * Z * list (list Z))
    (pk : pack) (p : list Z) (s : batch) (b : B) (i raw16 : Z) :
  0 <= raw16 <= 65535 ->
  (let c := nth (Z.to_nat i) (cells pk) {| chip := 0; index := 0 |} in
   fst (fst (readRegister hw (chip c) (index c) 2 (bq_prepare_spi_message s) b))
   = raw16) ->
  fst (fst (emit_voltage hw pk (p, s, b) i))
  = p ++ [(raw16 * 6250 / 327660) mod 256]
  /\ int32 (raw16 * 6250) = raw16 * 6250
  /\ voltage_byte_spec raw16 - 1 <= raw16 * 6250 / 327660 <= voltage_byte_spec raw16
  /\ (raw16 <= 13420 <-> raw16 * 6250 / 327660 <= 255)
  /\ voltage_byte 0 = 0
  /\ voltage_byte 65535 = 226.
Proof.
  intros Hr Hread. rewrite emit_voltage_appends. cbn [fst]. cbv zeta in Hread.
  rewrite Hread, voltage_byte_floor by assumption.
  split; [reflexivity|]. split; [apply int32_small; lia|].
  split; [|split; [|split; reflexivity]].
  - unfold voltage_byte_spec.
    pose proof (Z.div_mod (raw16 * 6250) 327660 ltac:(lia)) as E1.
    pose proof (Z.mod_pos_bound (raw16 * 6250) 327660 ltac:(lia)) as E2.
    set (q := raw16 * 6250 / 327660) in *.
    set (m := (raw16 * 6250) mod 327660) in *.
    split.
    + assert ((2 * (raw16 * 6250) + 327660) / (2 * 327660) < q + 2); [|lia].
      apply Z.div_lt_upper_bound; lia.
    + apply Z.div_le_lower_bound; lia.
  - split; intros H.
    + assert (raw16 * 6250 / 327660 < 256); [|lia].
      apply Z.div_lt_upper_bound; lia.
    + assert (~ 13421 <= raw16); [|lia]. intros Hge.
      assert (256 <= raw16 * 6250 / 327660); [|lia].
      apply Z.div_le_lower_bound; lia.
Qed.

Lemma voltage_byte_truncates_witness :
  fst (fst (emit_voltage sim_hw
              {| devices_used := 1; cells_per_device := [0; 1];
                 cells := [{| chip := 1; index := VCELL1 |}];
                 total_cell_count := 1 |}
              ([1], initial_batch,
               [set_addr 1 (device (fun r => if r =? VCELL1 then 0x30 else 0))]) 0))
  = [1] ++ [(12288 * 6250 / 327660) mod 256].
Proof.
  apply (voltage_byte_truncates sim_hw _ [1] initial_batch _ 0 12288).
  - lia.
  - vm_compute. reflexivity.
Defined.

(** Counterexample to C4 as the specification words it: the code
    truncates where the specification rounds, and for the largest reading
    the rounded quotient is 1250, which is no byte. *)
Lemma voltage_byte_not_rounded :
  voltage_byte 27 = 0 /\ voltage_byte_spec 27 = 1
  /\ voltage_byte_spec 65535 = 1250 /\ ~ voltage_byte_spec 65535 <= 255
  /\ voltage_byte 65535 <> voltage_byte_spec 65535.
Proof.
  assert (E1 : voltage_byte 27 = 0) by reflexivity.
  assert (E2 : voltage_byte_spec 27 = 1) by reflexivity.
  assert (E3 : voltage_byte_spec 65535 = 1250) by reflexivity.
  assert (E4 : voltage_byte 65535 = 226) by reflexivity.
  rewrite E1, E2, E3, E4. lia.
Qed.

(** ** Waiting for the conversion *)

Section Polling.

Context {B : Type}.
Variable hw : B -> list wire_xfer -> B * Z * list (list Z).

Lemma wait_ready_step fuel tries s b :
  wait_ready hw (S fuel) tries s b
  = let r := poll_once hw (s, b) in
    if 5 <? tries then Some (false, fst (snd r), snd (snd r))
    else if Z.land (fst r) DRDY =? 0 then
      wait_ready hw fuel (tries + 1) (fst (snd r)) (snd (snd r))
    else Some (true, fst (snd r), snd (snd r)).
Proof.
  unfold poll_once. cbn [wait_ready fst snd].
  destruct (readRegister hw 1 DEVICE_STATUS 1 (bq_prepare_spi_message s) b)
    as [[temp s'] b'].
  reflexivity.
Qed.

Lemma polls_S k sb : polls hw (S k) sb = polls hw k (snd (poll_once hw sb)).
Proof. reflexivity. Qed.

(** While the data-ready bit stays clear the loop keeps polling until the
    counter has passed 5; the read that follows is the last one. *)
Lemma wait_never_ready n tries fuel s b :
  tries + Z.of_nat n = 6 ->
  (forall k, (k < n)%nat ->
     Z.land (fst (poll_once hw (polls hw k (s, b)))) DRDY = 0) ->
  (n + 1 <= fuel)%nat ->
  wait_ready hw fuel tries s b
  = Some (false, fst (polls hw (n + 1) (s, b)), snd (polls hw (n + 1) (s, b))).
Proof.
  revert tries fuel s b. induction n as [|n IH]; intros tries fuel s b Ht Hclear Hfuel.
  - destruct fuel as [|fuel]; [lia|]. rewrite wait_ready_step. cbv zeta.
    assert (E : (5 <? tries) = true) by (apply Z.ltb_lt; lia).
    rewrite E. reflexivity.
  - destruct fuel as [|fuel]; [lia|]. rewrite wait_ready_step. cbv zeta.
    assert (E : (5 <? tries) = false) by (apply Z.ltb_ge; lia).
    rewrite E. pose proof (Hclear 0%nat ltac:(lia)) as H0. cbn [polls] in H0.
    rewrite H0. cbn [Z.eqb].
    rewrite (IH (tries + 1) fuel); [| lia | | lia].
    + destruct (poll_once hw (s, b)) as [temp [s' b']] eqn:Hp.
      cbn [fst snd Nat.add]. rewrite (polls_S (n + 1)), Hp. reflexivity.
    + intros k Hk. specialize (Hclear (S k) ltac:(lia)).
      rewrite polls_S in Hclear.
      destruct (poll_once hw (s, b)) as [temp [s' b']]. exact Hclear.
Qed.

(** The polling loop returns within seven rounds, whatever the bus does. *)
Lemma wait_ready_terminates n tries fuel s b :
  0 <= tries -> tries + Z.of_nat n = 6 -> (n + 1 <= fuel)%nat ->
  exists r, wait_ready hw fuel tries s b = Some r.
Proof.
  revert tries fuel s b. induction n as [|n IH]; intros tries fuel s b H0 Ht Hfuel.
  - destruct fuel as [|fuel]; [lia|]. rewrite wait_ready_step. cbv zeta.
    assert (E : (5 <? tries) = true) by (apply Z.ltb_lt; lia).
    rewrite E. eauto.
  - destruct fuel as [|fuel]; [lia|]. rewrite wait_ready_step. cbv zeta.
    assert (E : (5 <? tries) = false) by (apply Z.ltb_ge; lia).
    rewrite E. destruct (Z.land _ DRDY =? 0); [|eauto].
    apply IH; lia.
Qed.

(** [get_voltages] returns, whatever the bus does. *)
Lemma get_voltages_terminates fuel pk s b :
  (7 <= fuel)%nat -> exists r, get_voltages hw fuel pk s b = Some r.
Proof.
  intros Hfuel. unfold get_voltages.
  destruct (writeRegister BROADCAST ADC_CONVERT AC_CONV (bq_prepare_spi_message s))
    as [w s1].
  destruct (spi_sync hw s1 b) as [[status s2] b2].
  destruct (negb (status =? 0)); [eauto|].
  destruct (wait_ready_terminates 6 0 fuel s2 b2) as ([[ready s3] b3] & E);
    [lia|lia|lia|].
  rewrite E. destruct ready; [|eauto].
  destruct (fold_left (emit_voltage hw pk) _ _) as [[p1 s4] b4].
  destruct (fold_left (emit_device hw pk) _ _) as [[p2 s5] b5].
  eauto.
Qed.

End Polling.

(** C5 (as amended). If the conversion was started and the data-ready bit
    of device 1's status is clear in each of the first six polling reads,
    [get_voltages] performs a seventh polling read and then returns length 0
    with nothing written, whatever that last read shows; it neither blocks
    (seven rounds of the loop suffice) nor reports an error. The state it
    leaves is the one after exactly seven polling reads. *)
Theorem get_voltages_gives_up {B : Type}
    (hw : B -> list wire_xfer -> B * Z * list (list Z))
    (fuel : nat) (pk : pack) (s : batch) (b : B) :
  let st := start_conversion hw s b in
  let sb0 := (snd (fst st), snd st) in
  fst (fst st) = 0 ->
  (forall k, (k < 6)%nat -> Z.land (fst (poll_once hw (polls hw k sb0))) DRDY = 0) ->
  (7 <= fuel)%nat ->
  get_voltages hw fuel pk s b
  = Some (0, [], fst (polls hw 7 sb0), snd (polls hw 7 sb0)).
Proof.
  intros st sb0 Hst Hclear Hfuel. unfold get_voltages.
  unfold start_conversion in st.
  destruct (writeRegister BROADCAST ADC_CONVERT AC_CONV (bq_prepare_spi_message s))
    as [w s1] eqn:Hw.
  cbn [snd] in st.
  destruct (spi_sync hw s1 b) as [[status s0] b0] eqn:Hsync.
  subst st sb0. cbn [fst snd] in *. subst status. cbn [Z.eqb negb].
  rewrite (wait_never_ready hw 6 0 fuel s0 b0); [reflexivity|lia|exact Hclear|lia].
Qed.

Lemma get_voltages_gives_up_witness :
  get_voltages sim_hw 7 default_pack initial_batch never_ready_chain
  = Some (0, [],
          fst (polls sim_hw 7
                 (snd (fst (start_conversion sim_hw initial_batch never_ready_chain)),
                  snd (start_conversion sim_hw initial_batch never_ready_chain))),
          snd (polls sim_hw 7
                 (snd (fst (start_conversion sim_hw initial_batch never_ready_chain)),
                  snd (start_conversion sim_hw initial_batch never_ready_chain)))).
Proof.
  apply (get_voltages_gives_up sim_hw 7 default_pack initial_batch never_ready_chain).
  - vm_compute. reflexivity.
  - intros k Hk.
    do 6 (destruct k as [|k]; [vm_compute; reflexivity|]). lia.
  - lia.
Defined.

(** Counterexample to C5 as the specification words it: with a device
    that never reports data ready, the bus executes the message that starts
    the conversion and then seven polling reads, not six; six rounds of the
    loop do not reach the [return]. *)
Lemma get_voltages_polls_seven_times :
  match get_voltages (metered sim_hw) 7 default_pack initial_batch
          (never_ready_chain, 0) with
  | Some (n, p, _, (_, messages)) => n = 0 /\ p = [] /\ messages = 1 + 7
  | None => False
  end
  /\ 1 + 7 <> 1 + 6
  /\ get_voltages (metered sim_hw) 6 default_pack initial_batch
       (never_ready_chain, 0) = None.
Proof.
  vm_compute. repeat split; try reflexivity. discriminate.
Qed.

(** ** The telemetry buffer *)

Section Telemetry.

Context {B : Type}.
Variable hw : B -> list wire_xfer -> B * Z * list (list Z).

Lemma emit_voltages_shape pk l p s b :
  exists vs, fst (fst (fold_left (emit_voltage hw pk) l (p, s, b))) = p ++ vs
             /\ length vs = length l.
Proof.
  revert p s b. induction l as [|i l IH]; intros p s b.
  - exists []. rewrite app_nil_r. split; reflexivity.
  - cbn [fold_left]. rewrite emit_voltage_appends. cbv zeta.
    match goal with |- context [fold_left _ l (?p1, ?s1, ?b1)] =>
      destruct (IH p1 s1 b1) as (vs & E & L) end.
    eexists (_ :: vs). rewrite E, <- app_assoc. split; [reflexivity|].
    cbn [length]. rewrite L. reflexivity.
Qed.

Lemma emit_device_shape pk p s b i :
  exists ds, fst (fst (emit_device hw pk (p, s, b) i)) = p ++ ds
             /\ length ds = 8%nat.
Proof.
  unfold emit_device.
  repeat match goal with
         | |- context [readRegister hw ?a ?r ?c ?s0 ?b0] =>
             destruct (readRegister hw a r c s0 b0) as [[? ?] ?]
         end.
  cbn [fst]. eexists [_; _; _; _; _; _; _; _].
  rewrite <- !app_assoc. split; reflexivity.
Qed.

Lemma emit_devices_shape pk l p s b :
  exists ds, fst (fst (fold_left (emit_device hw pk) l (p, s, b))) = p ++ ds
             /\ length ds = (8 * length l)%nat.
Proof.
  revert p s b. induction l as [|i l IH]; intros p s b.
  - exists []. rewrite app_nil_r. split; reflexivity.
  - cbn [fold_left].
    destruct (emit_device_shape pk p s b i) as (d1 & E1 & L1).
    destruct (emit_device hw pk (p, s, b) i) as [[p1 s1] b1]. cbn [fst] in E1.
    destruct (IH p1 s1 b1) as (ds & E & L).
    exists (d1 ++ ds). rewrite E, E1, <- app_assoc. split; [reflexivity|].
    rewrite length_app, L1, L. cbn [length]. lia.
Qed.

End Telemetry.

Lemma last_snoc (l : list Z) (x d : Z) : List.last (l ++ [x]) d = x.
Proof. apply last_last. Qed.

(** C8. Every buffer [get_voltages] produces (returned length not 0) is a
    body followed by one byte, the CRC-8 (polynomial x^8 + x^2 + x + 1,
    initial value 0) of the body; the body is the cell-count byte, one
    voltage byte per cell, the device-count byte and eight bytes per
    device. Recomputing the CRC over all bytes but the last gives the last
    byte, and the returned length is the length of the buffer. *)
Theorem get_voltages_crc {B : Type}
    (hw : B -> list wire_xfer -> B * Z * list (list Z))
    (fuel : nat) (pk : pack) (s s' : batch) (b b' : B) (n : Z) (p : list Z) :
  get_voltages hw fuel pk s b = Some (n, p, s', b') -> n <> 0 ->
  exists vs ds,
    length vs = Z.to_nat (total_cell_count pk)
    /\ length ds = (8 * Z.to_nat (devices_used pk))%nat
    /\ (let body := [u8 (total_cell_count pk)] ++ vs
                    ++ [u8 (devices_used pk)] ++ ds in
        p = body ++ [crc8_spec body])
    /\ crc8 crc8_table (removelast p) 0 = List.last p 0
    /\ n = Z.of_nat (length p).
Proof.
  intros Hget Hn. unfold get_voltages in Hget.
  destruct (writeRegister BROADCAST ADC_CONVERT AC_CONV (bq_prepare_spi_message s))
    as [w s1].
  destruct (spi_sync hw s1 b) as [[status s2] b2].
  destruct (negb (status =? 0)); [injection Hget as <-; contradiction|].
  destruct (wait_ready hw fuel 0 s2 b2) as [[[[|] s3] b3]|];
    [|injection Hget as <-; contradiction|discriminate].
  destruct (emit_voltages_shape hw pk (seqZ 0 (total_cell_count pk))
              [u8 (total_cell_count pk)] s3 b3) as (vs & E1 & L1).
  destruct (fold_left (emit_voltage hw pk) _ _) as [[p1 s4] b4].
  cbn [fst] in E1. subst p1.
  destruct (emit_devices_shape hw pk (seqZ 1 (devices_used pk))
              (([u8 (total_cell_count pk)] ++ vs) ++ [u8 (devices_used pk)]) s4 b4)
    as (ds & E2 & L2).
  destruct (fold_left (emit_device hw pk) _ _) as [[p2 s5] b5].
  cbn [fst] in E2. subst p2.
  rewrite length_seqZ in L1, L2.
  exists vs, ds. split; [exact L1|]. split; [exact L2|].
  cbv zeta.
  replace ([u8 (total_cell_count pk)] ++ vs ++ [u8 (devices_used pk)] ++ ds)
    with (([u8 (total_cell_count pk)] ++ vs) ++ [u8 (devices_used pk)] ++ ds)
    by (rewrite <- !app_assoc; reflexivity).
  rewrite (app_assoc _ [u8 (devices_used pk)] ds).
  remember ((([u8 (total_cell_count pk)] ++ vs) ++ [u8 (devices_used pk)]) ++ ds)
    as body eqn:Hbody.
  rewrite crc8_is_spec in Hget.
  remember (crc8_spec body) as c eqn:Hc.
  assert (Hp : p = body ++ [c]) by congruence.
  assert (Hlen : n = Z.of_nat (length body) + 1) by congruence.
  subst p. split; [reflexivity|]. split.
  - rewrite removelast_last, last_snoc, crc8_is_spec. symmetry. exact Hc.
  - rewrite length_app. cbn [length]. lia.
Qed.

Lemma get_voltages_crc_witness :
  exists vs ds,
    length vs = 4%nat /\ length ds = 16%nat
    /\ [4; 234; 214; 234; 214; 2; 2; 17; 239; 129; 0; 0; 0; 0;
        2; 17; 239; 129; 0; 0; 0; 0; 225]
       = ([4] ++ vs ++ [2] ++ ds) ++ [crc8_spec ([4] ++ vs ++ [2] ++ ds)]
    /\ crc8 crc8_table
         (removelast [4; 234; 214; 234; 214; 2; 2; 17; 239; 129; 0; 0; 0; 0;
                      2; 17; 239; 129; 0; 0; 0; 0; 225]) 0 = 225
    /\ 23 = 23.
Proof.
  destruct (get_voltages sim_hw 7 ready_pack initial_batch ready_chain)
    as [[[[n p] s'] b']|] eqn:E; [|vm_compute in E; discriminate].
  pose proof (get_voltages_crc sim_hw 7 ready_pack initial_batch s'
                ready_chain b' n p E) as H.
  vm_compute in E. injection E as <- <- _ _.
  apply H. discriminate.
Defined.

(** ** Reads that fail during the emission *)

Section Flaky.

Context {B : Type}.
Variable hw : B -> list wire_xfer -> B * Z * list (list Z).
Variable st : Z.

Lemma spi_sync_flaky_S s b k :
  spi_sync (flaky hw st) s (b, S k)
  = (fst (fst (spi_sync hw s b)), snd (fst (spi_sync hw s b)),
     (snd (spi_sync hw s b), k)).
Proof.
  unfold spi_sync, flaky. cbn [fst snd].
  destruct (hw b (wire s)) as [[b' status] rxs].
  destruct (rx_stores (queued s) rxs (rx_buff s, overrun s)) as [rx ov].
  reflexivity.
Qed.

Lemma start_conversion_flaky_S s b k :
  start_conversion (flaky hw st) s (b, S k)
  = (fst (fst (start_conversion hw s b)), snd (fst (start_conversion hw s b)),
     (snd (start_conversion hw s b), k)).
Proof. unfold start_conversion. apply spi_sync_flaky_S. Qed.

Lemma readRegister_flaky_S a r count s b k :
  count = 1 \/ count = 2 -> xfer_index s < MAX_XFER - 1 ->
  readRegister (flaky hw st) a r count s (b, S k)
  = (fst (fst (readRegister hw a r count s b)),
     snd (fst (readRegister hw a r count s b)),
     (snd (readRegister hw a r count s b), k)).
Proof.
  intros Hc Hx. unfold readRegister.
  assert (E : negb (count =? 1) && negb (count =? 2) = false)
    by (destruct Hc; subst; reflexivity).
  rewrite E.
  destruct (MAX_XFER <=? xfer_index s + 1) eqn:Hfull;
    [apply Z.leb_le in Hfull; lia|].
  rewrite spi_sync_flaky_S.
  destruct (spi_sync hw (queue_read (u8 a) (u8 r) count s) b) as [[status s2] b2].
  cbn [fst snd]. destruct (negb (status =? 0)); reflexivity.
Qed.

Lemma readRegister_flaky_O a r count s b :
  count = 1 \/ count = 2 -> xfer_index s < MAX_XFER - 1 -> st <> 0 ->
  exists s2,
    readRegister (flaky hw st) a r count s (b, O) = (st, s2, (b, O))
    /\ xfer_index s2 = xfer_index s + 1.
Proof.
  intros Hc Hx Hst. unfold readRegister.
  assert (E : negb (count =? 1) && negb (count =? 2) = false)
    by (destruct Hc; subst; reflexivity).
  rewrite E.
  destruct (MAX_XFER <=? xfer_index s + 1) eqn:Hfull;
    [apply Z.leb_le in Hfull; lia|].
  unfold spi_sync, flaky. cbn [snd].
  destruct (rx_stores _ _ _) as [rx ov].
  apply Z.eqb_neq in Hst. rewrite Hst. cbn [negb].
  eexists. split; reflexivity.
Qed.

Lemma emit_voltages_flaky_O pk l p s b :
  st <> 0 ->
  exists s',
    fold_left (emit_voltage (flaky hw st) pk) l (p, s, (b, O))
    = (p ++ repeat (voltage_byte st) (length l), s', (b, O)).
Proof.
  intros Hst. revert p s. induction l as [|i l IH]; intros p s.
  - exists s. cbn. rewrite app_nil_r. reflexivity.
  - cbn [fold_left]. unfold emit_voltage at 2.
    match goal with |- context [readRegister _ ?a ?r 2 ?s0 _] =>
      destruct (readRegister_flaky_O a r 2 s0 b) as (s2 & E & _);
        [right; reflexivity|cbn [bq_prepare_spi_message xfer_index]; unfold MAX_XFER; lia|exact Hst|] end.
    rewrite E. destruct (IH (p ++ [voltage_byte st]) s2) as (s' & E').
    exists s'. rewrite E', <- app_assoc. reflexivity.
Qed.

Lemma emit_device_flaky_O pk p s b i :
  st <> 0 ->
  exists s',
    emit_device (flaky hw st) pk (p, s, (b, O)) i
    = (p ++ device_bytes_of pk st i, s', (b, O)).
Proof.
  intros Hst. unfold emit_device.
  destruct (readRegister_flaky_O i TEMPERATURE1 2 (bq_prepare_spi_message s) b)
    as (s1 & E1 & _); [right; reflexivity|cbn [bq_prepare_spi_message xfer_index]; unfold MAX_XFER; lia|exact Hst|].
  rewrite E1.
  destruct (readRegister_flaky_O i TEMPERATURE2 2 (bq_prepare_spi_message s1) b)
    as (s2 & E2 & _); [right; reflexivity|cbn [bq_prepare_spi_message xfer_index]; unfold MAX_XFER; lia|exact Hst|].
  rewrite E2.
  destruct (readRegister_flaky_O i DEVICE_STATUS 1 (bq_prepare_spi_message s2) b)
    as (s3 & E3 & X3); [left; reflexivity|cbn [bq_prepare_spi_message xfer_index]; unfold MAX_XFER; lia|exact Hst|].
  rewrite E3. cbn [bq_prepare_spi_message xfer_index] in X3.
  destruct (readRegister_flaky_O i FAULT_STATUS 1 s3 b)
    as (s4 & E4 & X4); [left; reflexivity|unfold MAX_XFER; lia|exact Hst|].
  rewrite E4.
  destruct (readRegister_flaky_O i ALERT_STATUS 1 s4 b)
    as (s5 & E5 & X5); [left; reflexivity|unfold MAX_XFER; lia|exact Hst|].
  rewrite E5.
  destruct (readRegister_flaky_O i CUV_FAULT 1 s5 b)
    as (s6 & E6 & X6); [left; reflexivity|unfold MAX_XFER; lia|exact Hst|].
  rewrite E6.
  destruct (readRegister_flaky_O i COV_FAULT 1 s6 b)
    as (s7 & E7 & X7); [left; reflexivity|unfold MAX_XFER; lia|exact Hst|].
  rewrite E7.
  exists s7. unfold device_bytes_of. rewrite <- !app_assoc. reflexivity.
Qed.

Lemma emit_devices_flaky_O pk l p s b :
  st <> 0 ->
  exists s',
    fold_left (emit_device (flaky hw st) pk) l (p, s, (b, O))
    = (p ++ concat (map (device_bytes_of pk st) l), s', (b, O)).
Proof.
  intros Hst. revert p s. induction l as [|i l IH]; intros p s.
  - exists s. cbn. rewrite app_nil_r. reflexivity.
  - cbn [fold_left map concat].
    destruct (emit_device_flaky_O pk p s b i Hst) as (s1 & E1). rewrite E1.
    destruct (IH (p ++ device_bytes_of pk st i) s1) as (s' & E').
    exists s'. rewrite E', <- app_assoc. reflexivity.
Qed.

End Flaky.

Lemma poll_once_flaky_S {B : Type}
    (hw : B -> list wire_xfer -> B * Z * list (list Z)) st s (b : B) k :
  poll_once (flaky hw st) (s, (b, S k))
  = (fst (poll_once hw (s, b)),
     (fst (snd (poll_once hw (s, b))), (snd (snd (poll_once hw (s, b))), k))).
Proof.
  unfold poll_once. cbn [fst snd].
  rewrite readRegister_flaky_S;
    [|left; reflexivity|cbn [bq_prepare_spi_message xfer_index]; unfold MAX_XFER; lia].
  destruct (readRegister hw 1 DEVICE_STATUS 1 (bq_prepare_spi_message s) b)
    as [[temp s'] b'].
  reflexivity.
Qed.

Lemma length_device_bytes pk e l :
  length (concat (map (device_bytes_of pk e) l)) = (8 * length l)%nat.
Proof.
  induction l as [|i l IH]; [reflexivity|].
  cbn [map concat]. rewrite length_app, IH. cbn [length device_bytes_of]. lia.
Qed.

(** C10. [get_voltages] never looks at the sign of what [readRegister]
    returns while it emits. Let the conversion be started and reported
    ready, and let every later transfer fail with a negative status [st]:
    the buffer still has its full length [3 + cells + 8 * devices], every
    voltage byte is the rescaled error code, every temperature byte the
    shifted and divided error code, every status byte the error code cut to
    eight bits, and the CRC is computed over them as over data. The same
    happens with the [-EFAULT] of a CRC mismatch: on [garbled_chain], whose
    second device answers with wrong CRCs, the bytes of that device are
    [voltage_byte (-14) = 0], [temperature_byte (-14) = 239] and
    [u8 (-14) = 242]. *)
Theorem get_voltages_emits_error_codes {B : Type}
    (hw : B -> list wire_xfer -> B * Z * list (list Z))
    (fuel : nat) (pk : pack) (s : batch) (b : B) (st : Z) :
  let sc := start_conversion hw s b in
  let sb0 := (snd (fst sc), snd sc) in
  fst (fst sc) = 0 ->
  Z.land (fst (poll_once hw sb0)) DRDY <> 0 ->
  st < 0 -> (1 <= fuel)%nat ->
  let body := [u8 (total_cell_count pk)]
              ++ repeat (voltage_byte st) (Z.to_nat (total_cell_count pk))
              ++ [u8 (devices_used pk)]
              ++ concat (map (device_bytes_of pk st) (seqZ 1 (devices_used pk))) in
  (exists s' b',
     get_voltages (flaky hw st) fuel pk s (b, 2%nat)
     = Some (3 + Z.max 0 (total_cell_count pk) + 8 * Z.max 0 (devices_used pk),
             body ++ [crc8_spec body], s', b'))
  /\ (exists s' b',
        get_voltages sim_hw 1 ready_pack initial_batch garbled_chain
        = Some (23, [4; 234; 214; 0; 0; 2;
                     2; 17; 239; 129; 0; 0; 0; 0;
                     2; 239; 239; 242; 242; 242; 242; 242; 36], s', b')).
Proof.
  intros sc sb0 Hst0 Hready Hneg Hfuel body. split.
  - unfold get_voltages. unfold start_conversion in sc.
    destruct (writeRegister BROADCAST ADC_CONVERT AC_CONV (bq_prepare_spi_message s))
      as [w s1] eqn:Hw.
    cbn [snd] in sc. rewrite spi_sync_flaky_S.
    destruct (spi_sync hw s1 b) as [[status s0] b0] eqn:Hsync.
    subst sc sb0. cbn [fst snd] in *. subst status. cbn [Z.eqb negb].
    destruct fuel as [|fuel]; [lia|].
    rewrite wait_ready_step, poll_once_flaky_S. cbv zeta. cbn [fst snd].
    change (5 <? 0) with false. cbv iota.
    apply Z.eqb_neq in Hready. rewrite Hready.
    destruct (poll_once hw (s0, b0)) as [temp [s2 b2]]. cbn [fst snd].
    destruct (emit_voltages_flaky_O hw st pk (seqZ 0 (total_cell_count pk))
                [u8 (total_cell_count pk)] s2 b2 ltac:(lia)) as (s3 & E3).
    rewrite E3.
    destruct (emit_devices_flaky_O hw st pk (seqZ 1 (devices_used pk))
                (([u8 (total_cell_count pk)]
                  ++ repeat (voltage_byte st) (length (seqZ 0 (total_cell_count pk))))
                 ++ [u8 (devices_used pk)]) s3 b2 ltac:(lia)) as (s4 & E4).
    rewrite E4. exists s4, (b2, O).
    rewrite length_seqZ, crc8_is_spec.
    assert (Hb : (([u8 (total_cell_count pk)]
                   ++ repeat (voltage_byte st) (Z.to_nat (total_cell_count pk)))
                  ++ [u8 (devices_used pk)])
                 ++ concat (map (device_bytes_of pk st) (seqZ 1 (devices_used pk)))
                 = body).
    { unfold body. rewrite <- !app_assoc. reflexivity. }
    rewrite Hb.
    assert (Hl : Z.of_nat (length body) + 1
                 = 3 + Z.max 0 (total_cell_count pk) + 8 * Z.max 0 (devices_used pk)).
    { unfold body.
      rewrite !length_app, repeat_length, length_device_bytes, length_seqZ.
      cbn [length]. lia. }
    rewrite Hl. reflexivity.
  - vm_compute. eexists. eexists. reflexivity.
Qed.

Lemma get_voltages_emits_error_codes_witness :
  let body := [4] ++ repeat (voltage_byte (-5)) 4 ++ [2]
              ++ concat (map (device_bytes_of ready_pack (-5)) [1; 2]) in
  (exists s' b',
     get_voltages (flaky sim_hw (-5)) 1 ready_pack initial_batch
       (ready_chain, 2%nat)
     = Some (23, body ++ [crc8_spec body], s', b'))
  /\ (exists s' b',
        get_voltages sim_hw 1 ready_pack initial_batch garbled_chain
        = Some (23, [4; 234; 214; 0; 0; 2;
                     2; 17; 239; 129; 0; 0; 0; 0;
                     2; 239; 239; 242; 242; 242; 242; 242; 36], s', b')).
Proof.
  apply (get_voltages_emits_error_codes sim_hw 1 ready_pack initial_batch
           ready_chain (-5)).
  - vm_compute. reflexivity.
  - vm_compute. discriminate.
  - lia.
  - lia.
Defined.

(** ** The simulated chain *)

Lemma u8_lxor x y : u8 (Z.lxor x y) = Z.lxor (u8 x) (u8 y).
Proof.
  rewrite <- !land_255. apply Z.bits_inj'. intros n Hn.
  rewrite !Z.land_spec, !Z.lxor_spec, !Z.land_spec.
  destruct (Z.testbit x n), (Z.testbit y n), (Z.testbit 255 n); reflexivity.
Qed.

Lemma command_address a :
  0 <= a < 128 ->
  Z.shiftr (u8 (Z.shiftl (u8 a) 1)) 1 = a
  /\ Z.shiftr (Z.lor (u8 (Z.shiftl (u8 a) 1)) 1) 1 = a
  /\ Z.testbit (Z.lor (u8 (Z.shiftl (u8 a) 1)) 1) 0 = true.
Proof.
  intros Ha.
  pose proof (forall_bytes
    (fun a => (128 <=? a)
              || ((Z.shiftr (u8 (Z.shiftl (u8 a) 1)) 1 =? a)
                  && (Z.shiftr (Z.lor (u8 (Z.shiftl (u8 a) 1)) 1) 1 =? a)
                  && Z.testbit (Z.lor (u8 (Z.shiftl (u8 a) 1)) 1) 0))) as H.
  specialize (H ltac:(vm_compute; reflexivity) a ltac:(unfold is_byte; lia)).
  cbv beta in H. apply orb_prop in H as [H|H]; [apply Z.leb_le in H; lia|].
  apply andb_prop in H as [H H3]. apply andb_prop in H as [H1 H2].
  apply Z.eqb_eq in H1, H2. auto.
Qed.

Lemma sim_run_app ds ws w :
  sim_run ds (ws ++ [w])
  = (fst (sim_frame (fst (sim_run ds ws)) w),
     snd (sim_run ds ws) ++ [snd (sim_frame (fst (sim_run ds ws)) w)]).
Proof.
  revert ds. induction ws as [|w0 ws IH]; intros ds.
  - cbn [app sim_run fst snd]. destruct (sim_frame ds w) as [ds1 rx]. reflexivity.
  - cbn [app sim_run]. destruct (sim_frame ds w0) as [ds1 rx0].
    rewrite IH. destruct (sim_run ds1 ws) as [ds2 rxs]. reflexivity.
Qed.

Lemma length_sim_run ds ws : length (snd (sim_run ds ws)) = length ws.
Proof.
  revert ds. induction ws as [|w ws IH]; intros ds; [reflexivity|].
  cbn [sim_run]. destruct (sim_frame ds w) as [ds1 rx].
  specialize (IH ds1). destruct (sim_run ds1 ws) as [ds2 rxs].
  cbn [snd length] in *. rewrite IH. reflexivity.
Qed.

(** A device takes the write frame the driver encodes. *)
Lemma sim_frame_write ds a r d :
  0 <= a < 128 ->
  sim_frame ds {| wx_tx := write_frame a r d; wx_rx := false |}
  = (sim_write a (u8 r) (u8 d) ds, [0; 0; 0; 0]).
Proof.
  intros Ha. destruct (command_address a Ha) as (_ & H2 & H3).
  unfold sim_frame, write_frame. cbn [wx_tx]. rewrite H3, H2, Z.eqb_refl.
  reflexivity.
Qed.

(** A read request reaches the device that holds the address. *)
Lemma sim_frame_read ds a r count stale :
  0 <= a < 128 ->
  sim_frame ds {| wx_tx := read_request a r count ++ stale; wx_rx := true |}
  = (ds,
     match List.find (fun d => sd_addr d =? a) ds with
     | Some d => sim_answer d (u8 (Z.shiftl (u8 a) 1)) (u8 r) (u8 count)
     | None => repeat 0 (3 + length stale)
     end).
Proof.
  intros Ha. destruct (command_address a Ha) as (H1 & _ & _).
  unfold sim_frame, read_request. cbn [wx_tx app].
  rewrite shiftl1_even, H1.
  destruct (List.find (fun d => sd_addr d =? a) ds); reflexivity.
Qed.

Lemma length_sim_payload d reg count :
  length (sim_payload d reg count) = Z.to_nat count.
Proof. unfold sim_payload. rewrite length_map, length_seqZ. reflexivity. Qed.

Lemma reg_value_byte d reg : is_byte (reg_value d reg).
Proof. unfold reg_value. destruct (reg =? ADDRESS_CONTROL); apply u8_byte. Qed.

Lemma sim_payload_bytes d reg count : Forall is_byte (sim_payload d reg count).
Proof.
  unfold sim_payload. apply Forall_forall. intros x Hx.
  apply list_elem_of_fmap in Hx as (k & -> & _). apply reg_value_byte.
Qed.

Lemma fit_zeros n m : (n <= m)%nat -> fit n (repeat 0 m) = repeat 0 n.
Proof.
  intros H. unfold fit.
  assert (E : map u8 (repeat 0 m) = repeat 0 m).
  { clear. induction m as [|m IH]; [reflexivity|]. cbn. rewrite IH. reflexivity. }
  rewrite E, take_app_le by (rewrite repeat_length; lia).
  replace m with (n + (m - n))%nat by lia. rewrite repeat_app.
  rewrite take_app_length' by (rewrite repeat_length; reflexivity). reflexivity.
Qed.

(** What [readRegister] returns on the simulated chain: the registers of
    the device that holds the address, big-endian, unless its CRC is
    faulty; without such a device, the error or a zero. The chain is left
    as the pending transfers of the message leave it. *)
Lemma readRegister_sim a r count s ds :
  tidy s -> xfer_index s < MAX_XFER - 1 -> count = 1 \/ count = 2 ->
  byte_index s + 4 + count <= SPI_BUFF_SIZE ->
  0 <= a < 128 -> is_byte r ->
  let ds1 := fst (sim_run ds (wire s)) in
  exists s2 v,
    readRegister sim_hw a r count s ds = (v, s2, ds1)
    /\ tidy s2
    /\ xfer_index s2 = xfer_index s + 1
    /\ byte_index s2 = byte_index s + 4 + count
    /\ overrun s2 = overrun s
    /\ fst (sim_run ds1 (wire s2)) = fst (sim_run ds1 (wire s))
    /\ match List.find (fun d => sd_addr d =? a) ds1 with
       | Some d =>
           v = if u8 (sd_crc_flip d) =? 0 then be_value (sim_payload d r count)
               else - EFAULT
       | None => v = - EFAULT \/ v = 0
       end.
Proof.
  intros Htidy Hroom Hc Hbytes Ha Hr ds1.
  destruct (queue_read_tidy a r count s Htidy Hroom Hc Hbytes)
    as (T1 & Q1 & W1 & L1 & X1 & B1 & O1 & R1).
  set (stale := load_bytes (tx_buff s) (byte_index s + 3) (Z.to_nat (count + 1))) in *.
  set (frame := {| wx_tx := read_request a r count ++ stale; wx_rx := true |}) in *.
  assert (Hcount : u8 count = count)
    by (apply u8_id; destruct Hc; subst; unfold is_byte; lia).
  assert (Hhw : sim_hw ds (wire (queue_read (u8 a) (u8 r) count s))
                = (ds1, 0, snd (sim_run ds (wire s))
                           ++ [snd (sim_frame ds1 frame)])).
  { unfold sim_hw. rewrite W1, sim_run_app. fold ds1.
    unfold frame. rewrite sim_frame_read by assumption. reflexivity. }
  assert (Hl0 : length (snd (sim_run ds (wire s))) = length (queued s)).
  { rewrite length_sim_run. unfold wire. apply length_map. }
  assert (Hstale : length stale = Z.to_nat (count + 1))
    by (unfold stale; apply length_load_bytes).
  assert (Hsame : forall s2, wire s2 = wire (queue_read (u8 a) (u8 r) count s) ->
            fst (sim_run ds1 (wire s2)) = fst (sim_run ds1 (wire s))).
  { intros s2 ->. rewrite W1, sim_run_app. fold frame.
    unfold frame. rewrite sim_frame_read by assumption. reflexivity. }
  unfold frame in Hhw. rewrite sim_frame_read in Hhw by assumption. cbn [snd] in Hhw.
  destruct (List.find (fun d => sd_addr d =? a) ds1) as [d|] eqn:Hfind.
  - set (payload := sim_payload d r count).
    set (c := u8 (Z.lxor (crc8_spec (read_request a r count ++ payload))
                         (sd_crc_flip d))).
    assert (Hans : sim_answer d (u8 (Z.shiftl (u8 a) 1)) (u8 r) (u8 count)
                   = [0; 0; 0] ++ payload ++ [c]).
    { unfold sim_answer, c, payload, sim_payload, read_request.
      rewrite Hcount, (u8_id r Hr). reflexivity. }
    rewrite Hans in Hhw.
    destruct (readRegister_response sim_hw a r count s ds ds1 _ _
                [0; 0; 0] payload c Htidy Hroom Hc Hbytes Hhw Hl0)
      as (s2 & Hread & T2 & W2 & X2 & B2 & O2).
    { apply fit_exact.
      - rewrite !length_app. unfold payload. rewrite length_sim_payload.
        cbn [length]. lia.
      - apply Forall_app. split; [repeat constructor; unfold is_byte; lia|].
        apply Forall_app. split; [apply sim_payload_bytes|].
        constructor; [apply u8_byte|constructor]. }
    { reflexivity. }
    { apply length_sim_payload. }
    exists s2. eexists. split; [exact Hread|].
    split; [exact T2|]. split; [exact X2|]. split; [exact B2|]. split; [exact O2|].
    split; [apply Hsame; exact W2|].
    unfold c. rewrite u8_lxor, (u8_id (crc8_spec _)) by apply crc8_spec_is_byte.
    destruct (u8 (sd_crc_flip d) =? 0) eqn:Hflip.
    + apply Z.eqb_eq in Hflip. rewrite Hflip, Z.lxor_0_r, Z.eqb_refl. reflexivity.
    + apply Z.eqb_neq in Hflip.
      assert (E : (crc8_spec (read_request a r count ++ payload)
                   =? Z.lxor (crc8_spec (read_request a r count ++ payload))
                             (u8 (sd_crc_flip d))) = false).
      { apply Z.eqb_neq. intros E. symmetry in E. revert E.
        apply lxor_nonzero_ne. exact Hflip. }
      rewrite E. reflexivity.
  - destruct (readRegister_response sim_hw a r count s ds ds1 _ _
                [0; 0; 0] (repeat 0 (Z.to_nat count)) 0 Htidy Hroom Hc Hbytes Hhw Hl0)
      as (s2 & Hread & T2 & W2 & X2 & B2 & O2).
    { rewrite fit_zeros by (rewrite Hstale; lia).
      replace (Z.to_nat (4 + count)) with (3 + (Z.to_nat count + 1))%nat by lia.
      rewrite !repeat_app. reflexivity. }
    { reflexivity. }
    { apply repeat_length. }
    exists s2. eexists. split; [exact Hread|].
    split; [exact T2|]. split; [exact X2|]. split; [exact B2|]. split; [exact O2|].
    split; [apply Hsame; exact W2|].
    destruct (crc8_spec _ =? 0); [right|left; reflexivity].
    destruct Hc as [-> | ->]; reflexivity.
Qed.

(** ** Addresses along the chain *)

Lemma set_addr_set_addr a a' d : set_addr a (set_addr a' d) = set_addr a d.
Proof. reflexivity. Qed.

Lemma readdress_0 base base' ds : readdress base 0 ds = readdress base' 0 ds.
Proof. induction ds as [|d ds IH]; [reflexivity|]. cbn. rewrite IH. reflexivity. Qed.

Lemma readdress_reset base ds : map (set_addr 0) ds = readdress base 0 ds.
Proof. induction ds as [|d ds IH]; [reflexivity|]. cbn. rewrite IH. reflexivity. Qed.

Lemma reset_readdress base j ds :
  map (set_addr 0) (readdress base j ds) = map (set_addr 0) ds.
Proof.
  revert base j. induction ds as [|d ds IH]; intros base j; [reflexivity|].
  destruct j as [|j]; cbn; rewrite IH; reflexivity.
Qed.

Lemma readdress_of_reset base j ds :
  readdress base j (map (set_addr 0) ds) = readdress base j ds.
Proof.
  revert base j. induction ds as [|d ds IH]; intros base j; [reflexivity|].
  destruct j as [|j]; cbn; rewrite IH; reflexivity.
Qed.

Lemma readdress_same base j ds ds' :
  map (set_addr 0) ds = map (set_addr 0) ds' ->
  readdress base j ds = readdress base j ds'.
Proof.
  intros H. rewrite <- (readdress_of_reset base j ds), H. apply readdress_of_reset.
Qed.

Lemma length_readdress base j ds : length (readdress base j ds) = length ds.
Proof.
  revert base j. induction ds as [|d ds IH]; intros base j; [reflexivity|].
  destruct j as [|j]; cbn; rewrite IH; reflexivity.
Qed.

Lemma readdress_ge base j ds :
  (length ds <= j)%nat -> readdress base j ds = readdress base (length ds) ds.
Proof.
  revert base j. induction ds as [|d ds IH]; intros base j H; [reflexivity|].
  destruct j as [|j]; [simpl in H; lia|]. cbn. rewrite IH by (simpl in H; lia).
  reflexivity.
Qed.

(** The next assignment is taken by the first device without an address. *)
Lemma assign_first_readdress base j ds :
  1 <= base ->
  assign_first (base + Z.of_nat j) (readdress base j ds) = readdress base (S j) ds.
Proof.
  revert base j. induction ds as [|d ds IH]; intros base j Hb; [reflexivity|].
  destruct j as [|j].
  - cbn [readdress assign_first set_addr sd_addr]. rewrite Z.eqb_refl.
    rewrite set_addr_set_addr, Z.add_0_r, (readdress_0 base (base + 1)). reflexivity.
  - cbn [readdress assign_first set_addr sd_addr].
    assert (E : (base =? 0) = false) by (apply Z.eqb_neq; lia).
    rewrite E. f_equal.
    replace (base + Z.of_nat (S j)) with (base + 1 + Z.of_nat j) by lia.
    apply IH. lia.
Qed.

Lemma find_readdress_some base j ds a d :
  base <= a < base + Z.of_nat j -> ds !! Z.to_nat (a - base) = Some d ->
  List.find (fun d => sd_addr d =? a) (readdress base j ds) = Some (set_addr a d).
Proof.
  revert base j. induction ds as [|d0 ds IH]; intros base j Ha Hd; [discriminate|].
  destruct j as [|j]; [lia|]. cbn [readdress List.find set_addr sd_addr].
  destruct (base =? a) eqn:E.
  - apply Z.eqb_eq in E. subst a. rewrite Z.sub_diag in Hd. cbn in Hd.
    injection Hd as ->. reflexivity.
  - apply Z.eqb_neq in E. apply IH; [lia|].
    replace (Z.to_nat (a - base)) with (S (Z.to_nat (a - (base + 1)))) in Hd by lia.
    exact Hd.
Qed.

Lemma find_readdress_none base j ds a :
  1 <= a -> base + Z.of_nat (length ds) <= a ->
  List.find (fun d => sd_addr d =? a) (readdress base j ds) = None.
Proof.
  revert base j. induction ds as [|d0 ds IH]; intros base j Ha Hlen; [reflexivity|].
  cbn [length] in Hlen.
  destruct j as [|j]; cbn [readdress List.find set_addr sd_addr].
  - assert (E : (0 =? a) = false) by (apply Z.eqb_neq; lia). rewrite E.
    apply IH; lia.
  - assert (E : (base =? a) = false) by (apply Z.eqb_neq; lia). rewrite E.
    apply IH; lia.
Qed.

Lemma addresses_readdress base j ds :
  map sd_addr (readdress base j ds)
  = seqZ base (Z.of_nat (min j (length ds))) ++ repeat 0 (length ds - j).
Proof.
  revert base j. induction ds as [|d ds IH]; intros base j.
  - rewrite Nat.min_0_r. reflexivity.
  - destruct j as [|j]; cbn [readdress map set_addr sd_addr length].
    + rewrite IH, Nat.sub_0_r. reflexivity.
    + rewrite IH. cbn [Nat.min Nat.sub].
      rewrite (seqZ_cons base) by lia. cbn [app]. do 2 f_equal.
      f_equal; lia.
Qed.

Lemma sim_write_reset ds :
  sim_write BROADCAST (u8 RESET) (u8 RESET_COMMAND) ds = addressed 0 ds.
Proof. unfold sim_write, addressed. cbn. apply readdress_reset. Qed.

Lemma sim_write_assign n j ds :
  n = 1 + Z.of_nat j -> n < 64 ->
  sim_write DISCOVERY_ADDR (u8 ADDRESS_CONTROL) (u8 n) (addressed j ds)
  = addressed (S j) ds.
Proof.
  intros Hn Hlt. unfold sim_write, addressed.
  change (u8 ADDRESS_CONTROL) with ADDRESS_CONTROL.
  cbn [DISCOVERY_ADDR DISCOVERY_ADDRESS BROADCAST Z.eqb andb].
  change (ADDRESS_CONTROL =? ADDRESS_CONTROL) with true. cbv iota.
  rewrite u8_id by (unfold is_byte; lia).
  change 0x3F with (Z.ones 6). rewrite Z.land_ones, Z.mod_small by lia.
  subst n. apply assign_first_readdress. lia.
Qed.

(** ** Discovery on the simulated chain *)

Lemma lor_request n :
  0 <= n < 128 -> is_byte (Z.lor n AC_ADDR_RQST) /\ Z.lor n AC_ADDR_RQST <> 0.
Proof.
  intros Hn. split.
  - pose proof (forall_bytes
      (fun n => (0 <=? Z.lor n AC_ADDR_RQST) && (Z.lor n AC_ADDR_RQST <? 256))) as H.
    specialize (H ltac:(vm_compute; reflexivity) n ltac:(unfold is_byte; lia)).
    cbv beta in H. apply andb_prop in H as [H1 H2]. unfold is_byte. lia.
  - intros H. apply Z.lor_eq_0_iff in H as [_ H]. discriminate.
Qed.

Lemma prepared_prepare s : tidy s -> prepared (bq_prepare_spi_message s).
Proof.
  intros H. split; [apply tidy_prepare_tidy; exact H|]. repeat split.
Qed.

Section Discovery.

Variables good rest : list sim_device.
Local Abbreviation chain := (good ++ rest).
Local Abbreviation h := (length good).

Hypothesis Hgood : Forall healthy good.
Hypothesis Hrest : rest = [] \/ exists bad rest', rest = bad :: rest' /\ ~ healthy bad.
Hypothesis Hsize : Z.of_nat (length chain) <= MAX_BQ_DEVICES.

(** One probe: address [n0 + 1] is assigned and read back. A healthy
    device verifies; the first faulty device, or the end of the chain,
    does not. *)
Lemma probe_sim n0 s dc :
  probing chain n0 s dc -> (n0 <= h)%nat ->
  let n := Z.of_nat n0 + 1 in
  exists s1 s2 v,
    writeRegister DISCOVERY_ADDR ADDRESS_CONTROL n s = (0, s1)
    /\ readRegister sim_hw n ADDRESS_CONTROL 1 s1 dc = (v, s2, addressed (S n0) chain)
    /\ tidy s2
    /\ ((n0 < h)%nat -> v = Z.lor n AC_ADDR_RQST)
    /\ (n0 = h -> v < 0 \/ v <> Z.lor n AC_ADDR_RQST).
Proof.
  intros (Ht & Hx & Hb & Hrun) Hn0 n.
  assert (Hlen : Z.of_nat h <= MAX_BQ_DEVICES)
    by (rewrite length_app in Hsize; lia).
  unfold MAX_BQ_DEVICES in *.
  destruct (writeRegister_tidy DISCOVERY_ADDR ADDRESS_CONTROL n s Ht)
    as (s1 & Hw & T1 & W1 & X1 & B1 & O1 & R1);
    [unfold MAX_XFER; lia|unfold SPI_BUFF_SIZE; lia|].
  assert (Hrun1 : fst (sim_run dc (wire s1)) = addressed (S n0) chain).
  { rewrite W1, sim_run_app. cbn [fst]. rewrite Hrun.
    rewrite sim_frame_write by (unfold DISCOVERY_ADDR, DISCOVERY_ADDRESS; lia).
    cbn [fst]. apply sim_write_assign; lia. }
  destruct (readRegister_sim n ADDRESS_CONTROL 1 s1 dc T1)
    as (s2 & v & Hread & T2 & X2 & B2 & O2 & _ & Hv);
    [unfold MAX_XFER; lia|left; reflexivity|unfold SPI_BUFF_SIZE; lia|lia
    |unfold is_byte, ADDRESS_CONTROL; lia|].
  rewrite Hrun1 in Hread, Hv.
  exists s1, s2, v. split; [exact Hw|]. split; [exact Hread|]. split; [exact T2|].
  destruct (lor_request n ltac:(lia)) as [Hlb Hlz].
  assert (Hval : forall d, chain !! n0 = Some d ->
            v = if u8 (sd_crc_flip d) =? 0
                then Z.lxor (Z.lor n AC_ADDR_RQST) (u8 (sd_ac_flip d))
                else - EFAULT).
  { intros d Hd. unfold addressed in Hv.
    rewrite (find_readdress_some 1 (S n0) chain n d) in Hv;
      [|lia|replace (Z.to_nat (n - 1)) with n0 by lia; exact Hd].
    rewrite Hv. cbn [set_addr sd_crc_flip].
    destruct (u8 (sd_crc_flip d) =? 0); [|reflexivity].
    unfold sim_payload. cbn [seqZ]. change (seqZ 0 1) with [0]. cbn [map].
    rewrite be_value_1, Z.add_0_r. unfold reg_value. rewrite Z.eqb_refl.
    cbn [set_addr sd_addr sd_ac_flip].
    rewrite u8_lxor, (u8_id _ Hlb). reflexivity. }
  split.
  - intros Hlt.
    destruct (lookup_lt_is_Some_2 good n0 Hlt) as [d Hd].
    pose proof (Forall_lookup_1 _ _ _ _ Hgood Hd) as [Hac Hcrc].
    rewrite (Hval d) by (rewrite lookup_app_l by exact Hlt; exact Hd).
    rewrite Hcrc, Hac, Z.lxor_0_r. reflexivity.
  - intros ->. destruct Hrest as [-> | (bad & rest' & -> & Hbad)].
    + unfold addressed in Hv. rewrite find_readdress_none in Hv;
        [|lia|rewrite app_nil_r; lia].
      destruct Hv as [-> | ->]; [left; unfold EFAULT; lia|right; congruence].
    + rewrite (Hval bad)
        by (rewrite lookup_app_r, Nat.sub_diag by lia; reflexivity).
      destruct (u8 (sd_crc_flip bad) =? 0) eqn:Hcrc;
        [|left; unfold EFAULT; lia].
      right. apply lxor_nonzero_ne. intros Hac. apply Hbad.
      apply Z.eqb_eq in Hcrc. split; assumption.
Qed.

(** The inner loop from address [n0 + 1] up to [look_for]: it completes when
    all the devices probed are healthy, and returns the number of healthy
    devices when it meets the first faulty one or the end of the chain. *)
Lemma search_inner_sim k n0 look_for fuel s dc :
  probing chain n0 s dc -> (n0 <= h)%nat ->
  Z.of_nat n0 + Z.of_nat k = look_for -> (1 <= k)%nat ->
  look_for <= Z.of_nat h + 1 -> (k <= fuel)%nat ->
  exists s',
    search_inner sim_hw fuel look_for (Z.of_nat n0) s dc
    = (if look_for <=? Z.of_nat h
       then Some (Completed look_for, s', addressed (Z.to_nat look_for) chain)
       else Some (Returned (Z.of_nat h), s', addressed (S h) chain))
    /\ (look_for <= Z.of_nat h -> prepared s').
Proof.
  revert n0 fuel s dc.
  induction k as [|k IH]; intros n0 fuel s dc Hp Hn0 Hk Hk1 Hl Hfuel; [lia|].
  assert (Hlen : Z.of_nat h <= MAX_BQ_DEVICES)
    by (rewrite length_app in Hsize; lia).
  unfold MAX_BQ_DEVICES in *.
  destruct fuel as [|fuel]; [lia|].
  destruct (probe_sim n0 s dc Hp Hn0) as (s1 & s2 & v & Hw & Hread & T2 & Hok & Hbad).
  cbn [search_inner].
  rewrite (u8_id (Z.of_nat n0 + 1)) by (unfold is_byte; lia).
  rewrite Hw, Hread. cbn [Z.eqb negb].
  destruct (lor_request (Z.of_nat n0 + 1) ltac:(lia)) as [Hlb Hlz].
  destruct (Nat.eq_dec n0 h) as [Heq|Hne].
  - (* the first device that does not verify *)
    assert (Hlf : (look_for <=? Z.of_nat h) = false) by (apply Z.leb_gt; lia).
    rewrite Hlf. exists s2. split; [|lia].
    replace (u8 (Z.of_nat n0 + 1 - 1)) with (Z.of_nat h)
      by (rewrite u8_id by (unfold is_byte; lia); lia).
    subst n0.
    destruct (Hbad eq_refl) as [Hneg|Hdiff].
    + apply Z.ltb_lt in Hneg. rewrite Hneg. reflexivity.
    + destruct (v <? 0); [reflexivity|].
      apply Z.eqb_neq in Hdiff. rewrite Hdiff. reflexivity.
  - rewrite (Hok ltac:(lia)).
    assert (E1 : (Z.lor (Z.of_nat n0 + 1) AC_ADDR_RQST <? 0) = false)
      by (apply Z.ltb_ge; unfold is_byte in Hlb; lia).
    rewrite E1, Z.eqb_refl. cbn [negb].
    destruct (Z.of_nat n0 + 1 <? look_for) eqn:Hmore.
    + apply Z.ltb_lt in Hmore.
      replace (Z.of_nat n0 + 1) with (Z.of_nat (S n0)) by lia.
      apply (IH (S n0)); try lia.
      split; [apply tidy_prepare_tidy; exact T2|]. cbn. repeat split; lia.
    + apply Z.ltb_ge in Hmore.
      assert (Hlast : look_for = Z.of_nat n0 + 1) by lia.
      assert (Hlf : (look_for <=? Z.of_nat h) = true) by (apply Z.leb_le; lia).
      rewrite Hlf. exists (bq_prepare_spi_message s2).
      split; [|intros _; apply prepared_prepare; exact T2].
      rewrite Hlast. replace (Z.to_nat (Z.of_nat n0 + 1)) with (S n0) by lia.
      reflexivity.
Qed.

(** The outer loop entered with [look_for = l0]: whatever the addresses
    the devices of [dc] hold, it returns the number of healthy devices at
    the head of the chain. *)
Lemma search_outer_sim m l0 used fuel s dc :
  prepared s -> map (set_addr 0) dc = map (set_addr 0) chain ->
  (l0 + m = h)%nat -> Z.of_nat (length chain) <= used ->
  (2 * m + l0 + 2 <= fuel)%nat ->
  exists s',
    search_outer sim_hw fuel used (Z.of_nat l0) s dc
    = Some (Z.of_nat h, s', addressed (S h) chain).
Proof.
  revert l0 fuel s dc.
  induction m as [|m IH]; intros l0 fuel s dc (Ht & Hx & Hb & Hw) Hdc Hm Hused Hfuel.
  all: assert (Hlen : Z.of_nat h <= Z.of_nat (length chain))
         by (rewrite length_app; lia).
  all: unfold MAX_BQ_DEVICES in *.
  all: destruct fuel as [|fuel]; [lia|].
  all: destruct (writeRegister_tidy BROADCAST RESET RESET_COMMAND s Ht)
         as (s1 & Hw1 & T1 & W1 & X1 & B1 & O1 & R1);
         [unfold MAX_XFER; lia|unfold SPI_BUFF_SIZE; lia|].
  all: assert (Hp : probing chain 0 s1 dc);
         [split; [exact T1|]; split; [lia|]; split; [lia|];
          rewrite W1, Hw; cbn [app sim_run];
          rewrite sim_frame_write by (unfold BROADCAST; lia);
          cbn [fst]; rewrite sim_write_reset; unfold addressed;
          apply readdress_same; exact Hdc|].
  all: cbn [search_outer]; rewrite Hw1; cbn [Z.eqb negb].
  all: rewrite (u8_id (Z.of_nat l0 + 1)) by (unfold is_byte; lia).
  all: destruct (search_inner_sim (S l0) 0 (Z.of_nat l0 + 1) (S fuel) s1 dc Hp)
         as (s2 & Hin & Hprep); try lia.
  all: change (Z.of_nat 0) with 0 in Hin; rewrite Hin.
  - (* l0 = h: the probe of address h + 1 fails *)
    assert (E : (Z.of_nat l0 + 1 <=? Z.of_nat h) = false) by (apply Z.leb_gt; lia).
    rewrite E. exists s2. reflexivity.
  - assert (E : (Z.of_nat l0 + 1 <=? Z.of_nat h) = true) by (apply Z.leb_le; lia).
    rewrite E.
    destruct (Z.of_nat l0 + 1 <? used) eqn:Hmore.
    + replace (Z.of_nat l0 + 1) with (Z.of_nat (S l0)) by lia.
      apply (IH (S l0)); try lia.
      * apply Hprep. lia.
      * unfold addressed. apply reset_readdress.
    + apply Z.ltb_ge in Hmore.
      assert (Hall : Z.of_nat l0 + 1 = Z.of_nat h) by lia.
      exists s2. rewrite Hall, Nat2Z.id.
      assert (Hfull : length chain = h) by lia.
      replace (addressed h chain) with (addressed (S h) chain); [reflexivity|].
      unfold addressed.
      rewrite (readdress_ge 1 (S h)), (readdress_ge 1 h) by lia. reflexivity.
Qed.

End Discovery.

(** C2. On a chain of N simulated devices, N at most the configured device
    count, [search_pack] terminates (any fuel from [2 N + 2] on suffices):
    when every device verifies, it returns N and leaves the devices with
    the addresses 1, ..., N in chain order; when device k is the first that
    does not verify (it reads back a value other than [k | AC_ADDR_RQST], or
    answers with a wrong CRC), it returns k - 1. The devices may hold any
    address beforehand, and the batch may be in any state. *)
Theorem search_pack_discovers (used : Z) (s : batch) (fuel : nat)
    (good rest : list sim_device) :
  length (xfer s) = Z.to_nat MAX_XFER ->
  length (tx_buff s) = Z.to_nat SPI_BUFF_SIZE ->
  Forall healthy good ->
  Z.of_nat (length (good ++ rest)) <= used ->
  Z.of_nat (length (good ++ rest)) <= MAX_BQ_DEVICES ->
  (2 * length good + 2 <= fuel)%nat ->
  (rest = [] ->
   exists s' ds',
     search_pack sim_hw fuel used s good = Some (Z.of_nat (length good), s', ds')
     /\ map sd_addr ds' = seqZ 1 (Z.of_nat (length good)))
  /\ (forall bad rest',
        rest = bad :: rest' -> ~ healthy bad ->
        let k := Z.of_nat (length good) + 1 in
        exists s' ds',
          search_pack sim_hw fuel used s (good ++ rest) = Some (k - 1, s', ds')
          /\ map sd_addr ds' = seqZ 1 k ++ repeat 0 (length rest')).
Proof.
  intros Hx Ht Hgood Hused Hsize Hfuel.
  assert (Hprep : prepared (bq_prepare_spi_message s)).
  { split; [apply tidy_prepare; assumption|]. repeat split. }
  split.
  - intros ->. rewrite app_nil_r in *.
    destruct (search_outer_sim good [] Hgood (or_introl eq_refl)
                ltac:(rewrite app_nil_r; exact Hsize)
                (length good) 0 used fuel (bq_prepare_spi_message s) (good ++ [])
                Hprep eq_refl eq_refl
                ltac:(rewrite app_nil_r; exact Hused) ltac:(lia)) as (s' & Hs).
    rewrite app_nil_r in Hs.
    exists s'. eexists. split; [exact Hs|].
    unfold addressed. rewrite addresses_readdress.
    replace (min (S (length good)) (length good)) with (length good) by lia.
    replace (length good - S (length good))%nat with 0%nat by lia.
    apply app_nil_r.
  - intros bad rest' -> Hbad k.
    destruct (search_outer_sim good (bad :: rest') Hgood
                (or_intror (ex_intro _ bad (ex_intro _ rest' (conj eq_refl Hbad))))
                Hsize (length good) 0 used fuel (bq_prepare_spi_message s)
                (good ++ bad :: rest') Hprep eq_refl eq_refl Hused ltac:(lia))
      as (s' & Hs).
    exists s'. eexists. split.
    + unfold search_pack. change (Z.of_nat 0) with 0 in Hs. rewrite Hs.
      replace (k - 1) with (Z.of_nat (length good)) by (unfold k; lia).
      reflexivity.
    + unfold addressed. rewrite addresses_readdress.
      rewrite length_app. cbn [length].
      replace (min (S (length good)) (length good + S (length rest')))
        with (S (length good)) by lia.
      replace (length good + S (length rest') - S (length good))%nat
        with (length rest') by lia.
      unfold k. do 2 f_equal. lia.
Qed.

Lemma search_pack_discovers_witness :
  exists s' ds',
    search_pack sim_hw 10 4 initial_batch fresh_chain = Some (4, s', ds')
    /\ map sd_addr ds' = [1; 2; 3; 4].
Proof.
  destruct (search_pack_discovers 4 initial_batch 10 fresh_chain []) as [H _].
  - reflexivity.
  - reflexivity.
  - repeat constructor.
  - vm_compute. discriminate.
  - vm_compute. discriminate.
  - vm_compute. lia.
  - apply H. reflexivity.
Defined.

(** Discovery stops at the device that reads its address back wrong. *)
Lemma search_pack_faulty_chain :
  exists s' ds',
    search_pack sim_hw 10 4 initial_batch faulty_chain = Some (2, s', ds')
    /\ map sd_addr ds' = [1; 2; 3; 0].
Proof. vm_compute. eexists. eexists. split; reflexivity. Qed.

(** ** Failures during discovery *)

Section Aborts.

Context {B : Type}.
Variable hw : B -> list wire_xfer -> B * Z * list (list Z).

Lemma writeRegister_accepted a r d s :
  xfer_index s < MAX_XFER ->
  fst (writeRegister a r d s) = 0
  /\ xfer_index (snd (writeRegister a r d s)) = xfer_index s + 1.
Proof.
  intros H. unfold writeRegister.
  destruct (MAX_XFER <=? xfer_index s) eqn:E; [apply Z.leb_le in E; lia|].
  split; reflexivity.
Qed.

Lemma search_inner_step fuel look_for n0 s b :
  xfer_index s < MAX_XFER ->
  search_inner hw (S fuel) look_for n0 s b
  = let n := u8 (n0 + 1) in
    let r := probe hw n s b in
    if fst (fst r) <? 0 then Some (Returned (u8 (n - 1)), snd (fst r), snd r)
    else if negb (fst (fst r) =? Z.lor n AC_ADDR_RQST) then
      Some (Returned (u8 (n - 1)), snd (fst r), snd r)
    else if n <? look_for then
      search_inner hw fuel look_for n (bq_prepare_spi_message (snd (fst r))) (snd r)
    else Some (Completed n, bq_prepare_spi_message (snd (fst r)), snd r).
Proof.
  intros Hx. cbn [search_inner]. cbv zeta. unfold probe.
  destruct (writeRegister_accepted DISCOVERY_ADDR ADDRESS_CONTROL (u8 (n0 + 1)) s Hx)
    as [Hw _].
  destruct (writeRegister DISCOVERY_ADDR ADDRESS_CONTROL (u8 (n0 + 1)) s) as [st s1].
  cbn [fst snd] in *. subst st. cbn [Z.eqb negb].
  destruct (readRegister hw (u8 (n0 + 1)) ADDRESS_CONTROL 1 s1 b) as [[v s2] b2].
  reflexivity.
Qed.


Lemma search_outer_step fuel used l0 s b :
  xfer_index s < MAX_XFER ->
  search_outer hw (S fuel) used l0 s b
  = match search_inner hw (S fuel) (u8 (l0 + 1)) 0
            (snd (writeRegister BROADCAST RESET RESET_COMMAND s)) b with
    | None => None
    | Some (Returned v, s', b') => Some (v, s', b')
    | Some (Completed n, s', b') =>
        if n <? used then search_outer hw fuel used (u8 (l0 + 1)) s' b'
        else Some (n, s', b')
    end.
Proof.
  intros Hx. cbn [search_outer].
  destruct (writeRegister_accepted BROADCAST RESET RESET_COMMAND s Hx) as [Hw _].
  destruct (writeRegister BROADCAST RESET RESET_COMMAND s) as [st s1].
  cbn [fst snd] in *. subst st. reflexivity.
Qed.


End Aborts.



(** ** Cell census on the simulated chain *)

Lemma find_ordered base ds a d :
  map sd_addr ds = seqZ base (Z.of_nat (length ds)) ->
  base <= a -> ds !! Z.to_nat (a - base) = Some d ->
  List.find (fun d => sd_addr d =? a) ds = Some d.
Proof.
  revert base. induction ds as [|d0 ds IH]; intros base Hord Ha Hd; [discriminate|].
  cbn [length map] in Hord. rewrite seqZ_cons in Hord by lia.
  injection Hord as Hd0 Hord. cbn [List.find]. rewrite Hd0.
  destruct (base =? a) eqn:E.
  - apply Z.eqb_eq in E. subst a. rewrite Z.sub_diag in Hd. cbn in Hd. exact Hd.
  - apply Z.eqb_neq in E. apply (IH (Z.succ base)).
    + rewrite Hord. f_equal. lia.
    + lia.
    + replace (Z.to_nat (a - base)) with (S (Z.to_nat (a - Z.succ base))) in Hd by lia.
      exact Hd.
Qed.

Lemma tap_register_range j : In j tap_registers -> 3 <= j <= 13.
Proof.
  change tap_registers with [3; 5; 7; 9; 11; 13]. cbn [In]. intros H.
  repeat (destruct H as [<- | H]; [lia|]). contradiction.
Qed.

Section Census.

Variable ds : list sim_device.

Hypothesis Hordered : map sd_addr ds = seqZ 1 (Z.of_nat (length ds)).
Hypothesis Hcrc : Forall (fun d => u8 (sd_crc_flip d) = 0) ds.
Hypothesis Hsize : Z.of_nat (length ds) < 128.

(** Reading a tap of an addressed device returns its raw reading and
    leaves the chain as it is. *)
Lemma read_tap_sim i j s d :
  tidy s -> ds !! Z.to_nat (i - 1) = Some d -> 1 <= i -> In j tap_registers ->
  exists s2,
    readRegister sim_hw i j 2 (bq_prepare_spi_message s) ds = (sim_raw d j, s2, ds)
    /\ tidy s2 /\ overrun s2 = overrun s.
Proof.
  intros Ht Hd Hi Hj. apply tap_register_range in Hj.
  pose proof (lookup_lt_Some _ _ _ Hd) as Hlt.
  destruct (readRegister_sim i j 2 (bq_prepare_spi_message s) ds
              (tidy_prepare_tidy s Ht))
    as (s2 & v & Hread & T2 & _ & _ & O2 & _ & Hv);
    [cbn; unfold MAX_XFER; lia|right; reflexivity|cbn; unfold SPI_BUFF_SIZE; lia
    |lia|unfold is_byte; lia|].
  cbn [wire queued bq_prepare_spi_message msg omap list_omap map sim_run fst] in Hread, Hv.
  rewrite (find_ordered 1 ds i d Hordered Hi Hd) in Hv.
  pose proof (Forall_lookup_1 _ _ _ _ Hcrc Hd) as Hc. cbv beta in Hc.
  rewrite Hc in Hv. cbn [Z.eqb] in Hv.
  exists s2. split; [|split; [exact T2|exact O2]].
  rewrite Hread, Hv. do 2 f_equal.
  unfold sim_payload. change (seqZ 0 2) with [0; 1]. cbn [map].
  rewrite be_value_2, Z.add_0_r. unfold reg_value, sim_raw.
  assert (E1 : (j =? ADDRESS_CONTROL) = false)
    by (apply Z.eqb_neq; unfold ADDRESS_CONTROL; lia).
  assert (E2 : (j + 1 =? ADDRESS_CONTROL) = false)
    by (apply Z.eqb_neq; unfold ADDRESS_CONTROL; lia).
  rewrite E1, E2. lia.
Qed.

(** First pass over the taps of one chip: both counters advance by the
    number of populated taps. *)
Lemma count_taps_sim i d regs total chip_count s :
  tidy s -> ds !! Z.to_nat (i - 1) = Some d -> 1 <= i ->
  Forall (fun j => In j tap_registers) regs ->
  exists s',
    fold_left (count_tap sim_hw i) regs (total, chip_count, s, ds)
    = (total + Z.of_nat (length (List.filter (populated ds)
                                   (map (fun j => {| chip := i; index := j |}) regs))),
       chip_count + Z.of_nat (length (List.filter (populated ds)
                                   (map (fun j => {| chip := i; index := j |}) regs))),
       s', ds)
    /\ tidy s' /\ overrun s' = overrun s.
Proof.
  intros Ht Hd Hi Hregs. revert total chip_count s Ht.
  induction Hregs as [|j regs Hj Hregs IH]; intros total chip_count s Ht.
  - exists s. cbn. rewrite !Z.add_0_r. auto.
  - cbn [fold_left map List.filter]. unfold count_tap at 2.
    destruct (read_tap_sim i j s d Ht Hd Hi Hj) as (s2 & Hread & T2 & O2).
    rewrite Hread.
    assert (Hpop : populated ds {| chip := i; index := j |}
                   = (CELL_MISSING_THRESHOLD <? sim_raw d j)).
    { unfold populated. cbn [chip index]. rewrite Hd. reflexivity. }
    rewrite Hpop.
    destruct (CELL_MISSING_THRESHOLD <? sim_raw d j).
    + destruct (IH (total + 1) (chip_count + 1) s2 T2) as (s' & E & T' & O').
      exists s'. rewrite E. cbn [length].
      split; [do 3 f_equal; lia|]. split; [exact T'|congruence].
    + destruct (IH total chip_count s2 T2) as (s' & E & T' & O').
      exists s'. rewrite E. split; [reflexivity|]. split; [exact T'|congruence].
Qed.

Lemma tidy_raise_overrun c s : tidy s -> tidy (raise_overrun c s).
Proof. intros H. eapply tidy_ext; [exact H|..]; reflexivity. Qed.

(** First pass over the chips: the total is the number of populated taps. *)
Lemma count_chips_sim chips pk s :
  tidy s -> Forall (fun i => 1 <= i <= Z.of_nat (length ds)) chips ->
  exists pk' s',
    fold_left (count_chip sim_hw) chips (pk, s, ds) = (pk', s', ds)
    /\ tidy s'
    /\ total_cell_count pk'
       = total_cell_count pk
         + Z.of_nat (length (List.filter (populated ds) (taps_of chips))).
Proof.
  intros Ht Hchips. revert pk s Ht.
  induction Hchips as [|i chips Hi Hchips IH]; intros pk s Ht.
  - exists pk, s. cbn. rewrite Z.add_0_r. auto.
  - cbn [fold_left]. unfold count_chip at 2.
    destruct (lookup_lt_is_Some_2 ds (Z.to_nat (i - 1)) ltac:(lia)) as [d Hd].
    destruct (count_taps_sim i d tap_registers (total_cell_count pk) 0 s Ht Hd
                ltac:(lia)) as (s1 & E1 & T1 & O1).
    { apply Forall_forall. intros j Hj. apply list_elem_of_In. exact Hj. }
    rewrite E1.
    match goal with |- context [fold_left _ chips (?pk1, ?s2, ds)] =>
      destruct (IH pk1 s2) as (pk' & s' & E & T' & Htot) end.
    { apply tidy_raise_overrun. exact T1. }
    exists pk', s'. split; [exact E|]. split; [exact T'|].
    rewrite Htot. cbn [total_cell_count taps_of flat_map].
    rewrite List.filter_app, length_app. unfold taps_of. lia.
Qed.

Lemma store_middle {A} (done pad : list A) (x y : A) :
  in_bounds (done ++ x :: pad) (Z.of_nat (length done)) = true
  /\ store (done ++ x :: pad) (Z.of_nat (length done)) y = (done ++ [y]) ++ pad.
Proof.
  assert (Hb : in_bounds (done ++ x :: pad) (Z.of_nat (length done)) = true).
  { apply in_bounds_true. rewrite length_app. cbn [length]. lia. }
  split; [exact Hb|]. unfold store. rewrite Hb, Nat2Z.id.
  rewrite insert_app_r_alt, Nat.sub_diag by lia. cbn. rewrite <- app_assoc.
  reflexivity.
Qed.

(** Second pass over the taps of one chip: the populated taps are stored
    at the next free entries of [cells]. *)
Lemma fill_taps_sim i d regs done pad s :
  tidy s -> ds !! Z.to_nat (i - 1) = Some d -> 1 <= i ->
  Forall (fun j => In j tap_registers) regs ->
  let new := List.filter (populated ds)
               (map (fun j => {| chip := i; index := j |}) regs) in
  (length new <= length pad)%nat ->
  exists s',
    fold_left (fill_tap sim_hw i) regs (done ++ pad, Z.of_nat (length done), s, ds)
    = ((done ++ new) ++ drop (length new) pad,
       Z.of_nat (length (done ++ new)), s', ds)
    /\ tidy s' /\ overrun s' = overrun s.
Proof.
  intros Ht Hd Hi Hregs. revert done pad s Ht.
  induction Hregs as [|j regs Hj Hregs IH]; intros done pad s Ht new Hroom.
  - exists s. cbn. rewrite !app_nil_r. auto.
  - cbn [fold_left]. unfold fill_tap at 2.
    destruct (read_tap_sim i j s d Ht Hd Hi Hj) as (s2 & Hread & T2 & O2).
    rewrite Hread.
    assert (Hpop : populated ds {| chip := i; index := j |}
                   = (CELL_MISSING_THRESHOLD <? sim_raw d j)).
    { unfold populated. cbn [chip index]. rewrite Hd. reflexivity. }
    subst new. cbn [map List.filter] in *. rewrite Hpop in *.
    destruct (CELL_MISSING_THRESHOLD <? sim_raw d j).
    + destruct pad as [|x pad]; [cbn in Hroom; lia|].
      destruct (store_middle done pad x {| chip := i; index := j |}) as [Hb Hst].
      rewrite Hb, Hst. cbn [negb].
      replace (Z.of_nat (length done) + 1)
        with (Z.of_nat (length (done ++ [{| chip := i; index := j |}])))
        by (rewrite length_app; cbn [length]; lia).
      destruct (IH (done ++ [{| chip := i; index := j |}]) pad
                  (raise_overrun false s2) (tidy_raise_overrun _ _ T2))
        as (s' & E & T' & O'); [cbn [length] in Hroom; lia|].
      exists s'. rewrite E. cbn [length drop].
      rewrite <- !app_assoc. cbn [app].
      split; [reflexivity|]. split; [exact T'|].
      rewrite O'. cbn. rewrite orb_false_r. exact O2.
    + destruct (IH done pad s2 T2 Hroom) as (s' & E & T' & O').
      exists s'. rewrite E. split; [reflexivity|]. split; [exact T'|congruence].
Qed.

(** Second pass over the chips. *)
Lemma fill_chips_sim chips done pad s :
  tidy s -> Forall (fun i => 1 <= i <= Z.of_nat (length ds)) chips ->
  let new := List.filter (populated ds) (taps_of chips) in
  (length new <= length pad)%nat ->
  exists s',
    fold_left (fill_chip sim_hw) chips (done ++ pad, Z.of_nat (length done), s, ds)
    = ((done ++ new) ++ drop (length new) pad,
       Z.of_nat (length (done ++ new)), s', ds)
    /\ tidy s'.
Proof.
  intros Ht Hchips. revert done pad s Ht.
  induction Hchips as [|i chips Hi Hchips IH]; intros done pad s Ht new Hroom.
  - exists s. cbn. rewrite !app_nil_r. auto.
  - cbn [fold_left]. unfold fill_chip at 2.
    destruct (lookup_lt_is_Some_2 ds (Z.to_nat (i - 1)) ltac:(lia)) as [d Hd].
    subst new. cbn [taps_of flat_map] in Hroom |- *.
    rewrite List.filter_app in Hroom |- *. rewrite length_app in Hroom.
    set (n1 := List.filter (populated ds)
                 (map (fun j => {| chip := i; index := j |}) tap_registers)) in *.
    fold (taps_of chips) in Hroom |- *.
    set (n2 := List.filter (populated ds) (taps_of chips)) in *.
    destruct (fill_taps_sim i d tap_registers done pad s Ht Hd ltac:(lia))
      as (s1 & E1 & T1 & _).
    { apply Forall_forall. intros j Hj. apply list_elem_of_In. exact Hj. }
    { fold n1. lia. }
    fold n1 in E1. rewrite E1.
    destruct (IH (done ++ n1) (drop (length n1) pad) s1 T1) as (s' & E & T').
    { fold n2. rewrite length_drop. lia. }
    fold n2 in E. exists s'. rewrite E. split; [|exact T'].
    rewrite drop_drop, !length_app, <- !app_assoc.
    do 3 f_equal. f_equal. lia.
Qed.

End Census.

Lemma seqZ_sorted k m : StronglySorted Z.lt (seqZ m (Z.of_nat k)).
Proof.
  revert m. induction k as [|k IH]; intros m; [constructor|].
  rewrite seqZ_cons by lia. constructor.
  - replace (Z.pred (Z.of_nat (S k))) with (Z.of_nat k) by lia. apply IH.
  - apply Forall_forall. intros x Hx. apply elem_of_seqZ in Hx. lia.
Qed.

Lemma sorted_filter {A} (R : A -> A -> Prop) (f : A -> bool) l :
  StronglySorted R l -> StronglySorted R (List.filter f l).
Proof.
  induction 1 as [|x l Hl IH Hx]; cbn [List.filter]; [constructor|].
  destruct (f x); [|exact IH]. constructor; [exact IH|].
  rewrite Forall_forall in Hx. apply Forall_forall. intros y Hy.
  apply list_elem_of_In, filter_In in Hy as [Hy _]. apply Hx, list_elem_of_In, Hy.
Qed.

Lemma taps_of_sorted chips :
  StronglySorted Z.lt chips -> StronglySorted tap_lt (taps_of chips).
Proof.
  induction 1 as [|i chips Hs IH Hi]; [constructor|].
  cbn [taps_of flat_map]. apply StronglySorted_app_2.
  - intros c1 c2 H1 H2. apply list_elem_of_In in H1, H2.
    apply in_map_iff in H1 as (j1 & <- & _).
    apply in_flat_map in H2 as (i2 & Hi2 & H2).
    apply in_map_iff in H2 as (j2 & <- & _).
    left. cbn. rewrite Forall_forall in Hi. apply Hi, list_elem_of_In, Hi2.
  - change tap_registers with [3; 5; 7; 9; 11; 13]. cbn [map].
    repeat (constructor; [|repeat (constructor; [right; cbn; lia|]); constructor]).
    constructor.
  - exact IH.
Qed.

Lemma in_all_taps count i j :
  In {| chip := i; index := j |} (all_taps count)
  <-> 1 <= i <= count /\ In j tap_registers.
Proof.
  unfold all_taps, taps_of. rewrite in_flat_map. split.
  - intros (i' & Hi' & Hc). apply in_map_iff in Hc as (j' & Hc & Hj').
    injection Hc as -> ->. apply list_elem_of_In, elem_of_seqZ in Hi'.
    split; [lia|exact Hj'].
  - intros [Hi Hj]. exists i. split.
    + apply list_elem_of_In, elem_of_seqZ. lia.
    + apply in_map. exact Hj.
Qed.

(** C7. On a chain whose devices hold the addresses 1, ..., N and answer
    with good CRCs, the census of the first [count] devices marks a tap
    populated exactly when its raw 2-byte reading is above 1000: the table
    [cells] holds the taps [(i, j)], [i] from 1 to [count] and [j] one of
    the six registers, with reading above 1000, each once and in (device,
    register) order, and [total_cell_count] is the number of its entries. *)
Theorem census_populated (count : Z) (pk : pack) (s : batch)
    (ds : list sim_device) :
  tidy s ->
  map sd_addr ds = seqZ 1 (Z.of_nat (length ds)) ->
  Forall (fun d => u8 (sd_crc_flip d) = 0) ds ->
  Z.of_nat (length ds) < 128 ->
  0 <= count <= Z.of_nat (length ds) ->
  let r := census sim_hw count pk s ds in
  let pk' := fst (fst r) in
  cells pk' = List.filter (populated ds) (all_taps count)
  /\ total_cell_count pk' = Z.of_nat (length (cells pk'))
  /\ (forall i j,
        In {| chip := i; index := j |} (cells pk')
        <-> 1 <= i <= count /\ In j tap_registers
            /\ exists d, ds !! Z.to_nat (i - 1) = Some d
                         /\ CELL_MISSING_THRESHOLD < sim_raw d j)
  /\ StronglySorted tap_lt (cells pk')
  /\ snd r = ds.
Proof.
  intros Ht Hord Hcrc Hsize Hcount.
  assert (Hchips : Forall (fun i => 1 <= i <= Z.of_nat (length ds)) (seqZ 1 count)).
  { apply Forall_forall. intros i Hi. apply elem_of_seqZ in Hi. lia. }
  destruct (count_chips_sim ds Hord Hcrc Hsize (seqZ 1 count)
              {| devices_used := devices_used pk;
                 cells_per_device := cells_per_device pk;
                 cells := cells pk; total_cell_count := 0 |} s Ht Hchips)
    as (pk1 & s1 & E1 & T1 & Htot).
  cbn [total_cell_count] in Htot. rewrite Z.add_0_l in Htot.
  fold (all_taps count) in Htot.
  set (new := List.filter (populated ds) (all_taps count)) in *.
  destruct (fill_chips_sim ds Hord Hcrc Hsize (seqZ 1 count) []
              (repeat {| chip := 0; index := 0 |} (Z.to_nat (total_cell_count pk1)))
              s1 T1 Hchips) as (s2 & E2 & T2).
  { fold (all_taps count). fold new. rewrite repeat_length, Htot. lia. }
  fold (all_taps count) in E2. fold new in E2. cbn [app length] in E2.
  change (Z.of_nat 0) with 0 in E2.
  rewrite drop_ge, app_nil_r in E2 by (rewrite repeat_length, Htot; lia).
  assert (Hcensus : census sim_hw count pk s ds
                    = ({| devices_used := devices_used pk1;
                          cells_per_device := cells_per_device pk1;
                          cells := new;
                          total_cell_count := total_cell_count pk1 |}, s2, ds)).
  { unfold census. rewrite E1, E2. reflexivity. }
  rewrite Hcensus. cbv zeta. cbn [fst snd cells total_cell_count].
  split; [reflexivity|]. split; [exact Htot|]. split; [|split; [|reflexivity]].
  - intros i j. unfold new. rewrite filter_In, in_all_taps.
    unfold populated. cbn [chip index].
    destruct (ds !! Z.to_nat (i - 1)) as [d|]; split.
    + intros [[Hi Hj] Hp]. apply Z.ltb_lt in Hp. eauto.
    + intros (Hi & Hj & d' & Hd' & Hp). injection Hd' as <-.
      apply Z.ltb_lt in Hp. auto.
    + intros [_ Hp]. discriminate.
    + intros (_ & _ & d' & Hd' & _). discriminate.
  - apply sorted_filter, taps_of_sorted.
    replace count with (Z.of_nat (Z.to_nat count)) by lia. apply seqZ_sorted.
Qed.

Lemma tidy_initial : tidy initial_batch.
Proof.
  split; cbn; try reflexivity; try lia; try constructor.
  all: unfold MAX_XFER, SPI_BUFF_SIZE; lia.
Qed.

Lemma census_populated_witness :
  let pk' := fst (fst (census sim_hw 2 default_pack initial_batch ready_chain)) in
  cells pk' = [{| chip := 1; index := 3 |}; {| chip := 1; index := 5 |};
               {| chip := 2; index := 3 |}; {| chip := 2; index := 5 |}]
  /\ total_cell_count pk' = 4.
Proof.
  destruct (census_populated 2 default_pack initial_batch ready_chain)
    as (H1 & H2 & _).
  - exact tidy_initial.
  - reflexivity.
  - repeat constructor.
  - vm_compute. reflexivity.
  - vm_compute. split; discriminate.
  - cbv zeta in *. rewrite H2, H1. split; reflexivity.
Defined.

(** ** The transport on an arbitrary bus *)

Lemma rx_stores_snoc ts t rxs acc :
  rx_stores (ts ++ [t]) rxs acc
  = rx_stores [t] [nth (length ts) rxs []] (rx_stores ts rxs acc).
Proof.
  revert rxs acc. induction ts as [|t0 ts IH]; intros rxs acc.
  - destruct rxs; reflexivity.
  - cbn [app rx_stores length]. rewrite IH. destruct rxs; [|reflexivity].
    cbn [tl]. destruct (length ts); reflexivity.
Qed.

Lemma decode_response_split a r count rx pre payload c :
  fit (Z.to_nat (4 + count)) rx = pre ++ payload ++ [c] ->
  length pre = 3%nat -> length payload = Z.to_nat count -> 0 <= count ->
  decode_response a r count rx
  = if crc8_spec (read_request a r count ++ payload) =? c
    then be_value payload else - EFAULT.
Proof.
  intros Hfit Hpre Hpay Hc. unfold decode_response. rewrite Hfit.
  rewrite drop_app_length' by (symmetry; exact Hpre).
  rewrite take_app_length' by (symmetry; exact Hpay).
  replace (Z.to_nat (3 + count)) with (length pre + (length payload + 0))%nat by lia.
  rewrite !app_nth2_plus. reflexivity.
Qed.

Lemma drop_last_nth (l : list Z) n :
  length l = S n -> drop n l = [nth n l 0].
Proof.
  revert l. induction n as [|n IH]; intros l Hl.
  - destruct l as [|x [|? ?]]; try discriminate. reflexivity.
  - destruct l as [|x l]; [discriminate|]. cbn [drop nth]. apply IH.
    simpl in Hl. lia.
Qed.

Lemma fit_split count rx :
  0 <= count ->
  let resp := fit (Z.to_nat (4 + count)) rx in
  resp = take 3 resp ++ take (Z.to_nat count) (drop 3 resp)
         ++ [nth (Z.to_nat (3 + count)) resp 0]
  /\ length (take 3 resp) = 3%nat
  /\ length (take (Z.to_nat count) (drop 3 resp)) = Z.to_nat count.
Proof.
  intros Hc resp.
  assert (Hlen : length resp = Z.to_nat (4 + count)) by apply length_fit.
  split; [|split].
  - rewrite <- (take_drop 3 resp) at 1. f_equal.
    rewrite <- (take_drop (Z.to_nat count) (drop 3 resp)) at 1. f_equal.
    rewrite drop_drop.
    replace (3 + Z.to_nat count)%nat with (Z.to_nat (3 + count)) by lia.
    apply drop_last_nth. lia.
  - rewrite length_take. lia.
  - rewrite length_take, length_drop. lia.
Qed.

Section Anybus.

Context {B : Type}.
Variable hw : B -> list wire_xfer -> B * Z * list (list Z).

(** [spi_sync] on a tidy batch, whatever the bus answers: the received
    bytes are stored inside [rx_buff] and nothing else changes. *)
Lemma spi_sync_tidy s b :
  tidy s ->
  exists s2,
    spi_sync hw s b = (snd (fst (hw b (wire s))), s2, fst (fst (hw b (wire s))))
    /\ tidy s2 /\ queued s2 = queued s /\ wire s2 = wire s
    /\ tx_buff s2 = tx_buff s
    /\ xfer_index s2 = xfer_index s /\ byte_index s2 = byte_index s
    /\ overrun s2 = overrun s.
Proof.
  intros Htidy. pose proof Htidy as [Hx Ht Hr Hi Hb Hm Hs].
  unfold SPI_BUFF_SIZE in Hr, Hb.
  unfold spi_sync. destruct (hw b (wire s)) as [[b' status] rxs]. cbn [fst snd].
  destruct (rx_stores_safe (queued s) rxs (rx_buff s) (overrun s) (byte_index s) Hs)
    as [L1 L2]; [rewrite Hr; lia|].
  destruct (rx_stores (queued s) rxs (rx_buff s, overrun s)) as [buf ov].
  cbn [fst snd] in L1, L2. subst ov.
  eexists. split; [reflexivity|].
  cbn [xfer msg tx_buff rx_buff xfer_index byte_index overrun].
  split; [|repeat split].
  eapply tidy_ext; [exact Htidy|..]; cbn; try reflexivity. exact L1.
Qed.

Lemma spi_sync_last_any s b ts t p :
  tidy s -> queued s = ts ++ [t] -> rx_buf t = Some p ->
  exists s2,
    spi_sync hw s b = (snd (fst (hw b (wire s))), s2, fst (fst (hw b (wire s))))
    /\ tidy s2 /\ queued s2 = queued s /\ wire s2 = wire s
    /\ tx_buff s2 = tx_buff s
    /\ xfer_index s2 = xfer_index s /\ byte_index s2 = byte_index s
    /\ overrun s2 = overrun s
    /\ load_bytes (rx_buff s2) p (Z.to_nat (len t))
       = fit (Z.to_nat (len t)) (nth (length ts) (snd (hw b (wire s))) []).
Proof.
  intros Htidy Hq Hrx.
  pose proof Htidy as [Hx Ht Hr Hi Hb Hm Hs].
  unfold SPI_BUFF_SIZE in Hr, Hb.
  unfold spi_sync. destruct (hw b (wire s)) as [[b' status] rxs]. cbn [fst snd].
  rewrite Hq, rx_stores_snoc.
  rewrite Hq in Hs. apply Forall_app in Hs as [Hs0 Hs1].
  apply Forall_cons in Hs1 as [(p' & H1 & H2 & H3 & H4 & H5) _].
  assert (p' = p) as -> by (destruct H5 as [H5|H5]; congruence).
  destruct (rx_stores_safe ts rxs (rx_buff s) (overrun s) (byte_index s) Hs0)
    as [L1 L2]; [rewrite Hr; lia|].
  destruct (rx_stores ts rxs (rx_buff s, overrun s)) as [buf ov].
  cbn [fst snd] in L1, L2. subst ov.
  cbn [rx_stores]. rewrite Hrx. cbn [fst snd hd tl].
  assert (Hov : (0 <? len t)
                && negb (in_bounds buf p && in_bounds buf (p + len t - 1)) = false).
  { destruct (0 <? len t) eqn:Hl; [|reflexivity]. apply Z.ltb_lt in Hl.
    assert (E1 : in_bounds buf p = true)
      by (apply in_bounds_true; rewrite L1, Hr; lia).
    assert (E2 : in_bounds buf (p + len t - 1) = true)
      by (apply in_bounds_true; rewrite L1, Hr; lia).
    rewrite E1, E2. reflexivity. }
  rewrite Hov, orb_false_r.
  eexists. split; [reflexivity|].
  cbn [xfer msg tx_buff rx_buff xfer_index byte_index overrun].
  split; [|split; [|split; [|repeat split]]].
  - eapply tidy_ext; [exact Htidy|..]; cbn; try reflexivity.
    rewrite length_store_bytes. exact L1.
  - rewrite <- Hq. reflexivity.
  - reflexivity.
  - set (rx := nth (length ts) rxs []).
    pose proof (length_fit (Z.to_nat (len t)) rx) as Lf.
    set (data := fit (Z.to_nat (len t)) rx) in *. rewrite <- Lf.
    apply load_bytes_store_bytes; [lia|].
    rewrite Lf, L1, Hr. lia.
Qed.

(** [readRegister] on a batch with room, whatever the bus answers. *)
Lemma readRegister_run a r count s b :
  tidy s -> xfer_index s < MAX_XFER - 1 -> count = 1 \/ count = 2 ->
  byte_index s + 4 + count <= SPI_BUFF_SIZE ->
  let out := hw b (wire s ++ [read_frame a r count s]) in
  exists s2,
    readRegister hw a r count s b
    = (if snd (fst out) =? 0
       then decode_response a r count (nth (length (wire s)) (snd out) [])
       else snd (fst out), s2, fst (fst out))
    /\ tidy s2
    /\ wire s2 = wire s ++ [read_frame a r count s]
    /\ xfer_index s2 = xfer_index s + 1
    /\ byte_index s2 = byte_index s + 4 + count
    /\ overrun s2 = overrun s.
Proof.
  intros Htidy Hroom Hc Hbytes out.
  destruct (queue_read_tidy a r count s Htidy Hroom Hc Hbytes)
    as (T1 & Q1 & W1 & L1 & X1 & B1 & O1 & R1).
  fold (read_frame a r count s) in W1.
  destruct (spi_sync_last_any _ b _ _ (byte_index s) T1 Q1 eq_refl)
    as (s2 & Hsync & T2 & Q2 & W2 & TX2 & X2 & B2 & O2 & L2).
  rewrite W1 in Hsync, L2. fold out in Hsync, L2.
  cbn [len] in L2.
  assert (Hlq : length (queued s) = length (wire s))
    by (unfold wire; symmetry; apply length_map).
  rewrite Hlq in L2.
  set (rx := nth (length (wire s)) (snd out) []) in *.
  unfold readRegister.
  assert (E : negb (count =? 1) && negb (count =? 2) = false)
    by (destruct Hc; subst; reflexivity).
  rewrite E.
  destruct (MAX_XFER <=? xfer_index s + 1) eqn:Hfull;
    [apply Z.leb_le in Hfull; lia|].
  rewrite Hsync.
  exists s2.
  split; [|split; [exact T2|split; [congruence|split; [congruence|split; congruence]]]].
  destruct (snd (fst out) =? 0) eqn:Hst; cbn [negb]; [|reflexivity].
  f_equal. f_equal.
  assert (Hc0 : 0 <= count) by (destruct Hc; lia).
  destruct (fit_split count rx Hc0) as (Hsplit & Hpre & Hpay).
  set (resp := fit (Z.to_nat (4 + count)) rx) in *.
  set (pre := take 3 resp) in *.
  set (payload := take (Z.to_nat count) (drop 3 resp)) in *.
  set (c := nth (Z.to_nat (3 + count)) resp 0) in *.
  rewrite (decode_response_split a r count rx pre payload c Hsplit Hpre Hpay Hc0).
  fold resp in L2. rewrite Hsplit in L2.
  unfold check_read, check_read_as. rewrite TX2, L1.
  pose proof (fit_is_byte (Z.to_nat (4 + count)) rx) as Hfb. fold resp in Hfb.
  rewrite Hsplit in Hfb.
  apply Forall_app in Hfb as [_ Hfb]. apply Forall_app in Hfb as [Hpb Hcb].
  apply Forall_cons in Hcb as [Hcb _].
  replace (Z.to_nat (4 + count)) with (3 + (Z.to_nat count + 1))%nat in L2 by lia.
  rewrite load_bytes_app in L2.
  apply app_inj_1 in L2 as [_ L2]; [|rewrite length_load_bytes; lia].
  rewrite load_bytes_app in L2.
  apply app_inj_1 in L2 as [L2 L3]; [|rewrite length_load_bytes; lia].
  change (Z.of_nat 3) with 3 in *. rewrite L2.
  cbn [load_bytes] in L3. injection L3 as L3.
  replace (byte_index s + count + 3) with (byte_index s + 3 + Z.of_nat (Z.to_nat count))
    by lia.
  rewrite L3. unfold char_of_byte, plain_char_signed.
  rewrite <- crc8_app, crc8_is_spec.
  destruct (crc8_spec (read_request a r count ++ payload) =? c); cbn [negb];
    [|reflexivity].
  clearbody payload c pre. clear Hsplit.
  destruct Hc as [-> | ->].
  - destruct payload as [|x [|? ?]]; try discriminate. cbn [load_bytes] in L2.
    injection L2 as L2. rewrite L2. reflexivity.
  - destruct payload as [|x [|y [|? ?]]]; try discriminate. cbn [load_bytes] in L2.
    injection L2 as L2 L2'. rewrite L2, L2'. cbn.
    apply Forall_cons in Hpb as [Hxb Hyb]. apply Forall_cons in Hyb as [Hyb _].
    apply lor_shift_bytes; assumption.
Qed.

End Anybus.

(** ** Room in the batch *)

Lemma within_mono k m k' m' o s :
  within k m o s -> k <= k' -> m <= m' -> within k' m' o s.
Proof.
  intros (T & X & Y & O) Hk Hm.
  split; [exact T|split; [lia|split; [lia|exact O]]].
Qed.

Lemma within_prepare s :
  length (xfer s) = Z.to_nat MAX_XFER ->
  length (tx_buff s) = Z.to_nat SPI_BUFF_SIZE ->
  within (-1) 0 (overrun s) (bq_prepare_spi_message s).
Proof.
  intros Hx Ht. split; [apply tidy_prepare; assumption|]. cbn.
  split; [lia|split; [lia|reflexivity]].
Qed.

Lemma within_prepare_within k m o s :
  within k m o s -> within (-1) 0 o (bq_prepare_spi_message s).
Proof.
  intros (T & X & Y & O). split; [apply tidy_prepare_tidy; exact T|].
  cbn. split; [lia|split; [lia|exact O]].
Qed.

Lemma within_write a r d k m o s :
  within k m o s -> k < MAX_XFER - 1 -> m + 4 <= SPI_BUFF_SIZE ->
  fst (writeRegister a r d s) = 0
  /\ within (k + 1) (m + 4) o (snd (writeRegister a r d s)).
Proof.
  intros (T & X & Y & O) Hk Hm.
  destruct (writeRegister_tidy a r d s T) as (s' & E & T' & _ & X' & Y' & O' & _);
    [lia|lia|].
  rewrite E. cbn [fst snd]. split; [reflexivity|].
  split; [exact T'|split; [lia|split; [lia|congruence]]].
Qed.

Section Room.

Context {B : Type}.
Variable hw : B -> list wire_xfer -> B * Z * list (list Z).

Lemma within_read a r count k m o s b :
  within k m o s -> k < MAX_XFER - 1 -> count = 1 \/ count = 2 ->
  m + 4 + count <= SPI_BUFF_SIZE ->
  within (k + 1) (m + 4 + count) o (snd (fst (readRegister hw a r count s b))).
Proof.
  intros (T & X & Y & O) Hk Hc Hm.
  destruct (readRegister_run hw a r count s b T) as (s2 & E & T2 & _ & X2 & Y2 & O2);
    [lia|exact Hc|lia|].
  rewrite E. cbn [fst snd]. split; [exact T2|split; [lia|split; [lia|congruence]]].
Qed.

Lemma within_sync k m o s b :
  within k m o s -> within k m o (snd (fst (spi_sync hw s b))).
Proof.
  intros (T & X & Y & O).
  destruct (spi_sync_tidy hw s b T) as (s2 & E & T2 & _ & _ & _ & X2 & Y2 & O2).
  rewrite E. cbn [fst snd]. split; [exact T2|split; [lia|split; [lia|congruence]]].
Qed.

End Room.

(** Steps through the calls of an operation, keeping track of the room
    left in the batch. *)
Ltac room_step :=
  match goal with
  | H : within ?k ?m ?o ?s |- context [readRegister ?hw ?a ?r ?c ?s ?b] =>
      let H' := fresh "W" in
      pose proof (within_read hw a r c k m o s b H) as H';
      destruct (readRegister hw a r c s b) as [[? ?] ?];
      cbn [fst snd] in H';
      specialize (H' ltac:(unfold MAX_XFER; lia) ltac:(auto)
                     ltac:(unfold SPI_BUFF_SIZE; lia));
      clear H
  | H : within ?k ?m ?o ?s |- context [writeRegister ?a ?r ?d ?s] =>
      let H' := fresh "W" in
      pose proof (within_write a r d k m o s H) as H';
      destruct (writeRegister a r d s) as [? ?];
      cbn [fst snd] in H';
      specialize (H' ltac:(unfold MAX_XFER; lia) ltac:(unfold SPI_BUFF_SIZE; lia));
      destruct H' as [_ H'];
      clear H
  end.

Section AttachRoom.

Context {B : Type}.
Variable hw : B -> list wire_xfer -> B * Z * list (list Z).

Lemma cov_within a k m o s b :
  within k m o s -> k + 2 <= MAX_XFER - 1 -> m + 10 <= SPI_BUFF_SIZE ->
  within (k + 2) (m + 10) o (fst (cov hw a s b)).
Proof.
  intros W Hk Hm. unfold MAX_XFER, SPI_BUFF_SIZE in *. unfold cov.
  do 2 room_step. cbn [fst].
  eapply within_mono; [eassumption|lia|lia].
Qed.

Lemma get_fault_within a k m o s b :
  within k m o s -> k + 5 <= MAX_XFER - 1 -> m + 23 <= SPI_BUFF_SIZE ->
  within (k + 5) (m + 23) o (fst (get_fault hw a s b)).
Proof.
  intros W Hk Hm. unfold MAX_XFER, SPI_BUFF_SIZE in *. unfold get_fault.
  do 3 room_step.
  match goal with |- context [if ?c then _ else _] => destruct c end.
  - eapply within_mono; [apply cov_within; [eassumption|..]|..];
      unfold MAX_XFER, SPI_BUFF_SIZE; lia.
  - cbn [fst]. eapply within_mono; [eassumption|lia|lia].
Qed.

Lemma get_alert_within a k m o s b :
  within k m o s -> k + 4 <= MAX_XFER - 1 -> m + 18 <= SPI_BUFF_SIZE ->
  within (k + 4) (m + 18) o (fst (get_alert hw a s b)).
Proof.
  intros W Hk Hm. unfold MAX_XFER, SPI_BUFF_SIZE in *. unfold get_alert.
  do 3 room_step.
  match goal with |- context [if ?c then _ else _] => destruct c end.
  - room_step. cbn [fst]. eapply within_mono; [eassumption|lia|lia].
  - cbn [fst]. eapply within_mono; [eassumption|lia|lia].
Qed.

Lemma get_chip_status_within a s b :
  length (xfer s) = Z.to_nat MAX_XFER ->
  length (tx_buff s) = Z.to_nat SPI_BUFF_SIZE ->
  within (MAX_XFER - 1) 46 (overrun s) (snd (fst (get_chip_status hw a s b))).
Proof.
  intros Hx Ht. pose proof (within_prepare s Hx Ht) as W.
  unfold get_chip_status. room_step.
  match goal with |- context [if ?c <? 0 then _ else _] => destruct (c <? 0) end.
  - cbn [fst snd]. eapply within_mono; [eassumption|unfold MAX_XFER; lia|lia].
  - match goal with |- context [if negb ?c then get_fault _ _ _ _ else _] =>
      destruct c end; cbn [negb].
    + match goal with W : within _ _ _ ?s1 |- context [if negb ?c then get_alert _ _ _ _ else _] =>
        destruct c end; cbn [negb fst snd].
      * eapply within_mono; [eassumption|unfold MAX_XFER; lia|lia].
      * match goal with W : within _ _ _ ?s1 |- context [get_alert hw ?a0 ?s1 ?b1] =>
          pose proof (get_alert_within a0 _ _ _ s1 b1 W) as W2;
          destruct (get_alert hw a0 s1 b1) as [? ?] end.
        cbn [fst snd] in *.
        eapply within_mono; [apply W2|..]; unfold MAX_XFER, SPI_BUFF_SIZE; lia.
    + match goal with W : within _ _ _ ?s1 |- context [get_fault hw ?a0 ?s1 ?b1] =>
        pose proof (get_fault_within a0 _ _ _ s1 b1 W) as W2;
        destruct (get_fault hw a0 s1 b1) as [sf bf] end.
      cbn [fst snd] in W2.
      specialize (W2 ltac:(unfold MAX_XFER; lia) ltac:(unfold SPI_BUFF_SIZE; lia)).
      match goal with |- context [if negb ?c then get_alert _ _ _ _ else _] =>
        destruct c end; cbn [negb fst snd].
      * eapply within_mono; [eassumption|unfold MAX_XFER; lia|lia].
      * pose proof (get_alert_within a _ _ _ sf bf W2) as W3.
        destruct (get_alert hw a sf bf) as [? ?]. cbn [fst snd] in *.
        eapply within_mono; [apply W3|..]; unfold MAX_XFER, SPI_BUFF_SIZE; lia.
Qed.

End AttachRoom.

(** ** Default settings *)

Section Defaults.

Context {B : Type}.
Variable hw : B -> list wire_xfer -> B * Z * list (list Z).
Variable CONFIG_CUV : Z.

Local Abbreviation frames :=
  (map (fun rd => {| wx_tx := write_frame BROADCAST (fst rd) (snd rd);
                     wx_rx := false |}) (default_settings CONFIG_CUV)).

Lemma write_defaults_run s b :
  length (xfer s) = Z.to_nat MAX_XFER ->
  length (tx_buff s) = Z.to_nat SPI_BUFF_SIZE ->
  exists s',
    write_defaults hw CONFIG_CUV s b
    = (snd (fst (hw b frames)), s', fst (fst (hw b frames)))
    /\ tidy s' /\ wire s' = frames
    /\ xfer_index s' = MAX_XFER - 1 /\ byte_index s' = 40
    /\ overrun s' = overrun s.
Proof.
  intros Hx Ht. unfold write_defaults.
  pose proof (tidy_prepare s Hx Ht) as T.
  set (s0 := bq_prepare_spi_message s) in *.
  assert (X : xfer_index s0 = -1) by reflexivity.
  assert (Y : byte_index s0 = 0) by reflexivity.
  assert (O : overrun s0 = overrun s) by reflexivity.
  assert (W : wire s0 = []) by reflexivity.
  clearbody s0.
  repeat match goal with
  | T : tidy ?s1, X : xfer_index ?s1 = _, Y : byte_index ?s1 = _,
    O : overrun ?s1 = _, W : wire ?s1 = _
    |- context [writeRegister ?a ?r ?d ?s1] =>
      let s' := fresh "s" in
      let E := fresh "E" in
      let T' := fresh "T" in let W' := fresh "W" in
      let X' := fresh "X" in let Y' := fresh "Y" in let O' := fresh "O" in
      destruct (writeRegister_tidy a r d s1 T)
        as (s' & E & T' & W' & X' & Y' & O' & _);
      [unfold MAX_XFER; lia|unfold SPI_BUFF_SIZE; lia|];
      rewrite E; rewrite W in W'; rewrite X in X'; rewrite Y in Y'; rewrite O in O';
      clear E T X Y O W; cbn [app] in W'
  end.
  match goal with T : tidy ?s1 |- _ =>
    destruct (spi_sync_tidy hw s1 b T) as (s' & E & T' & _ & W' & _ & X' & Y' & O') end.
  rewrite E. 
  match goal with W : wire _ = _ |- _ => rewrite W in E, W'; rewrite W end.
  exists s'. split; [reflexivity|].
  split; [exact T'|]. split; [exact W'|].
  unfold MAX_XFER. split; [lia|]. split; [lia|]. congruence.
Qed.

End Defaults.

(** ** A bus that records *)

Section Recording.

Context {B : Type}.
Variable hw : B -> list wire_xfer -> B * Z * list (list Z).

Lemma spi_sync_recording s b log :
  spi_sync (recording hw) s (b, log)
  = (fst (fst (spi_sync hw s b)), snd (fst (spi_sync hw s b)),
     (snd (spi_sync hw s b), log ++ [wire s])).
Proof.
  unfold spi_sync, recording. cbn [fst snd].
  destruct (hw b (wire s)) as [[b' status] rxs].
  destruct (rx_stores _ _ _) as [rx ov]. reflexivity.
Qed.

Lemma readRegister_recording a r count s b log :
  tidy s -> xfer_index s < MAX_XFER - 1 -> count = 1 \/ count = 2 ->
  byte_index s + 4 + count <= SPI_BUFF_SIZE ->
  readRegister (recording hw) a r count s (b, log)
  = (fst (fst (readRegister hw a r count s b)),
     snd (fst (readRegister hw a r count s b)),
     (snd (readRegister hw a r count s b),
      log ++ [wire s ++ [read_frame a r count s]])).
Proof.
  intros T Hx Hc Hb.
  destruct (queue_read_tidy a r count s T Hx Hc Hb) as (_ & _ & W1 & _).
  fold (read_frame a r count s) in W1.
  unfold readRegister.
  assert (E : negb (count =? 1) && negb (count =? 2) = false)
    by (destruct Hc; subst; reflexivity).
  rewrite E.
  destruct (MAX_XFER <=? xfer_index s + 1) eqn:Hfull;
    [apply Z.leb_le in Hfull; lia|].
  rewrite spi_sync_recording, W1.
  destruct (spi_sync hw (queue_read (u8 a) (u8 r) count s) b) as [[status s2] b'].
  cbn [fst snd]. destruct (negb (status =? 0)); reflexivity.
Qed.

End Recording.

(** ** Status, fault and alert reports *)

Lemma u8_u8 x : u8 (u8 x) = u8 x.
Proof. unfold u8. apply Z.mod_mod. lia. Qed.

Lemma writeRegister_u8 a r d s : writeRegister (u8 a) r d s = writeRegister a r d s.
Proof. unfold writeRegister. rewrite u8_u8. reflexivity. Qed.

Lemma readRegister_u8 {B : Type} (hw : B -> list wire_xfer -> B * Z * list (list Z))
    a r count s (b : B) :
  readRegister hw (u8 a) r count s b = readRegister hw a r count s b.
Proof. unfold readRegister. rewrite u8_u8. reflexivity. Qed.

Lemma read_frame_u8 a r count s : read_frame (u8 a) r count s = read_frame a r count s.
Proof. unfold read_frame, read_request. rewrite u8_u8. reflexivity. Qed.

Lemma write_frame_u8 a r d : write_frame (u8 a) r d = write_frame a r d.
Proof. unfold write_frame. rewrite u8_u8. reflexivity. Qed.

(** ** Discovery on an arbitrary bus *)

Section AnyDiscovery.

Context {B : Type}.
Variable hw : B -> list wire_xfer -> B * Z * list (list Z).

Lemma probe_within n o s b :
  within 0 4 o s ->
  within 2 13 o (snd (fst (probe hw n s b))).
Proof.
  intros W. unfold probe.
  destruct (within_write DISCOVERY_ADDR ADDRESS_CONTROL n 0 4 o s W) as [_ W1];
    [unfold MAX_XFER; lia|unfold SPI_BUFF_SIZE; lia|].
  eapply within_mono;
    [apply (within_read hw n ADDRESS_CONTROL 1 _ _ o _ b W1);
     [unfold MAX_XFER; lia|left; reflexivity|unfold SPI_BUFF_SIZE; lia]|lia|lia].
Qed.

Lemma search_inner_total k look_for n0 fuel s b o :
  within 0 4 o s -> 0 <= n0 -> n0 + Z.of_nat k = Z.max 1 look_for ->
  look_for <= 255 -> (1 <= k <= fuel)%nat ->
  exists e s' b',
    search_inner hw fuel look_for n0 s b = Some (e, s', b')
    /\ tidy s' /\ overrun s' = o
    /\ match e with
       | Returned v => 0 <= v < Z.max 1 look_for
       | Completed n => n = Z.max 1 look_for /\ within (-1) 0 o s'
       end.
Proof.
  revert n0 fuel s b.
  induction k as [|k IH]; intros n0 fuel s b W Hn0 Hk Hl Hfuel; [lia|].
  destruct fuel as [|fuel]; [lia|].
  rewrite search_inner_step by (destruct W as (_ & X & _); unfold MAX_XFER; lia).
  cbv zeta.
  assert (Hn : u8 (n0 + 1) = n0 + 1) by (apply u8_id; unfold is_byte; lia).
  rewrite Hn.
  assert (Hr : u8 (n0 + 1 - 1) = n0)
    by (replace (n0 + 1 - 1) with n0 by lia; apply u8_id; unfold is_byte; lia).
  rewrite Hr.
  pose proof (probe_within (n0 + 1) o s b W) as W2.
  destruct (probe hw (n0 + 1) s b) as [[verify s2] b2]. cbn [fst snd] in *.
  destruct W2 as (T2 & _ & _ & O2).
  destruct (verify <? 0);
    [exists (Returned n0), s2, b2; split; [reflexivity|];
     split; [exact T2|split; [exact O2|lia]]|].
  destruct (negb (verify =? Z.lor (n0 + 1) AC_ADDR_RQST));
    [exists (Returned n0), s2, b2; split; [reflexivity|];
     split; [exact T2|split; [exact O2|lia]]|].
  assert (W3 : within (-1) 0 o (bq_prepare_spi_message s2)).
  { split; [apply tidy_prepare_tidy; exact T2|]. cbn.
    split; [lia|split; [lia|exact O2]]. }
  destruct (n0 + 1 <? look_for) eqn:Hlt.
  - apply Z.ltb_lt in Hlt.
    apply (IH (n0 + 1)); try lia.
    eapply within_mono; [exact W3|lia|lia].
  - apply Z.ltb_ge in Hlt.
    exists (Completed (n0 + 1)), (bq_prepare_spi_message s2), b2.
    split; [reflexivity|].
    destruct W3 as (T3 & X3 & Y3 & O3).
    split; [exact T3|]. split; [exact O3|].
    split; [lia|]. split; [exact T3|split; [exact X3|split; [exact Y3|exact O3]]].
Qed.

Lemma search_outer_total m used l0 fuel s b o :
  within (-1) 0 o s -> 0 <= l0 -> l0 + Z.of_nat m = Z.max 1 used ->
  used <= 255 -> (1 <= m)%nat ->
  (Z.to_nat (Z.max 1 used) + m + 1 <= fuel)%nat ->
  exists v s' b',
    search_outer hw fuel used l0 s b = Some (v, s', b')
    /\ tidy s' /\ overrun s' = o /\ 0 <= v <= Z.max 1 used.
Proof.
  revert l0 fuel s b.
  induction m as [|m IH]; intros l0 fuel s b W Hl0 Hm Hu H1 Hfuel; [lia|].
  destruct fuel as [|fuel]; [lia|].
  rewrite search_outer_step by (destruct W as (_ & X & _); unfold MAX_XFER; lia).
  assert (Hl : u8 (l0 + 1) = l0 + 1) by (apply u8_id; unfold is_byte; lia).
  rewrite Hl.
  destruct (within_write BROADCAST RESET RESET_COMMAND (-1) 0 o s W) as [_ W1];
    [unfold MAX_XFER; lia|unfold SPI_BUFF_SIZE; lia|].
  destruct (search_inner_total (Z.to_nat (l0 + 1)) (l0 + 1) 0 (S fuel)
              (snd (writeRegister BROADCAST RESET RESET_COMMAND s)) b o)
    as (e & s' & b' & E & T' & O' & He); try lia.
  { eapply within_mono; [exact W1|lia|lia]. }
  rewrite E. destruct e as [v|n].
  - exists v, s', b'. split; [reflexivity|]. split; [exact T'|]. split; [exact O'|]. lia.
  - destruct He as [Hn W']. subst n.
    replace (Z.max 1 (l0 + 1)) with (l0 + 1) by lia.
    destruct (l0 + 1 <? used) eqn:Hlt.
    + apply Z.ltb_lt in Hlt. apply IH; try lia. exact W'.
    + apply Z.ltb_ge in Hlt. exists (l0 + 1), s', b'.
      split; [reflexivity|]. split; [exact T'|]. split; [exact O'|]. lia.
Qed.

End AnyDiscovery.

(** ** Telemetry on an arbitrary bus *)

Section AnyTelemetry.

Context {B : Type}.
Variable hw : B -> list wire_xfer -> B * Z * list (list Z).

Lemma wait_ready_within fuel tries s b o k m ok s' b' :
  within k m o s ->
  wait_ready hw fuel tries s b = Some (ok, s', b') ->
  within 0 5 o s'.
Proof.
  revert tries s b k m. induction fuel as [|fuel IH]; intros tries s b k m W E;
    [discriminate|].
  cbn [wait_ready] in E.
  pose proof (within_prepare_within _ _ _ _ W) as W0.
  pose proof (within_read hw 1 DEVICE_STATUS 1 _ _ _ _ b W0) as W1.
  destruct (readRegister hw 1 DEVICE_STATUS 1 (bq_prepare_spi_message s) b)
    as [[temp s1] b1].
  cbn [fst snd] in W1.
  specialize (W1 ltac:(unfold MAX_XFER; lia) ltac:(left; reflexivity)
                 ltac:(unfold SPI_BUFF_SIZE; lia)).
  destruct (5 <? tries); [injection E as <- <- <-; exact W1|].
  destruct (Z.land temp DRDY =? 0).
  - eapply IH; [exact W1|exact E].
  - injection E as <- <- <-. exact W1.
Qed.

Lemma emit_voltage_within pk p s b i k m o :
  within k m o s ->
  within 0 6 o (snd (fst (emit_voltage hw pk (p, s, b) i))).
Proof.
  intros W. rewrite emit_voltage_appends. cbv zeta. cbn [fst snd].
  apply (within_read hw _ _ 2 (-1) 0);
    [eapply within_prepare_within; exact W|unfold MAX_XFER; lia|right; reflexivity
    |unfold SPI_BUFF_SIZE; lia].
Qed.

Lemma emit_voltages_within pk l p s b k m o :
  within k m o s ->
  within (Z.max k 0) (Z.max m 6) o
    (snd (fst (fold_left (emit_voltage hw pk) l (p, s, b)))).
Proof.
  revert p s b k m. induction l as [|i l IH]; intros p s b k m W.
  - cbn. eapply within_mono; [exact W|lia|lia].
  - cbn [fold_left].
    pose proof (emit_voltage_within pk p s b i k m o W) as W1.
    destruct (emit_voltage hw pk (p, s, b) i) as [[p1 s1] b1]. cbn [fst snd] in W1.
    eapply within_mono; [apply (IH p1 s1 b1 _ _ W1)|lia|lia].
Qed.

Lemma emit_device_within pk p s b i k m o :
  within k m o s ->
  within 4 25 o (snd (fst (emit_device hw pk (p, s, b) i))).
Proof.
  intros W. unfold emit_device.
  pose proof (within_prepare_within _ _ _ _ W) as W0. clear W.
  room_step.
  match goal with W : within _ _ _ ?s1 |- _ =>
    pose proof (within_prepare_within _ _ _ _ W) as W1; clear W end.
  room_step.
  match goal with W : within _ _ _ ?s1 |- _ =>
    pose proof (within_prepare_within _ _ _ _ W) as W2; clear W end.
  do 5 room_step. cbn [fst snd].
  eapply within_mono; [eassumption|lia|lia].
Qed.

Lemma emit_devices_within pk l p s b k m o :
  within k m o s ->
  within (Z.max k 4) (Z.max m 25) o
    (snd (fst (fold_left (emit_device hw pk) l (p, s, b)))).
Proof.
  revert p s b k m. induction l as [|i l IH]; intros p s b k m W.
  - cbn. eapply within_mono; [exact W|lia|lia].
  - cbn [fold_left].
    pose proof (emit_device_within pk p s b i k m o W) as W1.
    destruct (emit_device hw pk (p, s, b) i) as [[p1 s1] b1]. cbn [fst snd] in W1.
    eapply within_mono; [apply (IH p1 s1 b1 _ _ W1)|lia|lia].
Qed.

(** What [get_voltages] returns, and the state of the batch afterwards. *)
Lemma get_voltages_outcome fuel pk s b n p s' b' :
  length (xfer s) = Z.to_nat MAX_XFER ->
  length (tx_buff s) = Z.to_nat SPI_BUFF_SIZE ->
  get_voltages hw fuel pk s b = Some (n, p, s', b') ->
  tidy s' /\ overrun s' = overrun s
  /\ (n = 0 /\ p = []
      \/ n = 3 + Z.max 0 (total_cell_count pk) + 8 * Z.max 0 (devices_used pk)
         /\ Z.of_nat (length p) = n).
Proof.
  intros Hx Ht Hget. unfold get_voltages in Hget.
  pose proof (within_prepare s Hx Ht) as W0.
  destruct (within_write BROADCAST ADC_CONVERT AC_CONV _ _ _ _ W0) as [_ W1];
    [unfold MAX_XFER; lia|unfold SPI_BUFF_SIZE; lia|].
  destruct (writeRegister BROADCAST ADC_CONVERT AC_CONV (bq_prepare_spi_message s))
    as [w s1]. cbn [snd] in W1.
  pose proof (within_sync hw _ _ _ s1 b W1) as W2.
  destruct (spi_sync hw s1 b) as [[status s2] b2]. cbn [fst snd] in W2.
  destruct (negb (status =? 0)).
  { injection Hget as <- <- <- <-. destruct W2 as (T & _ & _ & O). auto. }
  destruct (wait_ready hw fuel 0 s2 b2) as [[[ok s3] b3]|] eqn:Hw; [|discriminate].
  pose proof (wait_ready_within _ _ _ _ _ _ _ _ _ _ W2 Hw) as W3.
  destruct ok.
  2:{ injection Hget as <- <- <- <-. destruct W3 as (T & _ & _ & O). auto. }
  pose proof (emit_voltages_within pk (seqZ 0 (total_cell_count pk))
                [u8 (total_cell_count pk)] s3 b3 _ _ _ W3) as W4.
  destruct (emit_voltages_shape hw pk (seqZ 0 (total_cell_count pk))
              [u8 (total_cell_count pk)] s3 b3) as (vs & E1 & L1).
  destruct (fold_left (emit_voltage hw pk) _ _) as [[p1 s4] b4].
  cbn [fst snd] in E1, W4. subst p1.
  pose proof (emit_devices_within pk (seqZ 1 (devices_used pk))
                (([u8 (total_cell_count pk)] ++ vs) ++ [u8 (devices_used pk)])
                s4 b4 _ _ _ W4) as W5.
  destruct (emit_devices_shape hw pk (seqZ 1 (devices_used pk))
              (([u8 (total_cell_count pk)] ++ vs) ++ [u8 (devices_used pk)]) s4 b4)
    as (ds & E2 & L2).
  destruct (fold_left (emit_device hw pk) _ _) as [[p2 s5] b5].
  cbn [fst snd] in E2, W5. subst p2.
  rewrite length_seqZ in L1, L2.
  injection Hget as Hn Hp <- <-.
  destruct W5 as (T & _ & _ & O). split; [exact T|]. split; [exact O|]. right.
  rewrite <- Hp, <- Hn. rewrite !length_app. cbn [length]. rewrite !length_app.
  cbn [length]. rewrite L1, L2. lia.
Qed.

End AnyTelemetry.

(** ** Operations that leave the simulated chain alone *)

Lemma sim_write_other a r d ds :
  (a =? BROADCAST) && (r =? RESET) && (d =? RESET_COMMAND) = false ->
  (a =? DISCOVERY_ADDR) && (r =? ADDRESS_CONTROL) = false ->
  sim_write a r d ds = ds.
Proof. intros H1 H2. unfold sim_write. rewrite H1, H2. reflexivity. Qed.

Lemma sim_hw_run ds ws :
  sim_hw ds ws = (fst (sim_run ds ws), 0, snd (sim_run ds ws)).
Proof. unfold sim_hw. destruct (sim_run ds ws). reflexivity. Qed.

Lemma calm_prepare ds k m o s :
  within k m o s -> calm ds (-1) 0 o (bq_prepare_spi_message s).
Proof.
  intros W. split; [eapply within_prepare_within; exact W|reflexivity].
Qed.

Lemma calm_mono ds k m k' m' o s :
  calm ds k m o s -> k <= k' -> m <= m' -> calm ds k' m' o s.
Proof. intros [W S] Hk Hm. split; [eapply within_mono; eassumption|exact S]. Qed.

Lemma calm_write ds a r d k m o s :
  calm ds k m o s -> k < MAX_XFER - 1 -> m + 4 <= SPI_BUFF_SIZE ->
  0 <= a < 128 ->
  (a =? BROADCAST) && (u8 r =? RESET) && (u8 d =? RESET_COMMAND) = false ->
  (a =? DISCOVERY_ADDR) && (u8 r =? ADDRESS_CONTROL) = false ->
  calm ds (k + 1) (m + 4) o (snd (writeRegister a r d s)).
Proof.
  intros [W S] Hk Hm Ha H1 H2.
  destruct (within_write a r d k m o s W Hk Hm) as [_ W1].
  split; [exact W1|].
  destruct W as (T & X & Y & O).
  destruct (writeRegister_tidy a r d s T) as (s' & E & _ & Wr & _); [lia|lia|].
  rewrite E. cbn [snd]. unfold settled. rewrite Wr, sim_run_app. cbn [fst].
  rewrite S, sim_frame_write by exact Ha. cbn [fst].
  apply sim_write_other; assumption.
Qed.

Lemma calm_read ds a r count k m o s :
  calm ds k m o s -> k < MAX_XFER - 1 -> count = 1 \/ count = 2 ->
  m + 4 + count <= SPI_BUFF_SIZE -> 0 <= a < 128 -> is_byte r ->
  snd (readRegister sim_hw a r count s ds) = ds
  /\ calm ds (k + 1) (m + 4 + count) o (snd (fst (readRegister sim_hw a r count s ds))).
Proof.
  intros [W S] Hk Hc Hm Ha Hr.
  pose proof (within_read sim_hw a r count k m o s ds W Hk Hc Hm) as W1.
  destruct W as (T & X & Y & O).
  destruct (readRegister_sim a r count s ds T) as (s2 & v & E & _ & _ & _ & _ & Hs & _);
    try assumption; try lia.
  rewrite E in *. cbn [fst snd] in *. unfold settled in S. rewrite S in *.
  split; [reflexivity|]. split; [exact W1|]. unfold settled. congruence.
Qed.

Lemma calm_sync ds k m o s :
  calm ds k m o s ->
  fst (fst (spi_sync sim_hw s ds)) = 0
  /\ snd (spi_sync sim_hw s ds) = ds
  /\ calm ds k m o (snd (fst (spi_sync sim_hw s ds))).
Proof.
  intros [W S].
  pose proof (within_sync sim_hw k m o s ds W) as W1.
  destruct W as (T & X & Y & O).
  destruct (spi_sync_tidy sim_hw s ds T) as (s2 & E & _ & _ & Wr & _).
  rewrite E in *. cbn [fst snd] in *. rewrite sim_hw_run. cbn [fst snd].
  split; [reflexivity|]. split; [exact S|]. split; [exact W1|].
  unfold settled. rewrite Wr. exact S.
Qed.

(** Steps through the calls of an operation on the simulated chain. *)
Ltac calm_step :=
  match goal with
  | H : calm ?ds ?k ?m ?o ?s |- context [readRegister sim_hw ?a ?r ?c ?s ?ds] =>
      let H' := fresh "C" in
      pose proof (calm_read ds a r c k m o s H) as H';
      destruct (readRegister sim_hw a r c s ds) as [[? ?] ?];
      cbn [fst snd] in H';
      specialize (H' ltac:(unfold MAX_XFER; lia) ltac:(auto)
                     ltac:(unfold SPI_BUFF_SIZE; lia) ltac:(lia)
                     ltac:(unfold is_byte; vm_compute; split; congruence));
      destruct H' as [-> H'];
      clear H
  | H : calm ?ds ?k ?m ?o ?s |- context [writeRegister ?a ?r ?d ?s] =>
      let H' := fresh "C" in
      pose proof (calm_write ds a r d k m o s H) as H';
      destruct (writeRegister a r d s) as [? ?];
      cbn [fst snd] in H';
      specialize (H' ltac:(unfold MAX_XFER; lia) ltac:(unfold SPI_BUFF_SIZE; lia)
                     ltac:(lia));
      clear H
  end.

Lemma eqb_false_ne a b : a <> b -> (a =? b) = false.
Proof. apply Z.eqb_neq. Qed.

Lemma cov_sim ds a k m o s :
  calm ds k m o s -> k + 2 <= MAX_XFER - 1 -> m + 10 <= SPI_BUFF_SIZE ->
  0 <= a < 128 ->
  snd (cov sim_hw a s ds) = ds /\ calm ds (k + 2) (m + 10) o (fst (cov sim_hw a s ds)).
Proof.
  intros C Hk Hm Ha. unfold MAX_XFER, SPI_BUFF_SIZE in *. unfold cov.
  do 2 calm_step. cbn [fst snd]. split; [reflexivity|].
  eapply calm_mono; [eassumption|lia|lia].
Qed.

Lemma get_fault_sim ds a k m o s :
  calm ds k m o s -> k + 5 <= MAX_XFER - 1 -> m + 23 <= SPI_BUFF_SIZE ->
  1 <= a < 128 ->
  snd (get_fault sim_hw a s ds) = ds
  /\ calm ds (k + 5) (m + 23) o (fst (get_fault sim_hw a s ds)).
Proof.
  intros C Hk Hm Ha. unfold MAX_XFER, SPI_BUFF_SIZE in *. unfold get_fault.
  rewrite (u8_id a) by (unfold is_byte; lia).
  calm_step.
  assert (Hd : (a =? DISCOVERY_ADDR) = false)
    by (apply eqb_false_ne; unfold DISCOVERY_ADDR, DISCOVERY_ADDRESS; lia).
  calm_step.
  specialize (C ltac:(rewrite andb_false_r; reflexivity) ltac:(rewrite Hd; reflexivity)).
  calm_step.
  specialize (C0 ltac:(rewrite andb_false_r; reflexivity) ltac:(rewrite Hd; reflexivity)).
  match goal with |- context [if ?c then _ else _] => destruct c end.
  - destruct (cov_sim ds a _ _ _ _ C0) as [E Cc];
      try (unfold MAX_XFER, SPI_BUFF_SIZE; lia).
    split; [exact E|]. eapply calm_mono; [exact Cc|lia|lia].
  - cbn [fst snd]. split; [reflexivity|]. eapply calm_mono; [eassumption|lia|lia].
Qed.

Lemma get_alert_sim ds a k m o s :
  calm ds k m o s -> k + 4 <= MAX_XFER - 1 -> m + 18 <= SPI_BUFF_SIZE ->
  1 <= a < 128 ->
  snd (get_alert sim_hw a s ds) = ds
  /\ calm ds (k + 4) (m + 18) o (fst (get_alert sim_hw a s ds)).
Proof.
  intros C Hk Hm Ha. unfold MAX_XFER, SPI_BUFF_SIZE in *. unfold get_alert.
  calm_step.
  assert (Hd : (a =? DISCOVERY_ADDR) = false)
    by (apply eqb_false_ne; unfold DISCOVERY_ADDR, DISCOVERY_ADDRESS; lia).
  calm_step.
  specialize (C ltac:(rewrite andb_false_r; reflexivity) ltac:(rewrite Hd; reflexivity)).
  calm_step.
  specialize (C0 ltac:(rewrite andb_false_r; reflexivity) ltac:(rewrite Hd; reflexivity)).
  match goal with |- context [if ?c then _ else _] => destruct c end.
  - calm_step. cbn [fst snd]. split; [reflexivity|].
    eapply calm_mono; [eassumption|lia|lia].
  - cbn [fst snd]. split; [reflexivity|]. eapply calm_mono; [eassumption|lia|lia].
Qed.

Lemma get_chip_status_sim ds a s :
  length (xfer s) = Z.to_nat MAX_XFER ->
  length (tx_buff s) = Z.to_nat SPI_BUFF_SIZE ->
  1 <= a < 128 ->
  snd (get_chip_status sim_hw a s ds) = ds
  /\ within (MAX_XFER - 1) 46 (overrun s) (snd (fst (get_chip_status sim_hw a s ds))).
Proof.
  intros Hx Ht Ha.
  assert (C : calm ds (-1) 0 (overrun s) (bq_prepare_spi_message s))
    by (split; [apply within_prepare; assumption|reflexivity]).
  unfold get_chip_status.
  calm_step. rename C0 into C.
  match goal with |- context [if ?c <? 0 then _ else _] => destruct (c <? 0) end.
  { cbn [fst snd]. split; [reflexivity|]. destruct C as [W _].
    eapply within_mono; [exact W|unfold MAX_XFER; lia|lia]. }
  match goal with |- context [if negb ?c then get_fault _ _ _ _ else _] =>
    destruct c end; cbn [negb].
  - match goal with |- context [if negb ?c then get_alert _ _ _ _ else _] =>
      destruct c end; cbn [negb fst snd].
    + split; [reflexivity|]. destruct C as [W _].
      eapply within_mono; [exact W|unfold MAX_XFER; lia|lia].
    + destruct (get_alert_sim ds a _ _ _ _ C) as [E [W _]];
        try (unfold MAX_XFER, SPI_BUFF_SIZE; lia).
      destruct (get_alert sim_hw a _ ds) as [? ?]. cbn [fst snd] in *.
      split; [exact E|]. eapply within_mono; [exact W|unfold MAX_XFER; lia|lia].
  - destruct (get_fault_sim ds a _ _ _ _ C) as [E Cf];
      try (unfold MAX_XFER, SPI_BUFF_SIZE; lia).
    destruct (get_fault sim_hw a _ ds) as [sf bf]. cbn [fst snd] in *. subst bf.
    match goal with |- context [if negb ?c then get_alert _ _ _ _ else _] =>
      destruct c end; cbn [negb fst snd].
    + split; [reflexivity|]. destruct Cf as [W _].
      eapply within_mono; [exact W|unfold MAX_XFER; lia|lia].
    + destruct (get_alert_sim ds a _ _ _ _ Cf) as [E [W _]];
        try (unfold MAX_XFER, SPI_BUFF_SIZE; lia).
      destruct (get_alert sim_hw a sf ds) as [? ?]. cbn [fst snd] in *.
      split; [exact E|]. eapply within_mono; [exact W|unfold MAX_XFER; lia|lia].
Qed.

Lemma report_chips_sim ds chips s :
  tidy s -> Forall (fun i => 1 <= i < 128) chips ->
  exists s',
    fold_left (report_chip sim_hw) chips (s, ds) = (s', ds)
    /\ tidy s' /\ overrun s' = overrun s.
Proof.
  intros T Hchips. revert s T.
  induction Hchips as [|i chips Hi Hchips IH]; intros s T.
  - exists s. cbn. auto.
  - cbn [fold_left]. unfold report_chip at 2. cbn [fst snd].
    destruct (get_chip_status_sim ds i s ltac:(apply T) ltac:(apply T) Hi)
      as [E (T1 & _ & _ & O)].
    destruct (get_chip_status sim_hw i s ds) as [[v s1] b1]. cbn [fst snd] in *.
    subst b1.
    destruct (IH s1 T1) as (s' & E' & T' & O').
    exists s'. split; [exact E'|]. split; [exact T'|congruence].
Qed.

(** ** Telemetry of the simulated chain *)

Lemma map_nth_seqZ {A C} (g : A -> C) (l : list A) (d : A) :
  map (fun i => g (nth (Z.to_nat i) l d)) (seqZ 0 (Z.of_nat (length l))) = map g l.
Proof.
  induction l as [|x l IH] using rev_ind; [reflexivity|].
  rewrite length_app. cbn [length].
  replace (Z.of_nat (length l + 1)) with (Z.of_nat (length l) + 1) by lia.
  rewrite seqZ_app by lia. rewrite !map_app. cbn [seqZ]. 
  change (seqZ (0 + Z.of_nat (length l)) 1) with [0 + Z.of_nat (length l)].
  cbn [map]. rewrite Z.add_0_l, Nat2Z.id, app_nth2, Nat.sub_diag by lia.
  cbn [nth]. f_equal. rewrite <- IH. apply map_ext_in. intros i Hi.
  apply list_elem_of_In, elem_of_seqZ in Hi.
  rewrite app_nth1 by lia. reflexivity.
Qed.

Section SimChain.

Variable ds : list sim_device.

Hypothesis Hordered : map sd_addr ds = seqZ 1 (Z.of_nat (length ds)).
Hypothesis Hcrc : Forall (fun d => u8 (sd_crc_flip d) = 0) ds.
Hypothesis Hsize : Z.of_nat (length ds) < 128.

(** A read from an addressed device returns what the device holds. *)
Lemma read_sim i r count k m o s :
  calm ds k m o s -> k < MAX_XFER - 1 -> count = 1 \/ count = 2 ->
  m + 4 + count <= SPI_BUFF_SIZE ->
  1 <= i <= Z.of_nat (length ds) -> is_byte r ->
  exists s2,
    readRegister sim_hw i r count s ds = (sim_reading ds i r count, s2, ds)
    /\ calm ds (k + 1) (m + 4 + count) o s2.
Proof.
  intros C Hk Hc Hm Hi Hr.
  destruct (calm_read ds i r count k m o s C Hk Hc Hm ltac:(lia) Hr) as [E C2].
  destruct C as [(T & X & Y & O) S].
  destruct (readRegister_sim i r count s ds T) as (s2 & v & E2 & _ & _ & _ & _ & _ & Hv);
    try assumption; try lia.
  unfold settled in S. rewrite S in Hv, E2.
  rewrite E2 in C2. cbn [fst snd] in C2.
  exists s2. split; [|exact C2]. rewrite E2. do 2 f_equal.
  destruct (lookup_lt_is_Some_2 ds (Z.to_nat (i - 1)) ltac:(lia)) as [d Hd].
  rewrite (find_ordered 1 ds i d Hordered ltac:(lia) Hd) in Hv.
  pose proof (Forall_lookup_1 _ _ _ _ Hcrc Hd) as Hflip. cbv beta in Hflip.
  rewrite Hflip in Hv. cbn [Z.eqb] in Hv.
  unfold sim_reading. rewrite Hd. exact Hv.
Qed.

Lemma sim_reading_byte i r : is_byte (sim_reading ds i r 1).
Proof.
  unfold sim_reading. destruct (ds !! Z.to_nat (i - 1)) as [d|];
    [|unfold is_byte; lia].
  unfold sim_payload. change (seqZ 0 1) with [0]. cbn [map].
  rewrite be_value_1. apply reg_value_byte.
Qed.

Lemma emit_voltage_sim pk p s i k m o :
  within k m o s ->
  let c := nth (Z.to_nat i) (cells pk) {| chip := 0; index := 0 |} in
  1 <= chip c <= Z.of_nat (length ds) -> is_byte (index c) ->
  exists s',
    emit_voltage sim_hw pk (p, s, ds) i = (p ++ [sim_cell_byte ds c], s', ds)
    /\ within 0 6 o s'.
Proof.
  intros W c Hchip Hidx. rewrite emit_voltage_appends. cbv zeta. fold c.
  destruct (read_sim (chip c) (index c) 2 (-1) 0 o (bq_prepare_spi_message s))
    as (s2 & E & [W2 _]);
    [eapply calm_prepare; exact W|unfold MAX_XFER; lia|right; reflexivity
    |unfold SPI_BUFF_SIZE; lia|exact Hchip|exact Hidx|].
  rewrite E. cbn [fst snd]. exists s2. split; [reflexivity|exact W2].
Qed.

Lemma emit_voltages_sim pk l p s k m o :
  within k m o s ->
  Forall (fun i => let c := nth (Z.to_nat i) (cells pk) {| chip := 0; index := 0 |} in
                   1 <= chip c <= Z.of_nat (length ds) /\ is_byte (index c)) l ->
  exists s',
    fold_left (emit_voltage sim_hw pk) l (p, s, ds)
    = (p ++ map (fun i => sim_cell_byte ds
                            (nth (Z.to_nat i) (cells pk) {| chip := 0; index := 0 |})) l,
       s', ds)
    /\ within (Z.max k 0) (Z.max m 6) o s'.
Proof.
  intros W Hl. revert p s k m W.
  induction Hl as [|i l [Hchip Hidx] Hl IH]; intros p s k m W.
  - exists s. cbn [fold_left map]. rewrite app_nil_r. split; [reflexivity|].
    eapply within_mono; [exact W|lia|lia].
  - cbn [fold_left map].
    destruct (emit_voltage_sim pk p s i k m o W Hchip Hidx) as (s1 & E1 & W1).
    rewrite E1.
    match goal with |- context [fold_left _ l (?p1, s1, ds)] =>
      destruct (IH p1 s1 _ _ W1) as (s' & E & W') end.
    exists s'. rewrite E, <- app_assoc. split; [reflexivity|].
    eapply within_mono; [exact W'|lia|lia].
Qed.

Lemma emit_device_sim pk p s i k m o :
  within k m o s -> 1 <= i <= Z.of_nat (length ds) ->
  exists s',
    emit_device sim_hw pk (p, s, ds) i = (p ++ sim_device_bytes ds pk i, s', ds)
    /\ within 4 25 o s'.
Proof.
  intros W Hi. unfold emit_device.
  repeat match goal with
  | W : within _ _ _ ?s0 |- context [readRegister sim_hw i ?r 2 (bq_prepare_spi_message ?s0) ds] =>
      let s2 := fresh "s" in let E := fresh "E" in let W2 := fresh "W" in
      destruct (read_sim i r 2 (-1) 0 o (bq_prepare_spi_message s0))
        as (s2 & E & [W2 _]);
      [eapply calm_prepare; exact W|unfold MAX_XFER; lia|right; reflexivity
      |unfold SPI_BUFF_SIZE; lia|exact Hi|unfold is_byte; vm_compute; split; congruence|];
      rewrite E; clear E W
  end.
  match goal with W : within _ _ _ ?s0 |- _ =>
    pose proof (calm_prepare ds _ _ _ _ W) as C; clear W end.
  repeat match goal with
  | C : calm ds ?k0 ?m0 _ ?s0 |- context [readRegister sim_hw i ?r 1 ?s0 ds] =>
      let s2 := fresh "s" in let E := fresh "E" in let C2 := fresh "C" in
      destruct (read_sim i r 1 k0 m0 o s0 C)
        as (s2 & E & C2);
      [unfold MAX_XFER; lia|left; reflexivity
      |unfold SPI_BUFF_SIZE; lia|exact Hi|unfold is_byte; vm_compute; split; congruence|];
      rewrite E; clear E C
  end.
  rewrite !(u8_id (sim_reading ds i _ 1)) by apply sim_reading_byte.
  eexists. split; [rewrite <- !app_assoc; reflexivity|].
  match goal with C : calm _ _ _ _ _ |- _ => destruct C as [W _] end.
  eapply within_mono; [exact W|lia|lia].
Qed.

Lemma emit_devices_sim pk l p s k m o :
  within k m o s -> Forall (fun i => 1 <= i <= Z.of_nat (length ds)) l ->
  exists s',
    fold_left (emit_device sim_hw pk) l (p, s, ds)
    = (p ++ concat (map (sim_device_bytes ds pk) l), s', ds)
    /\ within (Z.max k 4) (Z.max m 25) o s'.
Proof.
  intros W Hl. revert p s k m W.
  induction Hl as [|i l Hi Hl IH]; intros p s k m W.
  - exists s. cbn [fold_left map concat]. rewrite app_nil_r. split; [reflexivity|].
    eapply within_mono; [exact W|lia|lia].
  - cbn [fold_left map concat].
    destruct (emit_device_sim pk p s i k m o W Hi) as (s1 & E1 & W1).
    rewrite E1.
    match goal with |- context [fold_left _ l (?p1, s1, ds)] =>
      destruct (IH p1 s1 _ _ W1) as (s' & E & W') end.
    exists s'. rewrite E, <- app_assoc. split; [reflexivity|].
    eapply within_mono; [exact W'|lia|lia].
Qed.

Lemma telemetry_sim_run fuel pk s :
  length (xfer s) = Z.to_nat MAX_XFER ->
  length (tx_buff s) = Z.to_nat SPI_BUFF_SIZE ->
  1 <= Z.of_nat (length ds) ->
  Z.land (sim_reading ds 1 DEVICE_STATUS 1) DRDY <> 0 ->
  devices_used pk <= Z.of_nat (length ds) ->
  total_cell_count pk = Z.of_nat (length (cells pk)) ->
  Forall (fun c => 1 <= chip c <= Z.of_nat (length ds) /\ is_byte (index c))
         (cells pk) ->
  (1 <= fuel)%nat ->
  let body := [u8 (total_cell_count pk)] ++ map (sim_cell_byte ds) (cells pk)
              ++ [u8 (devices_used pk)]
              ++ concat (map (sim_device_bytes ds pk) (seqZ 1 (devices_used pk))) in
  exists s',
    get_voltages sim_hw fuel pk s ds
    = Some (Z.of_nat (length body) + 1, body ++ [crc8_spec body], s', ds)
    /\ tidy s' /\ overrun s' = overrun s.
Proof.
  intros Hx Ht Hone Hrdy Hdu Htcc Hcells Hfuel body.
  unfold get_voltages.
  assert (C0 : calm ds (-1) 0 (overrun s) (bq_prepare_spi_message s))
    by (split; [apply within_prepare; assumption|reflexivity]).
  pose proof (calm_write ds BROADCAST ADC_CONVERT AC_CONV _ _ _ _ C0
                ltac:(unfold MAX_XFER; lia) ltac:(unfold SPI_BUFF_SIZE; lia)
                ltac:(unfold BROADCAST; lia) eq_refl eq_refl) as C1.
  destruct (writeRegister BROADCAST ADC_CONVERT AC_CONV (bq_prepare_spi_message s))
    as [w s1]. cbn [snd] in C1.
  destruct (calm_sync ds _ _ _ s1 C1) as (E1 & E2 & [W2 _]).
  destruct (spi_sync sim_hw s1 ds) as [[status s2] b2]. cbn [fst snd] in *.
  subst status b2. cbn [Z.eqb negb].
  destruct fuel as [|fuel]; [lia|]. cbn [wait_ready].
  destruct (read_sim 1 DEVICE_STATUS 1 (-1) 0 (overrun s) (bq_prepare_spi_message s2))
    as (s3 & E3 & [W3 _]);
    [eapply calm_prepare; exact W2|unfold MAX_XFER; lia|left; reflexivity
    |unfold SPI_BUFF_SIZE; lia|lia|unfold is_byte; vm_compute; split; congruence|].
  rewrite E3. cbn [Z.ltb Z.compare].
  apply Z.eqb_neq in Hrdy. rewrite Hrdy.
  destruct (emit_voltages_sim pk (seqZ 0 (total_cell_count pk))
              [u8 (total_cell_count pk)] s3 _ _ _ W3) as (s4 & E4 & W4).
  { apply Forall_forall. intros i Hi. apply elem_of_seqZ in Hi. cbv zeta.
    rewrite Forall_forall in Hcells. apply Hcells.
    apply list_elem_of_In, nth_In. lia. }
  rewrite E4.
  rewrite Htcc, map_nth_seqZ, <- Htcc.
  destruct (emit_devices_sim pk (seqZ 1 (devices_used pk))
              (([u8 (total_cell_count pk)] ++ map (sim_cell_byte ds) (cells pk))
               ++ [u8 (devices_used pk)]) s4 _ _ _ W4) as (s5 & E5 & W5).
  { apply Forall_forall. intros i Hi. apply elem_of_seqZ in Hi. lia. }
  rewrite E5. rewrite crc8_is_spec.
  replace ((([u8 (total_cell_count pk)] ++ map (sim_cell_byte ds) (cells pk))
            ++ [u8 (devices_used pk)])
           ++ concat (map (sim_device_bytes ds pk) (seqZ 1 (devices_used pk))))
    with body by (unfold body; rewrite <- !app_assoc; reflexivity).
  exists s5. split; [reflexivity|]. destruct W5 as (T & _ & _ & O). auto.
Qed.

End SimChain.

(** ** The declared cell counts after the census *)

Lemma nth_store_eq (l : list Z) i x :
  0 <= i < Z.of_nat (length l) -> nth (Z.to_nat i) (store l i x) 0 = x.
Proof.
  intros Hi. rewrite nth_lookup, lookup_store_eq by exact Hi. reflexivity.
Qed.

Lemma nth_store_ne (l : list Z) i x j :
  0 <= j -> i <> j -> nth (Z.to_nat j) (store l i x) 0 = nth (Z.to_nat j) l 0.
Proof.
  intros Hj Hne. rewrite !nth_lookup, lookup_store_ne by assumption. reflexivity.
Qed.

Lemma chip_population_range ds i : 0 <= chip_population ds i <= 6.
Proof.
  unfold chip_population. split; [lia|].
  pose proof (filter_length_le (populated ds)
                (map (fun j => {| chip := i; index := j |}) tap_registers)) as H.
  rewrite length_map in H. change (length tap_registers) with 6%nat in H. 
  unfold filter in H. lia.
Qed.

Lemma population_sum ds chips :
  sum_Z (map (chip_population ds) chips)
  = Z.of_nat (length (List.filter (populated ds) (taps_of chips))).
Proof.
  induction chips as [|i chips IH]; [reflexivity|].
  cbn [map sum_Z fold_right taps_of flat_map]. fold (sum_Z (map (chip_population ds) chips)).
  rewrite IH. fold (taps_of chips). rewrite List.filter_app, length_app.
  unfold chip_population. lia.
Qed.

Section CensusRun.

Variable ds : list sim_device.

Hypothesis Hordered : map sd_addr ds = seqZ 1 (Z.of_nat (length ds)).
Hypothesis Hcrc : Forall (fun d => u8 (sd_crc_flip d) = 0) ds.
Hypothesis Hsize : Z.of_nat (length ds) < 128.

(** First pass over the chips: every chip visited gets its populated
    count as declared count. *)
Lemma count_chips_declared chips pk s :
  tidy s -> Forall (fun i => 1 <= i <= Z.of_nat (length ds)) chips ->
  Forall (fun i => i < Z.of_nat (length (cells_per_device pk))) chips ->
  NoDup chips ->
  exists pk' s',
    fold_left (count_chip sim_hw) chips (pk, s, ds) = (pk', s', ds)
    /\ tidy s' /\ overrun s' = overrun s
    /\ devices_used pk' = devices_used pk
    /\ length (cells_per_device pk') = length (cells_per_device pk)
    /\ total_cell_count pk'
       = total_cell_count pk
         + Z.of_nat (length (List.filter (populated ds) (taps_of chips)))
    /\ (forall i, In i chips -> declared_cells pk' i = chip_population ds i)
    /\ (forall i, 0 <= i -> ~ In i chips -> declared_cells pk' i = declared_cells pk i).
Proof.
  intros Ht Hchips. revert pk s Ht.
  induction Hchips as [|i chips Hi Hchips IH]; intros pk s Ht Hlen Hnd.
  - exists pk, s. cbn. rewrite Z.add_0_r.
    repeat (split; [auto; fail|]). split; [intros i []|auto].
  - apply Forall_cons in Hlen as [Hil Hlen].
    apply NoDup_cons in Hnd as [Hnotin Hnd].
    cbn [fold_left]. unfold count_chip at 2.
    destruct (lookup_lt_is_Some_2 ds (Z.to_nat (i - 1)) ltac:(lia)) as [d Hd].
    destruct (count_taps_sim ds Hordered Hcrc Hsize i d tap_registers
                (total_cell_count pk) 0 s Ht Hd ltac:(lia)) as (s1 & E1 & T1 & O1).
    { apply Forall_forall. intros j Hj. apply list_elem_of_In. exact Hj. }
    rewrite E1. rewrite Z.add_0_l. fold (chip_population ds i).
    set (cc := chip_population ds i).
    assert (Hin : in_bounds (cells_per_device pk) i = true)
      by (apply in_bounds_true; lia).
    rewrite Hin, andb_false_r.
    set (cpd := if negb (nth (Z.to_nat i) (cells_per_device pk) 0 =? cc)
                then store (cells_per_device pk) i cc else cells_per_device pk).
    assert (Hcl : length cpd = length (cells_per_device pk)).
    { unfold cpd. destruct (negb _); [apply length_store|reflexivity]. }
    assert (Hci : nth (Z.to_nat i) cpd 0 = cc).
    { unfold cpd. destruct (nth (Z.to_nat i) (cells_per_device pk) 0 =? cc) eqn:E;
        cbn [negb]; [apply Z.eqb_eq; exact E|apply nth_store_eq; lia]. }
    assert (Hcj : forall j, 0 <= j -> j <> i ->
              nth (Z.to_nat j) cpd 0 = nth (Z.to_nat j) (cells_per_device pk) 0).
    { intros j Hj Hne. unfold cpd. destruct (negb _); [|reflexivity].
      apply nth_store_ne; [exact Hj|congruence]. }
    match goal with |- context [fold_left _ chips (?pk1, ?s2, ds)] =>
      destruct (IH pk1 s2) as (pk' & s' & E & T' & O' & D' & L' & Htot & Hin' & Hout') end.
    { apply tidy_raise_overrun. exact T1. }
    { cbn [cells_per_device]. rewrite Hcl. exact Hlen. }
    { exact Hnd. }
    cbn [devices_used cells_per_device total_cell_count] in *.
    exists pk', s'. split; [exact E|]. split; [exact T'|].
    split; [rewrite O'; cbn; rewrite orb_false_r; exact O1|].
    split; [exact D'|]. split; [congruence|].
    split.
    { rewrite Htot. cbn [taps_of flat_map]. rewrite List.filter_app, length_app.
      unfold cc, chip_population, taps_of. lia. }
    split.
    + intros j [<- | Hj]; [|apply Hin'; exact Hj].
      rewrite Hout' by (try lia; apply not_elem_of_list_In, Hnotin
                        || (intros H; apply Hnotin, list_elem_of_In; exact H)).
      unfold declared_cells at 1. cbn [cells_per_device]. exact Hci.
    + intros j Hj Hnot. rewrite Hout' by (try exact Hj; intros H; apply Hnot; right; exact H).
      unfold declared_cells. cbn [cells_per_device]. apply Hcj; [exact Hj|].
      intros ->. apply Hnot. left. reflexivity.
Qed.

(** Second pass over the chips, with the overrun flag. *)
Lemma fill_chips_safe chips done pad s :
  tidy s -> Forall (fun i => 1 <= i <= Z.of_nat (length ds)) chips ->
  let new := List.filter (populated ds) (taps_of chips) in
  (length new <= length pad)%nat ->
  exists s',
    fold_left (fill_chip sim_hw) chips (done ++ pad, Z.of_nat (length done), s, ds)
    = ((done ++ new) ++ drop (length new) pad,
       Z.of_nat (length (done ++ new)), s', ds)
    /\ tidy s' /\ overrun s' = overrun s.
Proof.
  intros Ht Hchips. revert done pad s Ht.
  induction Hchips as [|i chips Hi Hchips IH]; intros done pad s Ht new Hroom.
  - exists s. cbn. rewrite !app_nil_r. auto.
  - cbn [fold_left]. unfold fill_chip at 2.
    destruct (lookup_lt_is_Some_2 ds (Z.to_nat (i - 1)) ltac:(lia)) as [d Hd].
    subst new. cbn [taps_of flat_map] in Hroom |- *.
    rewrite List.filter_app in Hroom |- *. rewrite length_app in Hroom.
    set (n1 := List.filter (populated ds)
                 (map (fun j => {| chip := i; index := j |}) tap_registers)) in *.
    fold (taps_of chips) in Hroom |- *.
    set (n2 := List.filter (populated ds) (taps_of chips)) in *.
    destruct (fill_taps_sim ds Hordered Hcrc Hsize i d tap_registers done pad s Ht Hd
                ltac:(lia)) as (s1 & E1 & T1 & O1).
    { apply Forall_forall. intros j Hj. apply list_elem_of_In. exact Hj. }
    { fold n1. lia. }
    fold n1 in E1. rewrite E1.
    destruct (IH (done ++ n1) (drop (length n1) pad) s1 T1) as (s' & E & T' & O').
    { fold n2. rewrite length_drop. lia. }
    fold n2 in E. exists s'. rewrite E. split; [|split; [exact T'|congruence]].
    rewrite drop_drop, !length_app, <- !app_assoc.
    do 3 f_equal. f_equal. lia.
Qed.

(** The census on the simulated chain, all its results. *)
Lemma census_run count pk s :
  tidy s -> 0 <= count <= Z.of_nat (length ds) ->
  count < Z.of_nat (length (cells_per_device pk)) ->
  exists pk' s',
    census sim_hw count pk s ds = (pk', s', ds)
    /\ tidy s' /\ overrun s' = overrun s
    /\ devices_used pk' = devices_used pk
    /\ cells pk' = List.filter (populated ds) (all_taps count)
    /\ total_cell_count pk' = Z.of_nat (length (cells pk'))
    /\ length (cells_per_device pk') = length (cells_per_device pk)
    /\ (forall i, 1 <= i <= count -> declared_cells pk' i = chip_population ds i)
    /\ (forall i, 0 <= i -> ~ 1 <= i <= count ->
          declared_cells pk' i = declared_cells pk i).
Proof.
  intros Ht Hcount Hlen.
  assert (Hchips : Forall (fun i => 1 <= i <= Z.of_nat (length ds)) (seqZ 1 count)).
  { apply Forall_forall. intros i Hi. apply elem_of_seqZ in Hi. lia. }
  destruct (count_chips_declared (seqZ 1 count)
              {| devices_used := devices_used pk;
                 cells_per_device := cells_per_device pk;
                 cells := cells pk; total_cell_count := 0 |} s Ht Hchips)
    as (pk1 & s1 & E1 & T1 & O1 & D1 & L1 & Htot & Hin & Hout).
  { apply Forall_forall. intros i Hi. apply elem_of_seqZ in Hi.
    cbn [cells_per_device]. lia. }
  { apply NoDup_seqZ. }
  cbn [total_cell_count devices_used cells_per_device] in *.
  rewrite Z.add_0_l in Htot. fold (all_taps count) in Htot.
  set (new := List.filter (populated ds) (all_taps count)) in *.
  destruct (fill_chips_safe (seqZ 1 count) []
              (repeat {| chip := 0; index := 0 |} (Z.to_nat (total_cell_count pk1)))
              s1 T1 Hchips) as (s2 & E2 & T2 & O2).
  { fold (all_taps count). fold new. rewrite repeat_length, Htot. lia. }
  fold (all_taps count) in E2. fold new in E2. cbn [app length] in E2.
  change (Z.of_nat 0) with 0 in E2.
  rewrite drop_ge, app_nil_r in E2 by (rewrite repeat_length, Htot; lia).
  exists {| devices_used := devices_used pk1;
            cells_per_device := cells_per_device pk1;
            cells := new;
            total_cell_count := total_cell_count pk1 |}, s2.
  split; [unfold census; rewrite E1, E2; reflexivity|].
  cbn [devices_used cells_per_device cells total_cell_count].
  split; [exact T2|]. split; [congruence|]. split; [exact D1|].
  split; [reflexivity|]. split; [exact Htot|]. split; [exact L1|].
  split.
  - intros i Hi. unfold declared_cells. cbn [cells_per_device].
    apply (Hin i). apply list_elem_of_In, elem_of_seqZ. lia.
  - intros i Hi Hnot. unfold declared_cells. cbn [cells_per_device].
    apply (Hout i Hi). intros H. apply list_elem_of_In, elem_of_seqZ in H. lia.
Qed.

End CensusRun.

(** ** Attach on the simulated chain *)

Lemma sim_run_writes ds a l :
  0 <= a < 128 ->
  Forall (fun rd =>
            (a =? BROADCAST) && (u8 (fst rd) =? RESET) && (u8 (snd rd) =? RESET_COMMAND)
            = false
            /\ (a =? DISCOVERY_ADDR) && (u8 (fst rd) =? ADDRESS_CONTROL) = false) l ->
  fst (sim_run ds (map (fun rd => {| wx_tx := write_frame a (fst rd) (snd rd);
                                     wx_rx := false |}) l)) = ds.
Proof.
  intros Ha Hl. induction Hl as [|rd l [H1 H2] Hl IH]; [reflexivity|].
  cbn [map sim_run]. rewrite sim_frame_write by exact Ha.
  rewrite sim_write_other by assumption.
  destruct (sim_run ds _) as [ds2 rxs]. cbn [fst] in *. exact IH.
Qed.

Lemma sim_hw_status ds ws : snd (fst (sim_hw ds ws)) = 0.
Proof. rewrite sim_hw_run. reflexivity. Qed.

Lemma sim_hw_state ds ws : fst (fst (sim_hw ds ws)) = fst (sim_run ds ws).
Proof. rewrite sim_hw_run. reflexivity. Qed.

Lemma default_settings_harmless cuv :
  Forall (fun rd =>
            (BROADCAST =? BROADCAST) && (u8 (fst rd) =? RESET)
            && (u8 (snd rd) =? RESET_COMMAND) = false
            /\ (BROADCAST =? DISCOVERY_ADDR) && (u8 (fst rd) =? ADDRESS_CONTROL) = false)
         (default_settings cuv).
Proof.
  unfold default_settings.
  repeat (apply Forall_cons; split; [split; [|reflexivity]|]); try apply Forall_nil.
  all: cbn [fst snd]; try reflexivity.
  change (u8 COV_300 =? RESET_COMMAND) with false. apply andb_false_r.
Qed.

Lemma write_defaults_sim cuv s ds :
  length (xfer s) = Z.to_nat MAX_XFER ->
  length (tx_buff s) = Z.to_nat SPI_BUFF_SIZE ->
  exists s',
    write_defaults sim_hw cuv s ds = (0, s', ds)
    /\ tidy s' /\ overrun s' = overrun s.
Proof.
  intros Hx Ht.
  destruct (write_defaults_run sim_hw cuv s ds Hx Ht) as (s' & E & T & _ & _ & _ & O).
  rewrite sim_hw_status, sim_hw_state in E.
  rewrite (sim_run_writes ds BROADCAST (default_settings cuv)) in E.
  - exists s'. split; [exact E|split; [exact T|exact O]].
  - unfold BROADCAST. lia.
  - apply default_settings_harmless.
Qed.

Lemma Forall_readdress (P : sim_device -> Prop) base j ds :
  (forall a d, P d -> P (set_addr a d)) ->
  Forall P ds -> Forall P (readdress base j ds).
Proof.
  intros HP Hds. revert base j.
  induction Hds as [|d ds Hd Hds IH]; intros base j; [constructor|].
  cbn [readdress]. destruct j; constructor; auto.
Qed.

Lemma lookup_readdress base j ds k :
  readdress base j ds !! k
  = (fun d => set_addr (if (k <? j)%nat then base + Z.of_nat k else 0) d) <$> ds !! k.
Proof.
  revert base j k. induction ds as [|d ds IH]; intros base j k; [reflexivity|].
  destruct j as [|j]; destruct k as [|k].
  - reflexivity.
  - change (readdress base 0 ds !! k
            = (fun d => set_addr 0 d) <$> ds !! k).
    rewrite (IH base 0%nat k). reflexivity.
  - cbn. rewrite Z.add_0_r. reflexivity.
  - change (readdress (base + 1) j ds !! k
            = (fun d => set_addr (if (k <? j)%nat then base + Z.of_nat (S k) else 0) d)
                <$> ds !! k).
    rewrite (IH (base + 1) j k).
    destruct (ds !! k); cbn [fmap option_fmap option_map]; [|reflexivity].
    destruct (k <? j)%nat; [|reflexivity]. do 2 f_equal. lia.
Qed.

Lemma populated_readdress base j ds c :
  populated (readdress base j ds) c = populated ds c.
Proof.
  unfold populated. rewrite lookup_readdress.
  destruct (ds !! Z.to_nat (chip c - 1)); reflexivity.
Qed.

Lemma filter_populated_readdress base j ds l :
  List.filter (populated (readdress base j ds)) l = List.filter (populated ds) l.
Proof.
  induction l as [|c l IH]; [reflexivity|].
  cbn [List.filter]. rewrite populated_readdress, IH. reflexivity.
Qed.

Lemma chip_population_readdress base j ds i :
  chip_population (readdress base j ds) i = chip_population ds i.
Proof. unfold chip_population. rewrite filter_populated_readdress. reflexivity. Qed.

Lemma healthy_crc ds :
  Forall healthy ds -> Forall (fun d => u8 (sd_crc_flip d) = 0) ds.
Proof. intros H. eapply Forall_impl; [exact H|]. intros d [_ Hd]. exact Hd. Qed.

Lemma addressed_all ds :
  map sd_addr (addressed (length ds) ds) = seqZ 1 (Z.of_nat (length ds)).
Proof.
  unfold addressed. rewrite addresses_readdress.
  rewrite Nat.min_id, Nat.sub_diag. apply app_nil_r.
Qed.

(** The outer loop of [search_pack] on a chain of healthy devices longer
    than [devices_used]: it stops at [devices_used]. *)
Lemma search_outer_capped good m l0 used fuel s dc :
  Forall healthy good -> Z.of_nat (length good) <= MAX_BQ_DEVICES ->
  prepared s -> map (set_addr 0) dc = map (set_addr 0) good ->
  Z.of_nat l0 + Z.of_nat m = used -> (1 <= m)%nat ->
  used <= Z.of_nat (length good) ->
  (l0 + 2 * m <= fuel)%nat ->
  exists s',
    search_outer sim_hw fuel used (Z.of_nat l0) s dc
    = Some (used, s', addressed (Z.to_nat used) good)
    /\ tidy s'.
Proof.
  intros Hgood Hsize.
  assert (Hsize' : Z.of_nat (length (good ++ [])) <= MAX_BQ_DEVICES)
    by (rewrite app_nil_r; exact Hsize).
  revert l0 fuel s dc.
  induction m as [|m IH]; intros l0 fuel s dc (Ht & Hx & Hb & Hw) Hdc Hm H1 Hused Hfuel;
    [lia|].
  unfold MAX_BQ_DEVICES in *.
  destruct fuel as [|fuel]; [lia|].
  destruct (writeRegister_tidy BROADCAST RESET RESET_COMMAND s Ht)
    as (s1 & Hw1 & T1 & W1 & X1 & B1 & O1 & R1);
    [unfold MAX_XFER; lia|unfold SPI_BUFF_SIZE; lia|].
  assert (Hp : probing (good ++ []) 0 s1 dc).
  { split; [exact T1|]. split; [lia|]. split; [lia|].
    rewrite W1, Hw. cbn [app sim_run].
    rewrite sim_frame_write by (unfold BROADCAST; lia).
    cbn [fst]. rewrite sim_write_reset. unfold addressed.
    apply readdress_same. rewrite app_nil_r. exact Hdc. }
  cbn [search_outer]. rewrite Hw1. cbn [Z.eqb negb].
  rewrite (u8_id (Z.of_nat l0 + 1)) by (unfold is_byte; lia).
  destruct (search_inner_sim good [] Hgood (or_introl eq_refl) Hsize'
              (S l0) 0 (Z.of_nat l0 + 1) (S fuel) s1 dc Hp)
    as (s2 & Hin & Hprep); try lia.
  change (Z.of_nat 0) with 0 in Hin. rewrite Hin.
  assert (E : (Z.of_nat l0 + 1 <=? Z.of_nat (length good)) = true)
    by (apply Z.leb_le; lia).
  rewrite E. rewrite app_nil_r.
  specialize (Hprep ltac:(lia)).
  destruct (Z.of_nat l0 + 1 <? used) eqn:Hmore.
  - apply Z.ltb_lt in Hmore.
    replace (Z.of_nat l0 + 1) with (Z.of_nat (S l0)) by lia.
    apply (IH (S l0)); try lia.
    + exact Hprep.
    + unfold addressed. apply reset_readdress.
  - apply Z.ltb_ge in Hmore.
    assert (Hall : Z.of_nat l0 + 1 = used) by lia.
    exists s2. rewrite Hall. split; [reflexivity|apply Hprep].
Qed.

Section AttachSim.

Variable CONFIG_CUV : Z.
Variable good : list sim_device.

Hypothesis Hgood : Forall healthy good.
Hypothesis Hsize : Z.of_nat (length good) <= MAX_BQ_DEVICES.

Local Abbreviation N := (Z.of_nat (length good)).
Local Abbreviation ds' := (addressed (length good) good).

Lemma bq_probe_sim_run fuel pk s :
  length (xfer s) = Z.to_nat MAX_XFER ->
  length (tx_buff s) = Z.to_nat SPI_BUFF_SIZE ->
  N <= devices_used pk <= MAX_BQ_DEVICES ->
  N < Z.of_nat (length (cells_per_device pk)) ->
  (2 * Z.to_nat (Z.max 1 (devices_used pk)) + 2 <= fuel)%nat ->
  exists pk' s',
    bq_probe sim_hw CONFIG_CUV fuel pk s good = Some (0, pk', s', ds')
    /\ tidy s' /\ overrun s' = overrun s
    /\ devices_used pk' = N
    /\ cells pk' = List.filter (populated good) (all_taps N)
    /\ total_cell_count pk' = Z.of_nat (length (cells pk'))
    /\ length (cells_per_device pk') = length (cells_per_device pk)
    /\ (forall i, 1 <= i <= N -> declared_cells pk' i = chip_population good i)
    /\ (forall i, 0 <= i -> ~ 1 <= i <= N ->
          declared_cells pk' i = declared_cells pk i).
Proof.
  intros Hx Ht Hused Hcpd Hfuel. unfold MAX_BQ_DEVICES in *.
  assert (Hprep : prepared (bq_prepare_spi_message s)).
  { split; [apply tidy_prepare; assumption|]. repeat split. }
  destruct (search_outer_sim good [] Hgood (or_introl eq_refl)
              ltac:(rewrite app_nil_r; exact Hsize)
              (length good) 0 (devices_used pk) fuel (bq_prepare_spi_message s)
              (good ++ []) Hprep eq_refl eq_refl
              ltac:(rewrite app_nil_r; lia) ltac:(lia)) as (s1 & Hs).
  rewrite app_nil_r in Hs. change (Z.of_nat 0) with 0 in Hs.
  destruct (search_outer_total sim_hw (Z.to_nat (Z.max 1 (devices_used pk)))
              (devices_used pk) 0 fuel (bq_prepare_spi_message s) good (overrun s))
    as (v & s1' & b1' & Hs' & T1 & O1 & _); try lia.
  { apply within_prepare; assumption. }
  rewrite Hs in Hs'. injection Hs' as _ <- _.
  assert (Hchain : addressed (S (length good)) good = ds').
  { unfold addressed. rewrite (readdress_ge 1 (S (length good))) by lia. reflexivity. }
  rewrite Hchain in Hs.
  unfold bq_probe, search_pack. rewrite Hs.
  set (pk1 := if N =? devices_used pk then pk
              else {| devices_used := N; cells_per_device := cells_per_device pk;
                      cells := cells pk; total_cell_count := total_cell_count pk |}).
  assert (D1 : devices_used pk1 = N).
  { unfold pk1. destruct (N =? devices_used pk) eqn:E; [|reflexivity].
    apply Z.eqb_eq in E. symmetry. exact E. }
  assert (C1 : cells_per_device pk1 = cells_per_device pk)
    by (unfold pk1; destruct (N =? devices_used pk); reflexivity).
  destruct (write_defaults_sim CONFIG_CUV s1 ds' ltac:(apply T1) ltac:(apply T1))
    as (s2 & E2 & T2 & O2).
  rewrite E2.
  destruct (report_chips_sim ds' (seqZ 1 N) s2 T2) as (s3 & E3 & T3 & O3).
  { apply Forall_forall. intros i Hi. apply elem_of_seqZ in Hi. lia. }
  rewrite E3.
  assert (Hlen' : length ds' = length good)
    by (unfold addressed; apply length_readdress).
  assert (Hord' : map sd_addr ds' = seqZ 1 (Z.of_nat (length ds')))
    by (rewrite Hlen'; apply addressed_all).
  assert (Hcrc' : Forall (fun d => u8 (sd_crc_flip d) = 0) ds').
  { unfold addressed. apply Forall_readdress; [intros a d H; exact H|].
    apply healthy_crc. exact Hgood. }
  destruct (census_run ds' Hord' Hcrc' ltac:(rewrite Hlen'; lia) N pk1 s3 T3)
    as (pk' & s' & E & T' & O' & D' & Cl & Tot & L' & Hin & Hout).
  { rewrite Hlen'. lia. }
  { rewrite C1. exact Hcpd. }
  rewrite E. exists pk', s'. split; [reflexivity|].
  split; [exact T'|]. split; [congruence|]. split; [congruence|].
  unfold addressed in Cl. rewrite filter_populated_readdress in Cl.
  split; [exact Cl|]. split; [exact Tot|]. split; [congruence|].
  split.
  - intros i Hi. rewrite (Hin i Hi). unfold addressed.
    apply chip_population_readdress.
  - intros i Hi Hnot. rewrite (Hout i Hi Hnot). unfold declared_cells.
    rewrite C1. reflexivity.
Qed.

End AttachSim.

(** ** The codec on an arbitrary bus *)

Lemma decode_response_range a r count rx :
  count = 1 \/ count = 2 ->
  decode_response a r count rx = - EFAULT
  \/ 0 <= decode_response a r count rx < 256 ^ count.
Proof.
  intros Hc. assert (Hc0 : 0 <= count) by (destruct Hc; lia).
  destruct (fit_split count rx Hc0) as (Hsplit & Hpre & Hpay).
  pose proof (fit_is_byte (Z.to_nat (4 + count)) rx) as Hb.
  set (resp := fit (Z.to_nat (4 + count)) rx) in *.
  set (payload := take (Z.to_nat count) (drop 3 resp)) in *.
  assert (Hpb : Forall is_byte payload)
    by (unfold payload; apply Forall_take, Forall_drop; exact Hb).
  unfold decode_response. fold resp. fold payload.
  destruct (crc8_spec _ =? _); [right|left; reflexivity].
  clearbody payload. clear Hsplit.
  destruct Hc as [-> | ->].
  - destruct payload as [|x [|? ?]]; try discriminate.
    apply Forall_cons in Hpb as [Hx _]. rewrite be_value_1. unfold is_byte in Hx.
    change (256 ^ 1) with 256. lia.
  - destruct payload as [|x [|y [|? ?]]]; try discriminate.
    apply Forall_cons in Hpb as [Hx Hy]. apply Forall_cons in Hy as [Hy _].
    rewrite be_value_2. unfold is_byte in Hx, Hy. change (256 ^ 2) with 65536. lia.
Qed.

(** X1. [readRegister] on a batch with room, whatever the bus does: the
    pending transfers and the request go out as one message and stay
    queued; nothing is stored outside the buffers; the result is the
    transfer status when it is not 0, and otherwise the decoded answer,
    which is [- EFAULT] or a value below [256 ^ count]. *)
Theorem readRegister_any_bus {B : Type}
    (hw : B -> list wire_xfer -> B * Z * list (list Z))
    (address reg count : Z) (s : batch) (b : B) :
  tidy s -> xfer_index s < MAX_XFER - 1 -> count = 1 \/ count = 2 ->
  byte_index s + 4 + count <= SPI_BUFF_SIZE ->
  let message := wire s ++ [read_frame address reg count s] in
  let out := hw b message in
  let status := snd (fst out) in
  let r := readRegister hw address reg count s b in
  snd r = fst (fst out)
  /\ fst (fst r)
     = (if status =? 0
        then decode_response address reg count (nth (length (wire s)) (snd out) [])
        else status)
  /\ (status = 0 -> fst (fst r) = - EFAULT \/ 0 <= fst (fst r) < 256 ^ count)
  /\ tidy (snd (fst r))
  /\ wire (snd (fst r)) = message
  /\ xfer_index (snd (fst r)) = xfer_index s + 1
  /\ byte_index (snd (fst r)) = byte_index s + 4 + count
  /\ overrun (snd (fst r)) = overrun s.
Proof.
  intros T Hx Hc Hb message out status r.
  destruct (readRegister_run hw address reg count s b T Hx Hc Hb)
    as (s2 & E & T2 & W2 & X2 & Y2 & O2).
  fold message in E, W2. fold out in E. fold status in E.
  unfold r. rewrite E. cbn [fst snd].
  split; [reflexivity|]. split; [reflexivity|].
  split; [|split; [exact T2|split; [exact W2|split; [exact X2|split; [exact Y2|exact O2]]]]].
  intros ->. cbn [Z.eqb]. apply decode_response_range. exact Hc.
Qed.

Lemma readRegister_any_bus_witness :
  let s := bq_prepare_spi_message initial_batch in
  let message := wire s ++ [read_frame 1 DEVICE_STATUS 1 s] in
  let out := sim_hw ready_chain message in
  let r := readRegister sim_hw 1 DEVICE_STATUS 1 s ready_chain in
  snd r = fst (fst out)
  /\ fst (fst r)
     = (if snd (fst out) =? 0
        then decode_response 1 DEVICE_STATUS 1 (nth (length (wire s)) (snd out) [])
        else snd (fst out))
  /\ (snd (fst out) = 0 -> fst (fst r) = - EFAULT \/ 0 <= fst (fst r) < 256 ^ 1)
  /\ tidy (snd (fst r))
  /\ wire (snd (fst r)) = message
  /\ xfer_index (snd (fst r)) = xfer_index s + 1
  /\ byte_index (snd (fst r)) = byte_index s + 4 + 1
  /\ overrun (snd (fst r)) = overrun s.
Proof.
  apply (readRegister_any_bus sim_hw 1 DEVICE_STATUS 1
           (bq_prepare_spi_message initial_batch) ready_chain).
  - apply tidy_prepare; reflexivity.
  - vm_compute. reflexivity.
  - left. reflexivity.
  - vm_compute. discriminate.
Defined.

(** ** Corruption of one byte *)

Lemma corrupt_byte_is_byte k e l :
  is_byte e -> Forall is_byte l -> Forall is_byte (corrupt_byte k e l).
Proof.
  intros He Hl. unfold corrupt_byte. revert k.
  induction Hl as [|x l Hx Hl IH]; intros k; [constructor|].
  destruct k as [|k]; cbn; constructor; auto.
  apply lxor_byte; assumption.
Qed.

Lemma length_corrupt_byte k e l : length (corrupt_byte k e l) = length l.
Proof. unfold corrupt_byte. apply length_alter. Qed.

Lemma crc8_corrupt_detected k e resp c0 :
  is_byte c0 -> Forall is_byte resp -> (k < length resp)%nat ->
  is_byte e -> e <> 0 ->
  crc8 crc8_table (corrupt_byte k e resp) c0 <> crc8 crc8_table resp c0.
Proof.
  intros H0 Hr Hk He Hne. revert k c0 H0 Hk.
  induction Hr as [|x l Hx Hl IH]; intros k c0 H0 Hk; [simpl in Hk; lia|].
  destruct k as [|k]; unfold corrupt_byte; cbn [alter list_alter crc8].
  - rewrite !crc8_step, !crc8_spec_byte_T.
    rewrite <- Z.lxor_assoc, crc_T_linear by (auto using lxor_byte).
    rewrite crc8_disturbed by (auto using crc_T_byte).
    apply lxor_nonzero_ne.
    apply (crc_T_iter_nonzero (length l) (crc_T e));
      [apply crc_T_byte|apply crc_T_nonzero; assumption].
  - apply IH; [|simpl in Hk; lia].
    rewrite crc8_step, crc8_spec_byte_T. apply crc_T_byte.
Qed.

(** X2. Whatever happens to one byte of an answer, payload or CRC, the
    read is rejected: every non-zero error pattern confined to one byte
    makes [readRegister] return [- EFAULT]. *)
Theorem readRegister_rejects_corrupt_byte {B : Type}
    (hw : B -> list wire_xfer -> B * Z * list (list Z))
    (address reg count : Z) (s : batch) (b : B)
    (pre payload : list Z) (k : nat) (e : Z) :
  tidy s -> xfer_index s < MAX_XFER - 1 -> count = 1 \/ count = 2 ->
  byte_index s + 4 + count <= SPI_BUFF_SIZE ->
  length pre = 3%nat -> Forall is_byte pre ->
  length payload = Z.to_nat count -> Forall is_byte payload ->
  is_byte e -> e <> 0 -> (k < length payload + 1)%nat ->
  let out := hw b (wire s ++ [read_frame address reg count s]) in
  let good := payload ++ [crc8_spec (read_request address reg count ++ payload)] in
  snd (fst out) = 0 ->
  nth (length (wire s)) (snd out) [] = pre ++ corrupt_byte k e good ->
  fst (fst (readRegister hw address reg count s b)) = - EFAULT.
Proof.
  intros T Hx Hc Hb Hpre Hpreb Hpay Hpayb He Hne Hk out good Hst Hrx.
  destruct (readRegister_run hw address reg count s b T Hx Hc Hb)
    as (s2 & E & _).
  fold out in E. rewrite Hst, Hrx in E. cbn [Z.eqb] in E. rewrite E. cbn [fst].
  set (request := read_request address reg count) in *.
  assert (Hgoodb : Forall is_byte good).
  { apply Forall_app. split; [assumption|].
    constructor; [apply crc8_spec_is_byte|constructor]. }
  assert (Hgoodl : length good = (Z.to_nat count + 1)%nat).
  { unfold good. rewrite length_app, Hpay. reflexivity. }
  pose proof (corrupt_byte_is_byte k e good He Hgoodb) as Hfb.
  pose proof (length_corrupt_byte k e good) as Hfl.
  destruct (corrupt_byte k e good) as [|c' payload'] eqn:Hbad using rev_ind;
    [rewrite Hgoodl in Hfl; simpl in Hfl; lia|].
  clear IHpayload'.
  rewrite length_app, Hgoodl in Hfl. cbn [length] in Hfl.
  apply Forall_app in Hfb as [Hpb' Hcb']. apply Forall_cons in Hcb' as [Hcb' _].
  rewrite (decode_response_split address reg count _ pre payload' c');
    [|apply fit_exact;
      [rewrite !length_app, Hpre; cbn [length]; lia
      |apply Forall_app; split; [assumption|]; apply Forall_app; split; auto]
     |exact Hpre|lia|destruct Hc; lia].
  fold request.
  assert (Hno : (crc8_spec (request ++ payload') =? c') = false).
  { rewrite <- (crc8_is_spec (request ++ payload')), crc8_app, crc8_is_spec.
    rewrite crc8_residue by (auto using crc8_spec_is_byte).
    apply Z.eqb_neq. rewrite <- Hbad.
    assert (Hzero : crc8 crc8_table good (crc8_spec request) = 0).
    { apply Z.eqb_eq. unfold good.
      rewrite <- crc8_residue by (auto using crc8_spec_is_byte).
      rewrite <- (crc8_is_spec (request ++ payload)), crc8_app, crc8_is_spec.
      apply Z.eqb_refl. }
    rewrite <- Hzero.
    apply crc8_corrupt_detected; auto using crc8_spec_is_byte.
    rewrite Hgoodl. lia. }
  rewrite Hno. reflexivity.
Qed.

Lemma readRegister_rejects_corrupt_byte_witness :
  fst (fst (readRegister sim_hw 2 DEVICE_STATUS 1
              (bq_prepare_spi_message initial_batch) garbled_chain)) = - EFAULT.
Proof.
  apply (readRegister_rejects_corrupt_byte sim_hw 2 DEVICE_STATUS 1
           (bq_prepare_spi_message initial_batch) garbled_chain
           [0; 0; 0] [0x81] 1 1).
  - apply tidy_prepare; reflexivity.
  - vm_compute. reflexivity.
  - left. reflexivity.
  - vm_compute. discriminate.
  - reflexivity.
  - repeat constructor; unfold is_byte; lia.
  - reflexivity.
  - repeat constructor; unfold is_byte; lia.
  - unfold is_byte. lia.
  - discriminate.
  - cbn. lia.
  - vm_compute. reflexivity.
  - vm_compute. reflexivity.
Defined.

(** ** The default settings fill the batch *)

(** X3. [write_defaults] queues its ten settings as CRC-protected write
    frames and sends them as one message; it returns the status of that
    transfer. The ten frames occupy the ten slots of [xfer] exactly:
    nothing is stored outside the arrays, and any further write on that
    batch would be accepted and stored past the end of [xfer]. *)
Theorem write_defaults_fills_batch {B : Type}
    (hw : B -> list wire_xfer -> B * Z * list (list Z))
    (CONFIG_CUV : Z) (s : batch) (b : B) :
  length (xfer s) = Z.to_nat MAX_XFER ->
  length (tx_buff s) = Z.to_nat SPI_BUFF_SIZE ->
  let frames :=
    map (fun rd => {| wx_tx := write_frame BROADCAST (fst rd) (snd rd);
                      wx_rx := false |}) (default_settings CONFIG_CUV) in
  let out := hw b frames in
  let r := write_defaults hw CONFIG_CUV s b in
  fst (fst r) = snd (fst out)
  /\ snd r = fst (fst out)
  /\ wire (snd (fst r)) = frames
  /\ length frames = Z.to_nat MAX_XFER
  /\ tidy (snd (fst r))
  /\ xfer_index (snd (fst r)) = MAX_XFER - 1
  /\ byte_index (snd (fst r)) = 40
  /\ overrun (snd (fst r)) = overrun s
  /\ (forall a rg d,
        fst (writeRegister a rg d (snd (fst r))) = 0
        /\ overrun (snd (writeRegister a rg d (snd (fst r)))) = true).
Proof.
  intros Hx Ht frames out r.
  destruct (write_defaults_run hw CONFIG_CUV s b Hx Ht)
    as (s' & E & T & W & X & Y & O).
  fold frames in E, W. fold out in E. unfold r. rewrite E. cbn [fst snd].
  split; [reflexivity|]. split; [reflexivity|]. split; [exact W|].
  split; [reflexivity|]. split; [exact T|]. split; [exact X|]. split; [exact Y|].
  split; [exact O|].
  intros a rg d.
  destruct (writeRegister_off_by_one a rg d s' ltac:(apply T) X) as (H1 & _ & H3).
  split; assumption.
Qed.

Lemma write_defaults_fills_batch_witness :
  let frames :=
    map (fun rd => {| wx_tx := write_frame BROADCAST (fst rd) (snd rd);
                      wx_rx := false |}) (default_settings 0x44) in
  let out := sim_hw fresh_chain frames in
  let r := write_defaults sim_hw 0x44 initial_batch fresh_chain in
  fst (fst r) = snd (fst out)
  /\ snd r = fst (fst out)
  /\ wire (snd (fst r)) = frames
  /\ length frames = Z.to_nat MAX_XFER
  /\ tidy (snd (fst r))
  /\ xfer_index (snd (fst r)) = MAX_XFER - 1
  /\ byte_index (snd (fst r)) = 40
  /\ overrun (snd (fst r)) = overrun initial_batch
  /\ (forall a rg d,
        fst (writeRegister a rg d (snd (fst r))) = 0
        /\ overrun (snd (writeRegister a rg d (snd (fst r)))) = true).
Proof.
  apply (write_defaults_fills_batch sim_hw 0x44 initial_batch fresh_chain);
    reflexivity.
Defined.

(** ** Status reports stay within the batch *)

(** X4. [get_chip_status] returns the value of its first read, the status
    register, whatever the fault and alert decoders do afterwards. On every
    path, and whatever the bus answers, its at most ten transfers fit the
    batch: nothing is stored outside [xfer], [tx_buff] or [rx_buff]. The
    longest path (fault with over-voltage, alert without address request)
    uses the ten slots and 46 of the 50 bytes. *)
Theorem get_chip_status_within_batch {B : Type}
    (hw : B -> list wire_xfer -> B * Z * list (list Z))
    (address : Z) (s : batch) (b : B) :
  length (xfer s) = Z.to_nat MAX_XFER ->
  length (tx_buff s) = Z.to_nat SPI_BUFF_SIZE ->
  let r := get_chip_status hw address s b in
  fst (fst r)
  = fst (fst (readRegister hw address DEVICE_STATUS 1 (bq_prepare_spi_message s) b))
  /\ tidy (snd (fst r))
  /\ overrun (snd (fst r)) = overrun s
  /\ xfer_index (snd (fst r)) <= MAX_XFER - 1
  /\ byte_index (snd (fst r)) <= 46
  /\ (let w := get_chip_status sim_hw 1 initial_batch busy_chain in
      xfer_index (snd (fst w)) = MAX_XFER - 1 /\ byte_index (snd (fst w)) = 46).
Proof.
  intros Hx Ht r.
  destruct (get_chip_status_within hw address s b Hx Ht) as (T & X & Y & O).
  fold r in T, X, Y, O.
  split; [|split; [exact T|split; [exact O|split; [exact X|split; [exact Y|]]]]].
  - unfold r, get_chip_status.
    destruct (readRegister hw address DEVICE_STATUS 1 (bq_prepare_spi_message s) b)
      as [[val s1] b1].
    destruct (val <? 0); [reflexivity|].
    destruct (if negb (Z.land val DS_FAULT =? 0) then get_fault hw address s1 b1
              else (s1, b1)) as [s2 b2].
    destruct (if negb (Z.land val DS_ALERT =? 0) then get_alert hw address s2 b2
              else (s2, b2)) as [s3 b3].
    reflexivity.
  - vm_compute. split; reflexivity.
Qed.

Lemma get_chip_status_within_batch_witness :
  let r := get_chip_status sim_hw 1 initial_batch por_chain in
  fst (fst r)
  = fst (fst (readRegister sim_hw 1 DEVICE_STATUS 1
                (bq_prepare_spi_message initial_batch) por_chain))
  /\ tidy (snd (fst r))
  /\ overrun (snd (fst r)) = overrun initial_batch
  /\ xfer_index (snd (fst r)) <= MAX_XFER - 1
  /\ byte_index (snd (fst r)) <= 46
  /\ (let w := get_chip_status sim_hw 1 initial_batch busy_chain in
      xfer_index (snd (fst w)) = MAX_XFER - 1 /\ byte_index (snd (fst w)) = 46).
Proof.
  apply (get_chip_status_within_batch sim_hw 1 initial_batch por_chain);
    reflexivity.
Defined.

(** X5. The acknowledgement of a fault is queued, not sent. When the
    status shows a fault and no alert, and the fault is not an
    over-voltage, [get_chip_status] puts two messages on the bus, the read
    of the status and the same read followed by the read of the fault
    register: neither carries a write. The two writes that acknowledge and
    clear the fault stay pending in the batch, and the next
    [bq_prepare_spi_message] drops them. *)
Theorem get_chip_status_fault_unacknowledged {B : Type}
    (hw : B -> list wire_xfer -> B * Z * list (list Z))
    (address : Z) (s : batch) (b : B) :
  length (xfer s) = Z.to_nat MAX_XFER ->
  length (tx_buff s) = Z.to_nat SPI_BUFF_SIZE ->
  let s0 := bq_prepare_spi_message s in
  let r1 := readRegister hw address DEVICE_STATUS 1 s0 b in
  let r2 := readRegister hw address FAULT_STATUS 1 (snd (fst r1)) (snd r1) in
  let val := fst (fst r1) in
  let fault := fst (fst r2) in
  0 <= val -> Z.land val DS_FAULT <> 0 -> Z.land val DS_ALERT = 0 ->
  Z.land fault FS_COV = 0 ->
  let f1 := read_frame address DEVICE_STATUS 1 s0 in
  let f2 := read_frame address FAULT_STATUS 1 (snd (fst r1)) in
  exists s',
    get_chip_status (recording hw) address s (b, [])
    = (val, s', (snd r2, [[f1]; [f1; f2]]))
    /\ wire s'
       = [f1; f2;
          {| wx_tx := write_frame address FAULT_STATUS fault; wx_rx := false |};
          {| wx_tx := write_frame address FAULT_STATUS 0; wx_rx := false |}]
    /\ overrun s' = overrun s
    /\ wire (bq_prepare_spi_message s') = [].
Proof.
  intros Hx Ht s0 r1 r2 val fault Hval Hf Ha Hc f1 f2.
  pose proof (tidy_prepare s Hx Ht) as T0. fold s0 in T0.
  assert (X0 : xfer_index s0 = -1) by reflexivity.
  assert (Y0 : byte_index s0 = 0) by reflexivity.
  assert (W0 : wire s0 = []) by reflexivity.
  assert (O0 : overrun s0 = overrun s) by reflexivity.
  destruct (readRegister_run hw address DEVICE_STATUS 1 s0 b T0)
    as (s1 & E1 & T1 & W1 & X1 & Y1 & O1);
    [rewrite X0; unfold MAX_XFER; lia|left; reflexivity
    |rewrite Y0; unfold SPI_BUFF_SIZE; lia|].
  rewrite W0 in W1. cbn [app] in W1. fold f1 in W1.
  destruct (readRegister_run hw address FAULT_STATUS 1 s1 (snd r1) T1)
    as (s2 & E2 & T2 & W2 & X2 & Y2 & O2);
    [rewrite X1, X0; unfold MAX_XFER; lia|left; reflexivity
    |rewrite Y1, Y0; unfold SPI_BUFF_SIZE; lia|].
  assert (Hs1 : snd (fst r1) = s1) by (unfold r1; rewrite E1; reflexivity).
  rewrite W1 in W2. cbn [app] in W2. rewrite <- Hs1 in W2. fold f2 in W2.
  destruct (writeRegister_tidy address FAULT_STATUS fault s2 T2)
    as (s3 & E3 & T3 & W3 & X3 & Y3 & O3 & _);
    [unfold MAX_XFER; lia|unfold SPI_BUFF_SIZE; lia|].
  destruct (writeRegister_tidy address FAULT_STATUS 0 s3 T3)
    as (s4 & E4 & T4 & W4 & X4 & Y4 & O4 & _);
    [unfold MAX_XFER; lia|unfold SPI_BUFF_SIZE; lia|].
  exists s4. split; [|split; [|split; [congruence|reflexivity]]].
  - unfold get_chip_status. fold s0.
    rewrite readRegister_recording
      by (try exact T0; try (left; reflexivity);
          rewrite ?X0, ?Y0; unfold MAX_XFER, SPI_BUFF_SIZE; lia).
    fold r1. fold val. rewrite Hs1.
    assert (Hneg : (val <? 0) = false) by (apply Z.ltb_ge; exact Hval).
    rewrite Hneg.
    assert (Hfb : (Z.land val DS_FAULT =? 0) = false) by (apply Z.eqb_neq; exact Hf).
    assert (Hab : (Z.land val DS_ALERT =? 0) = true) by (apply Z.eqb_eq; exact Ha).
    rewrite Hfb, Hab. cbn [negb].
    unfold get_fault.
    rewrite readRegister_recording
      by (try exact T1; try (left; reflexivity);
          rewrite ?X1, ?Y1, ?X0, ?Y0; unfold MAX_XFER, SPI_BUFF_SIZE; lia).
    rewrite !readRegister_u8, read_frame_u8, writeRegister_u8.
    replace (readRegister hw address FAULT_STATUS 1 s1 (snd r1)) with r2
      by (unfold r2; rewrite Hs1; reflexivity).
    fold fault.
    assert (Hs2 : snd (fst r2) = s2) by (unfold r2; rewrite Hs1, E2; reflexivity).
    rewrite Hs2, E3, writeRegister_u8, E4.
    assert (Hcb : (Z.land fault FS_COV =? 0) = true) by (apply Z.eqb_eq; exact Hc).
    rewrite Hcb. cbn [negb]. rewrite W0, W1. cbn [app].
    rewrite <- Hs1. reflexivity.
  - rewrite W4, W3, W2. reflexivity.
Qed.

Lemma get_chip_status_fault_unacknowledged_witness :
  let s0 := bq_prepare_spi_message initial_batch in
  let r1 := readRegister sim_hw 1 DEVICE_STATUS 1 s0 por_chain in
  let r2 := readRegister sim_hw 1 FAULT_STATUS 1 (snd (fst r1)) (snd r1) in
  let f1 := read_frame 1 DEVICE_STATUS 1 s0 in
  let f2 := read_frame 1 FAULT_STATUS 1 (snd (fst r1)) in
  exists s',
    get_chip_status (recording sim_hw) 1 initial_batch (por_chain, [])
    = (fst (fst r1), s', (snd r2, [[f1]; [f1; f2]]))
    /\ wire s'
       = [f1; f2;
          {| wx_tx := write_frame 1 FAULT_STATUS (fst (fst r2)); wx_rx := false |};
          {| wx_tx := write_frame 1 FAULT_STATUS 0; wx_rx := false |}]
    /\ overrun s' = overrun initial_batch
    /\ wire (bq_prepare_spi_message s') = [].
Proof.
  apply (get_chip_status_fault_unacknowledged sim_hw 1 initial_batch por_chain).
  - reflexivity.
  - reflexivity.
  - vm_compute. discriminate.
  - vm_compute. discriminate.
  - vm_compute. reflexivity.
  - vm_compute. reflexivity.
Defined.

(** ** Discovery ends, and stops at the configured count *)

(** X6. Whatever the bus answers, [search_pack] returns (any fuel from
    twice the device count plus one suffices) when [devices_used] is at
    most 255; the count it returns is never above [devices_used] (never
    above 1 when that is 0 or less), and nothing is stored outside the
    batch. *)
Theorem search_pack_terminates {B : Type}
    (hw : B -> list wire_xfer -> B * Z * list (list Z))
    (fuel : nat) (used : Z) (s : batch) (b : B) :
  length (xfer s) = Z.to_nat MAX_XFER ->
  length (tx_buff s) = Z.to_nat SPI_BUFF_SIZE ->
  used <= 255 ->
  (2 * Z.to_nat (Z.max 1 used) + 1 <= fuel)%nat ->
  exists v s' b',
    search_pack hw fuel used s b = Some (v, s', b')
    /\ 0 <= v <= Z.max 1 used
    /\ tidy s' /\ overrun s' = overrun s.
Proof.
  intros Hx Ht Hu Hfuel. unfold search_pack.
  destruct (search_outer_total hw (Z.to_nat (Z.max 1 used)) used 0 fuel
              (bq_prepare_spi_message s) b (overrun s))
    as (v & s' & b' & E & T & O & Hv); try lia.
  { apply within_prepare; assumption. }
  exists v, s', b'. split; [exact E|]. split; [exact Hv|]. split; [exact T|exact O].
Qed.

Lemma search_pack_terminates_witness :
  exists v s' b',
    search_pack sim_hw 9 4 initial_batch faulty_chain = Some (v, s', b')
    /\ 0 <= v <= Z.max 1 4
    /\ tidy s' /\ overrun s' = overrun initial_batch.
Proof.
  apply (search_pack_terminates sim_hw 9 4 initial_batch faulty_chain).
  - reflexivity.
  - reflexivity.
  - lia.
  - vm_compute. lia.
Defined.

(** X7. On a chain of healthy devices that is longer than [devices_used],
    [search_pack] stops at [devices_used]: it returns that number, gives
    the first [devices_used] devices the addresses 1, 2, ... and leaves the
    others without address. *)
Theorem search_pack_capped (used : Z) (s : batch) (fuel : nat)
    (good : list sim_device) :
  length (xfer s) = Z.to_nat MAX_XFER ->
  length (tx_buff s) = Z.to_nat SPI_BUFF_SIZE ->
  Forall healthy good ->
  Z.of_nat (length good) <= MAX_BQ_DEVICES ->
  1 <= used <= Z.of_nat (length good) ->
  (2 * Z.to_nat used <= fuel)%nat ->
  exists s' ds',
    search_pack sim_hw fuel used s good = Some (used, s', ds')
    /\ map sd_addr ds' = seqZ 1 used ++ repeat 0 (length good - Z.to_nat used).
Proof.
  intros Hx Ht Hgood Hsize Hused Hfuel.
  assert (Hprep : prepared (bq_prepare_spi_message s)).
  { split; [apply tidy_prepare; assumption|]. repeat split. }
  destruct (search_outer_capped good (Z.to_nat used) 0 used fuel
              (bq_prepare_spi_message s) good Hgood Hsize Hprep eq_refl)
    as (s' & E & _); try lia.
  change (Z.of_nat 0) with 0 in E.
  exists s'. eexists. split; [exact E|].
  unfold addressed. rewrite addresses_readdress.
  replace (Z.of_nat (Z.to_nat used `min` length good)) with used by lia.
  reflexivity.
Qed.

Lemma search_pack_capped_witness :
  exists s' ds',
    search_pack sim_hw 4 2 initial_batch fresh_chain = Some (2, s', ds')
    /\ map sd_addr ds' = seqZ 1 2 ++ repeat 0 (length fresh_chain - Z.to_nat 2).
Proof.
  apply (search_pack_capped 2 initial_batch 4 fresh_chain).
  - reflexivity.
  - reflexivity.
  - repeat constructor.
  - vm_compute. discriminate.
  - vm_compute. split; discriminate.
  - vm_compute. lia.
Defined.

(** ** Telemetry stays within the batch *)

(** X8. Whatever the bus answers, [get_voltages] returns (fuel 7 covers the
    polling loop): either 0 with nothing written, or the length
    [3 + total_cell_count + 8 * devices_used] with that many bytes written;
    nothing is stored outside the batch. *)
Theorem get_voltages_within_batch {B : Type}
    (hw : B -> list wire_xfer -> B * Z * list (list Z))
    (fuel : nat) (pk : pack) (s : batch) (b : B) :
  length (xfer s) = Z.to_nat MAX_XFER ->
  length (tx_buff s) = Z.to_nat SPI_BUFF_SIZE ->
  (7 <= fuel)%nat ->
  exists n p s' b',
    get_voltages hw fuel pk s b = Some (n, p, s', b')
    /\ tidy s' /\ overrun s' = overrun s
    /\ (n = 0 /\ p = []
        \/ n = 3 + Z.max 0 (total_cell_count pk) + 8 * Z.max 0 (devices_used pk)
           /\ Z.of_nat (length p) = n).
Proof.
  intros Hx Ht Hfuel.
  destruct (get_voltages_terminates hw fuel pk s b Hfuel) as ([[[n p] s'] b'] & E).
  exists n, p, s', b'. split; [exact E|].
  apply (get_voltages_outcome hw fuel pk s b n p s' b' Hx Ht E).
Qed.

Lemma get_voltages_within_batch_witness :
  exists n p s' b',
    get_voltages sim_hw 7 default_pack initial_batch never_ready_chain
    = Some (n, p, s', b')
    /\ tidy s' /\ overrun s' = overrun initial_batch
    /\ (n = 0 /\ p = []
        \/ n = 3 + Z.max 0 (total_cell_count default_pack)
               + 8 * Z.max 0 (devices_used default_pack)
           /\ Z.of_nat (length p) = n).
Proof.
  apply (get_voltages_within_batch sim_hw 7 default_pack initial_batch
           never_ready_chain).
  - reflexivity.
  - reflexivity.
  - lia.
Defined.

(** ** Telemetry of a chain that is ready *)

Lemma length_sim_device_bytes ds pk l :
  length (concat (map (sim_device_bytes ds pk) l)) = (8 * length l)%nat.
Proof.
  induction l as [|i l IH]; [reflexivity|].
  cbn [map concat]. rewrite length_app, IH. unfold sim_device_bytes.
  cbn [length]. lia.
Qed.

(** X9. On a chain of addressed devices that answer with a good CRC, the
    first of which reports data ready, [get_voltages] produces the cell
    count, for every entry of the cell table the voltage byte of the
    reading of that tap, the device count, and for every device its
    declared cell count, the two temperature bytes and the five status
    registers, followed by the CRC-8 of all that; the chain is left as it
    was and nothing is stored outside the batch. *)
Theorem get_voltages_ready_chain (fuel : nat) (pk : pack) (s : batch)
    (ds : list sim_device) :
  length (xfer s) = Z.to_nat MAX_XFER ->
  length (tx_buff s) = Z.to_nat SPI_BUFF_SIZE ->
  map sd_addr ds = seqZ 1 (Z.of_nat (length ds)) ->
  Forall (fun d => u8 (sd_crc_flip d) = 0) ds ->
  1 <= Z.of_nat (length ds) < 128 ->
  Z.land (sim_reading ds 1 DEVICE_STATUS 1) DRDY <> 0 ->
  0 <= devices_used pk <= Z.of_nat (length ds) ->
  total_cell_count pk = Z.of_nat (length (cells pk)) ->
  Forall (fun c => 1 <= chip c <= Z.of_nat (length ds) /\ is_byte (index c))
         (cells pk) ->
  (1 <= fuel)%nat ->
  let body := [u8 (total_cell_count pk)] ++ map (sim_cell_byte ds) (cells pk)
              ++ [u8 (devices_used pk)]
              ++ concat (map (sim_device_bytes ds pk) (seqZ 1 (devices_used pk))) in
  exists s',
    get_voltages sim_hw fuel pk s ds
    = Some (3 + total_cell_count pk + 8 * devices_used pk,
            body ++ [crc8_spec body], s', ds)
    /\ overrun s' = overrun s.
Proof.
  intros Hx Ht Hord Hcrc Hsize Hrdy Hdu Htcc Hcells Hfuel body.
  destruct Hsize as [Hone Hsize]. destruct Hdu as [Hdu0 Hdu].
  destruct (telemetry_sim_run ds Hord Hcrc Hsize fuel pk s Hx Ht
              Hone Hrdy Hdu Htcc Hcells Hfuel)
    as (s' & E & _ & O).
  fold body in E. exists s'. split; [|exact O].
  rewrite E. do 4 f_equal.
  unfold body. rewrite !length_app, length_map. cbn [length].
  rewrite length_sim_device_bytes, length_seqZ. lia.
Qed.

Lemma get_voltages_ready_chain_witness :
  let body := [u8 (total_cell_count ready_pack)]
              ++ map (sim_cell_byte ready_chain) (cells ready_pack)
              ++ [u8 (devices_used ready_pack)]
              ++ concat (map (sim_device_bytes ready_chain ready_pack)
                             (seqZ 1 (devices_used ready_pack))) in
  exists s',
    get_voltages sim_hw 1 ready_pack initial_batch ready_chain
    = Some (3 + total_cell_count ready_pack + 8 * devices_used ready_pack,
            body ++ [crc8_spec body], s', ready_chain)
    /\ overrun s' = overrun initial_batch.
Proof.
  apply (get_voltages_ready_chain 1 ready_pack initial_batch ready_chain).
  - reflexivity.
  - reflexivity.
  - reflexivity.
  - repeat constructor.
  - vm_compute. split; [discriminate|reflexivity].
  - vm_compute. discriminate.
  - vm_compute. split; discriminate.
  - reflexivity.
  - repeat constructor; vm_compute; congruence.
  - lia.
Defined.

(** ** Declared cell counts *)

Lemma sum_declared pk ds chips :
  (forall i, In i chips -> declared_cells pk i = chip_population ds i) ->
  sum_Z (map (declared_cells pk) chips)
  = Z.of_nat (length (List.filter (populated ds) (taps_of chips))).
Proof.
  intros H. rewrite <- population_sum. f_equal. apply map_ext_in. exact H.
Qed.

(** X10. The census replaces the declared cell count of every chip it
    visits by the number of taps it found populated, between 0 and 6, and
    leaves the other entries of [cells_per_device] alone; the declared
    counts of the visited chips then add up to [total_cell_count]. The
    chain is left as it was and nothing is stored outside the arrays. *)
Theorem census_declared_cells (count : Z) (pk : pack) (s : batch)
    (ds : list sim_device) :
  tidy s ->
  map sd_addr ds = seqZ 1 (Z.of_nat (length ds)) ->
  Forall (fun d => u8 (sd_crc_flip d) = 0) ds ->
  Z.of_nat (length ds) < 128 ->
  0 <= count <= Z.of_nat (length ds) ->
  count < Z.of_nat (length (cells_per_device pk)) ->
  let r := census sim_hw count pk s ds in
  let pk' := fst (fst r) in
  (forall i, 1 <= i <= count ->
     declared_cells pk' i = chip_population ds i /\ 0 <= declared_cells pk' i <= 6)
  /\ (forall i, 0 <= i -> ~ 1 <= i <= count ->
        declared_cells pk' i = declared_cells pk i)
  /\ sum_Z (map (declared_cells pk') (seqZ 1 count)) = total_cell_count pk'
  /\ devices_used pk' = devices_used pk
  /\ overrun (snd (fst r)) = overrun s
  /\ snd r = ds.
Proof.
  intros Ht Hord Hcrc Hsize Hcount Hlen r pk'.
  destruct (census_run ds Hord Hcrc Hsize count pk s Ht Hcount Hlen)
    as (pk1 & s1 & E & T1 & O1 & D1 & Cl & Tot & L1 & Hin & Hout).
  unfold pk', r. rewrite E. cbn [fst snd].
  split; [|split; [exact Hout|split; [|split; [exact D1|split; [exact O1|reflexivity]]]]].
  - intros i Hi. rewrite (Hin i Hi). split; [reflexivity|apply chip_population_range].
  - rewrite Tot, Cl. apply sum_declared. intros i Hi.
    apply Hin. apply list_elem_of_In, elem_of_seqZ in Hi. lia.
Qed.

Lemma census_declared_cells_witness :
  let r := census sim_hw 2 default_pack initial_batch ready_chain in
  let pk' := fst (fst r) in
  (forall i, 1 <= i <= 2 ->
     declared_cells pk' i = chip_population ready_chain i
     /\ 0 <= declared_cells pk' i <= 6)
  /\ (forall i, 0 <= i -> ~ 1 <= i <= 2 ->
        declared_cells pk' i = declared_cells default_pack i)
  /\ sum_Z (map (declared_cells pk') (seqZ 1 2)) = total_cell_count pk'
  /\ devices_used pk' = devices_used default_pack
  /\ overrun (snd (fst r)) = overrun initial_batch
  /\ snd r = ready_chain.
Proof.
  apply (census_declared_cells 2 default_pack initial_batch ready_chain).
  - exact tidy_initial.
  - reflexivity.
  - repeat constructor.
  - vm_compute. reflexivity.
  - vm_compute. split; discriminate.
  - vm_compute. reflexivity.
Defined.

(** ** Attach *)

(** X11. Attach on a chain of N healthy devices, N at most [devices_used]
    and at most 32: [bq_probe] returns 0; the devices hold the addresses
    1, ..., N; [devices_used] is N; the cell table lists the populated taps
    in chain order, [total_cell_count] is its length, every declared cell
    count is the populated count of its device and they add up to
    [total_cell_count]; nothing is stored outside the arrays. *)
Theorem bq_probe_attaches (CONFIG_CUV : Z) (fuel : nat) (pk : pack) (s : batch)
    (good : list sim_device) :
  Forall healthy good ->
  length (xfer s) = Z.to_nat MAX_XFER ->
  length (tx_buff s) = Z.to_nat SPI_BUFF_SIZE ->
  Z.of_nat (length good) <= devices_used pk <= MAX_BQ_DEVICES ->
  length (cells_per_device pk) = Z.to_nat (MAX_BQ_DEVICES + 1) ->
  (2 * Z.to_nat (Z.max 1 (devices_used pk)) + 2 <= fuel)%nat ->
  let N := Z.of_nat (length good) in
  exists pk' s' ds',
    bq_probe sim_hw CONFIG_CUV fuel pk s good = Some (0, pk', s', ds')
    /\ map sd_addr ds' = seqZ 1 N
    /\ devices_used pk' = N
    /\ cells pk' = List.filter (populated good) (all_taps N)
    /\ total_cell_count pk' = Z.of_nat (length (cells pk'))
    /\ (forall i, 1 <= i <= N -> declared_cells pk' i = chip_population good i)
    /\ sum_Z (map (declared_cells pk') (seqZ 1 N)) = total_cell_count pk'
    /\ overrun s' = overrun s.
Proof.
  intros Hgood Hx Ht Hused Hcpd Hfuel N.
  destruct (bq_probe_sim_run CONFIG_CUV good Hgood ltac:(lia) fuel pk s Hx Ht Hused)
    as (pk' & s' & E & T & O & D & Cl & Tot & L & Hin & Hout).
  { rewrite Hcpd. unfold MAX_BQ_DEVICES in *. lia. }
  { exact Hfuel. }
  exists pk', s', (addressed (length good) good).
  split; [exact E|]. split; [apply addressed_all|]. split; [exact D|].
  split; [exact Cl|]. split; [exact Tot|]. split; [exact Hin|]. split; [|exact O].
  rewrite Tot, Cl. apply sum_declared. intros i Hi.
  apply Hin. apply list_elem_of_In, elem_of_seqZ in Hi. lia.
Qed.

Lemma bq_probe_attaches_witness :
  exists pk' s' ds',
    bq_probe sim_hw 0x44 10 default_pack initial_batch fresh_chain
    = Some (0, pk', s', ds')
    /\ map sd_addr ds' = seqZ 1 (Z.of_nat (length fresh_chain))
    /\ devices_used pk' = Z.of_nat (length fresh_chain)
    /\ cells pk'
       = List.filter (populated fresh_chain) (all_taps (Z.of_nat (length fresh_chain)))
    /\ total_cell_count pk' = Z.of_nat (length (cells pk'))
    /\ (forall i, 1 <= i <= Z.of_nat (length fresh_chain) ->
          declared_cells pk' i = chip_population fresh_chain i)
    /\ sum_Z (map (declared_cells pk') (seqZ 1 (Z.of_nat (length fresh_chain))))
       = total_cell_count pk'
    /\ overrun s' = overrun initial_batch.
Proof.
  apply (bq_probe_attaches 0x44 10 default_pack initial_batch fresh_chain).
  - repeat constructor.
  - reflexivity.
  - reflexivity.
  - vm_compute. split; discriminate.
  - reflexivity.
  - vm_compute. lia.
Defined.

(** ** Reading the device *)

Section ReadingRun.

Context {B : Type}.
Variable hw : B -> list wire_xfer -> B * Z * list (list Z).

Lemma bq_read_run fuel pk count uncopied s b n p s1 b1 :
  get_voltages hw fuel pk s b = Some (n, p, s1, b1) ->
  bq_read hw fuel pk true count 0 false uncopied s b
  = Some (if n =? 0 then
            {| rd_status := 0; rd_bytes := []; rd_offp := 0;
               rd_overrun := USER_BUFF_SIZE <? Z.of_nat (length p) |}
          else if negb (uncopied =? 0) then
            {| rd_status := - EFAULT;
               rd_bytes := take (Z.to_nat (Z.min n count - uncopied)) p;
               rd_offp := 0;
               rd_overrun := USER_BUFF_SIZE <? Z.of_nat (length p) |}
          else
            {| rd_status := Z.min n count;
               rd_bytes := take (Z.to_nat (Z.min n count)) p;
               rd_offp := 0 + Z.min n count;
               rd_overrun := USER_BUFF_SIZE <? Z.of_nat (length p) |},
          s1, b1).
Proof.
  intros E. unfold bq_read. cbn [negb Z.ltb Z.compare]. rewrite E.
  assert (Hmin : (if n <? count then n else count) = Z.min n count).
  { destruct (n <? count) eqn:H; [apply Z.ltb_lt in H|apply Z.ltb_ge in H]; lia. }
  rewrite Hmin.
  destruct (n =? 0); [reflexivity|].
  destruct (negb (uncopied =? 0)); reflexivity.
Qed.

End ReadingRun.



(** ** The buffer of the character device *)

Lemma length_taps_of chips : length (taps_of chips) = (6 * length chips)%nat.
Proof.
  induction chips as [|i chips IH]; [reflexivity|].
  cbn [taps_of flat_map]. fold (taps_of chips).
  rewrite length_app, length_map, IH. change (length tap_registers) with 6%nat.
  cbn [length]. lia.
Qed.

Lemma length_populated_taps ds count :
  0 <= count ->
  Z.of_nat (length (List.filter (populated ds) (all_taps count))) <= 6 * count.
Proof.
  intros Hc.
  pose proof (filter_length_le (populated ds) (all_taps count)) as H.
  unfold all_taps in *. rewrite length_taps_of, length_seqZ in H.
  unfold filter in H. lia.
Qed.

(** X13. [get_voltages] writes [3 + total_cell_count + 8 * devices_used]
    bytes to [user_buff] without looking at its size, [USER_BUFF_SIZE]: a
    read that acquires data writes past the end of [user_buff] exactly when
    that number exceeds 128. It cannot with up to eight devices of up to
    six cells; it does with nine devices of six cells. *)
Theorem bq_read_user_buff {B : Type}
    (hw : B -> list wire_xfer -> B * Z * list (list Z))
    (fuel : nat) (pk : pack) (count uncopied : Z) (s : batch) (b : B) :
  length (xfer s) = Z.to_nat MAX_XFER ->
  length (tx_buff s) = Z.to_nat SPI_BUFF_SIZE ->
  (7 <= fuel)%nat ->
  let size := 3 + Z.max 0 (total_cell_count pk) + 8 * Z.max 0 (devices_used pk) in
  exists n p out s1 b1,
    get_voltages hw fuel pk s b = Some (n, p, s1, b1)
    /\ bq_read hw fuel pk true count 0 false uncopied s b = Some (out, s1, b1)
    /\ (n = 0 -> rd_overrun out = false)
    /\ (n <> 0 -> rd_overrun out = (USER_BUFF_SIZE <? size))
    /\ (devices_used pk <= 8 -> total_cell_count pk <= 6 * devices_used pk ->
        rd_overrun out = false)
    /\ match bq_read sim_hw 1 crowded_pack true 200 0 false 0 initial_batch
               crowded_chain with
       | Some (o, _, _) => rd_status o = 129 /\ rd_overrun o = true
       | None => False
       end.
Proof.
  intros Hx Ht Hfuel size.
  destruct (get_voltages_terminates hw fuel pk s b Hfuel) as ([[[n p] s1] b1] & E).
  destruct (get_voltages_outcome hw fuel pk s b n p s1 b1 Hx Ht E) as (_ & _ & Hn).
  exists n, p. eexists. exists s1, b1.
  split; [exact E|].
  split; [apply (bq_read_run hw fuel pk count uncopied s b n p s1 b1 E)|].
  assert (Hover : n <> 0 ->
            (USER_BUFF_SIZE <? Z.of_nat (length p)) = (USER_BUFF_SIZE <? size)).
  { intros Hne. destruct Hn as [[-> _]|[Hsz Hlen]]; [contradiction|].
    rewrite Hlen, Hsz. reflexivity. }
  split; [|split; [|split]].
  - intros ->. cbn [Z.eqb rd_overrun]. destruct Hn as [[_ ->]|[_ Hlen]].
    + reflexivity.
    + apply Z.ltb_ge. unfold USER_BUFF_SIZE. lia.
  - intros Hne. pose proof Hne as Hne'. apply Z.eqb_neq in Hne'. rewrite Hne'.
    destruct (negb (uncopied =? 0)); cbn [rd_overrun]; apply Hover; exact Hne.
  - intros Hd Hc.
    assert (Hfit : (USER_BUFF_SIZE <? Z.of_nat (length p)) = false).
    { apply Z.ltb_ge. unfold USER_BUFF_SIZE.
      destruct Hn as [[_ ->]|[Hsz Hlen]]; [cbn; lia|]. rewrite Hlen, Hsz. lia. }
    destruct (n =? 0); [exact Hfit|].
    destruct (negb (uncopied =? 0)); exact Hfit.
  - vm_compute. split; reflexivity.
Qed.

Lemma bq_read_user_buff_witness :
  exists n p out s1 b1,
    get_voltages sim_hw 7 ready_pack initial_batch ready_chain = Some (n, p, s1, b1)
    /\ bq_read sim_hw 7 ready_pack true 64 0 false 0 initial_batch ready_chain
       = Some (out, s1, b1)
    /\ (n = 0 -> rd_overrun out = false)
    /\ (n <> 0 ->
        rd_overrun out
        = (USER_BUFF_SIZE <? 3 + Z.max 0 (total_cell_count ready_pack)
                                + 8 * Z.max 0 (devices_used ready_pack)))
    /\ (devices_used ready_pack <= 8 ->
        total_cell_count ready_pack <= 6 * devices_used ready_pack ->
        rd_overrun out = false)
    /\ match bq_read sim_hw 1 crowded_pack true 200 0 false 0 initial_batch
               crowded_chain with
       | Some (o, _, _) => rd_status o = 129 /\ rd_overrun o = true
       | None => False
       end.
Proof.
  apply (bq_read_user_buff sim_hw 7 ready_pack 64 0 initial_batch ready_chain).
  - reflexivity.
  - reflexivity.
  - lia.
Defined.

(** ** Attach, then read *)

Lemma sim_payload_set_addr a d r count :
  (forall k, 0 <= k < count -> r + k <> ADDRESS_CONTROL) ->
  sim_payload (set_addr a d) r count = sim_payload d r count.
Proof.
  intros H. unfold sim_payload. apply map_ext_in. intros k Hk.
  apply list_elem_of_In, elem_of_seqZ in Hk.
  unfold reg_value. rewrite (eqb_false_ne _ _ (H k ltac:(lia))). reflexivity.
Qed.

Lemma sim_reading_readdress base j ds i r count :
  (forall k, 0 <= k < count -> r + k <> ADDRESS_CONTROL) ->
  sim_reading (readdress base j ds) i r count = sim_reading ds i r count.
Proof.
  intros H. unfold sim_reading. rewrite lookup_readdress.
  destruct (ds !! Z.to_nat (i - 1)) as [d|]; [|reflexivity].
  cbn [fmap option_fmap option_map]. rewrite sim_payload_set_addr by exact H.
  reflexivity.
Qed.

Lemma sim_device_bytes_readdress base j ds pk i :
  sim_device_bytes (readdress base j ds) pk i = sim_device_bytes ds pk i.
Proof.
  unfold sim_device_bytes.
  rewrite !sim_reading_readdress; [reflexivity|..];
    intros k Hk; unfold ADDRESS_CONTROL, COV_FAULT, CUV_FAULT, ALERT_STATUS,
      FAULT_STATUS, DEVICE_STATUS, TEMPERATURE1, TEMPERATURE2; lia.
Qed.

(** X14. Attach, then read, on a chain of N healthy devices, N from 1 to 8,
    the first of which reports data ready: [bq_probe] returns 0, and a read
    with room for [3 + T + 8 N] bytes returns that many, T being the number
    of populated taps: T, the voltage byte of every populated tap in chain
    order, N, and for every device its populated count, two temperature
    bytes and five status registers, then the CRC-8 of all that. Nothing is
    written past [user_buff] or outside the batch. *)
Theorem attach_then_read (CONFIG_CUV : Z) (fuel fuel2 : nat) (pk : pack)
    (s : batch) (good : list sim_device) (count : Z) :
  Forall healthy good ->
  length (xfer s) = Z.to_nat MAX_XFER ->
  length (tx_buff s) = Z.to_nat SPI_BUFF_SIZE ->
  1 <= Z.of_nat (length good) <= 8 ->
  Z.of_nat (length good) <= devices_used pk <= MAX_BQ_DEVICES ->
  length (cells_per_device pk) = Z.to_nat (MAX_BQ_DEVICES + 1) ->
  (2 * Z.to_nat (Z.max 1 (devices_used pk)) + 2 <= fuel)%nat ->
  (1 <= fuel2)%nat ->
  Z.land (sim_reading good 1 DEVICE_STATUS 1) DRDY <> 0 ->
  let N := Z.of_nat (length good) in
  let taps := List.filter (populated good) (all_taps N) in
  let T := Z.of_nat (length taps) in
  3 + T + 8 * N <= count ->
  exists pk' s' ds' out s'',
    bq_probe sim_hw CONFIG_CUV fuel pk s good = Some (0, pk', s', ds')
    /\ bq_read sim_hw fuel2 pk' true count 0 false 0 s' ds' = Some (out, s'', ds')
    /\ (let body := [T] ++ map (sim_cell_byte good) taps ++ [N]
                    ++ concat (map (sim_device_bytes good pk') (seqZ 1 N)) in
        rd_bytes out = body ++ [crc8_spec body])
    /\ (forall i, 1 <= i <= N -> declared_cells pk' i = chip_population good i)
    /\ rd_status out = 3 + T + 8 * N
    /\ rd_offp out = 3 + T + 8 * N
    /\ rd_overrun out = false
    /\ overrun s'' = overrun s.
Proof.
  intros Hgood Hx Ht HN Hused Hcpd Hfuel Hfuel2 Hrdy N taps T Hcount.
  unfold MAX_BQ_DEVICES in *.
  destruct (bq_probe_sim_run CONFIG_CUV good Hgood ltac:(unfold MAX_BQ_DEVICES; lia)
              fuel pk s Hx Ht Hused)
    as (pk' & s' & E & T' & O' & D & Cl & Tot & L & Hin & Hout).
  { rewrite Hcpd. lia. }
  { exact Hfuel. }
  set (ds' := addressed (length good) good) in *.
  assert (Hlen' : length ds' = length good)
    by (unfold ds', addressed; apply length_readdress).
  assert (Hord' : map sd_addr ds' = seqZ 1 (Z.of_nat (length ds')))
    by (rewrite Hlen'; apply addressed_all).
  assert (Hcrc' : Forall (fun d => u8 (sd_crc_flip d) = 0) ds').
  { unfold ds', addressed. apply Forall_readdress; [intros a d H; exact H|].
    apply healthy_crc. exact Hgood. }
  fold N in D, Cl, Hin. fold taps in Cl.
  assert (HT : 0 <= T <= 6 * N).
  { split; [unfold T; lia|]. apply length_populated_taps. lia. }
  destruct (telemetry_sim_run ds' Hord' Hcrc' ltac:(rewrite Hlen'; lia)
              fuel2 pk' s' ltac:(apply T') ltac:(apply T'))
    as (s'' & Eg & _ & O''); try assumption.
  { rewrite Hlen'. lia. }
  { unfold ds', addressed. rewrite sim_reading_readdress; [exact Hrdy|].
    intros k Hk. unfold DEVICE_STATUS, ADDRESS_CONTROL. lia. }
  { rewrite Hlen', D. lia. }
  { rewrite Cl. apply Forall_forall. intros [i j] Hc.
    apply list_elem_of_In, filter_In in Hc as [Hc _].
    apply in_all_taps in Hc as [Hi Hj]. apply tap_register_range in Hj.
    cbn [chip index]. rewrite Hlen'. unfold is_byte. fold N. lia. }
  rewrite Tot, D, Cl in Eg. fold T in Eg.
  assert (Hcellsb : map (sim_cell_byte ds') taps = map (sim_cell_byte good) taps).
  { apply map_ext_in. intros [i j] Hc.
    apply filter_In in Hc as [Hc _].
    apply in_all_taps in Hc as [Hi Hj]. apply tap_register_range in Hj.
    unfold sim_cell_byte, ds', addressed. cbn [chip index].
    rewrite sim_reading_readdress; [reflexivity|].
    intros k Hk. unfold ADDRESS_CONTROL. lia. }
  assert (Hdevb : map (sim_device_bytes ds' pk') (seqZ 1 N)
                  = map (sim_device_bytes good pk') (seqZ 1 N)).
  { apply map_ext. intros i. apply sim_device_bytes_readdress. }
  rewrite Hcellsb, Hdevb in Eg.
  rewrite (u8_id T), (u8_id N) in Eg by (unfold is_byte; lia).
  set (body := [T] ++ map (sim_cell_byte good) taps ++ [N]
               ++ concat (map (sim_device_bytes good pk') (seqZ 1 N))) in *.
  assert (Hbl : Z.of_nat (length body) + 1 = 3 + T + 8 * N).
  { unfold body. rewrite !length_app, length_map, length_sim_device_bytes,
      length_seqZ. cbn [length]. unfold T. lia. }
  rewrite Hbl in Eg.
  exists pk', s', ds'. eexists. exists s''.
  split; [exact E|].
  split; [apply (bq_read_run sim_hw fuel2 pk' count 0 s' ds' _ _ s'' ds' Eg)|].
  assert (Hnz : (3 + T + 8 * N =? 0) = false) by (apply Z.eqb_neq; lia).
  rewrite Hnz. cbn [Z.eqb negb rd_bytes rd_status rd_offp rd_overrun].
  assert (Hpl : Z.of_nat (length (body ++ [crc8_spec body])) = 3 + T + 8 * N)
    by (rewrite length_app; cbn [length]; lia).
  split; [|split; [exact Hin|split; [lia|split; [lia|split; [|congruence]]]]].
  - cbv zeta. fold body.
    rewrite take_ge by lia. reflexivity.
  - apply Z.ltb_ge. unfold USER_BUFF_SIZE. lia.
Qed.

Lemma attach_then_read_witness :
  exists pk' s' ds' out s'',
    bq_probe sim_hw 0x44 10 default_pack initial_batch fresh_chain
    = Some (0, pk', s', ds')
    /\ bq_read sim_hw 1 pk' true 128 0 false 0 s' ds' = Some (out, s'', ds')
    /\ rd_bytes out
       = [8; 234; 214; 234; 214; 234; 214; 234; 214; 4;
          2; 17; 239; 129; 0; 0; 0; 0; 2; 17; 239; 129; 0; 0; 0; 0;
          2; 17; 239; 129; 0; 0; 0; 0; 2; 17; 239; 129; 0; 0; 0; 0; 172]
    /\ rd_status out = 43
    /\ rd_overrun out = false.
Proof.
  destruct (attach_then_read 0x44 10 1 default_pack initial_batch fresh_chain 128)
    as (pk' & s' & ds' & out & s'' & E1 & E2 & Hb & Hd & Hs & _ & Ho & _).
  - repeat constructor.
  - reflexivity.
  - reflexivity.
  - vm_compute. split; discriminate.
  - vm_compute. split; discriminate.
  - reflexivity.
  - vm_compute. lia.
  - lia.
  - vm_compute. discriminate.
  - vm_compute. discriminate.
  - exists pk', s', ds', out, s''.
    split; [exact E1|]. split; [exact E2|].
    split; [|split; [rewrite Hs; vm_compute; reflexivity|exact Ho]].
    cbv zeta in Hb. rewrite Hb.
    unfold sim_device_bytes. change (seqZ 1 (Z.of_nat (length fresh_chain)))
      with [1; 2; 3; 4].
    cbn [map concat app].
    fold (declared_cells pk' 1) (declared_cells pk' 2) (declared_cells pk' 3)
         (declared_cells pk' 4).
    rewrite !Hd by (vm_compute; split; discriminate).
    vm_compute. reflexivity.
Defined.

(** ** Temperature scaling *)

(** X15. The temperature byte, read as two's complement, is
    [(raw - 2048) / 120] with the division truncating toward zero, for
    every raw reading up to 17407 (-17 to 127 degrees); it is 0 exactly for
    the 239 readings from 1929 to 2167; at 17408 it wraps to -128. A read
    that failed with [- EFAULT] gives the byte of a raw reading of 0. *)
Theorem temperature_byte_signed (raw : Z) :
  0 <= raw <= 17407 ->
  s8 (temperature_byte raw) = Z.quot (raw - 2048) 120
  /\ -17 <= Z.quot (raw - 2048) 120 <= 127
  /\ (temperature_byte raw = 0 <-> 1929 <= raw <= 2167)
  /\ s8 (temperature_byte 17408) = -128
  /\ temperature_byte (- EFAULT) = temperature_byte 0.
Proof.
  intros Hraw. unfold temperature_byte.
  rewrite (int32_small (raw - 2048)) by lia.
  set (q := Z.quot (raw - 2048) 120).
  assert (Hq : -17 <= q <= 127 /\ (q = 0 <-> 1929 <= raw <= 2167)).
  { unfold q. pose proof (Z.quot_rem' (raw - 2048) 120) as Hqr.
    destruct (Z_le_gt_dec 2048 raw) as [Hge|Hlt].
    - pose proof (Z.rem_bound_pos (raw - 2048) 120 ltac:(lia) ltac:(lia)). lia.
    - pose proof (Z.rem_bound_pos_neg (raw - 2048) 120 ltac:(lia) ltac:(lia)). lia. }
  destruct Hq as [Hrange Hzero].
  assert (Hu : u8 q = if q <? 0 then q + 256 else q).
  { unfold u8. destruct (q <? 0) eqn:E;
      [apply Z.ltb_lt in E|apply Z.ltb_ge in E].
    - symmetry. apply (Z.mod_unique q 256 (-1)); lia.
    - apply Z.mod_small. lia. }
  split; [|split; [exact Hrange|split; [|split; vm_compute; reflexivity]]].
  - rewrite Hu. unfold s8. destruct (q <? 0) eqn:E;
      [apply Z.ltb_lt in E|apply Z.ltb_ge in E].
    + assert (H : (128 <=? q + 256) = true) by (apply Z.leb_le; lia).
      rewrite H. lia.
    + assert (H : (128 <=? q) = false) by (apply Z.leb_gt; lia).
      rewrite H. reflexivity.
  - rewrite Hu. rewrite <- Hzero. destruct (q <? 0) eqn:E;
      [apply Z.ltb_lt in E|apply Z.ltb_ge in E]; lia.
Qed.

Lemma temperature_byte_signed_witness :
  s8 (temperature_byte 4096) = Z.quot (4096 - 2048) 120
  /\ -17 <= Z.quot (4096 - 2048) 120 <= 127
  /\ (temperature_byte 4096 = 0 <-> 1929 <= 4096 <= 2167)
  /\ s8 (temperature_byte 17408) = -128
  /\ temperature_byte (- EFAULT) = temperature_byte 0.
Proof. apply (temperature_byte_signed 4096). lia. Defined.

(** ** The CRC of the telemetry and of the frames *)

(** X16. The table [bq_probe] builds with [crc8_populate_msb(crc8_table, 7)]
    has 256 entries and starts 0x00, 0x07, 0x0E, 0x09; with it, [crc8] from
    the initial value 0 is the CRC-8 of polynomial x^8 + x^2 + x + 1
    computed bit by bit, most significant bit first, and a message
    followed by its CRC leaves the register at 0. *)
Theorem crc8_table_driven (data : list Z) :
  length (crc8_populate_msb 7) = Z.to_nat CRC_TABLE_SIZE
  /\ take 4 (crc8_populate_msb 7) = [0x00; 0x07; 0x0E; 0x09]
  /\ crc8 (crc8_populate_msb 7) data 0 = crc8_spec data
  /\ crc8 (crc8_populate_msb 7) (data ++ [crc8_spec data]) 0 = 0.
Proof.
  rewrite <- crc8_table_populated.
  split; [apply crc8_table_length|]. split; [reflexivity|].
  split; [apply crc8_is_spec|].
  apply Z.eqb_eq. rewrite <- crc8_residue, crc8_is_spec;
    [apply Z.eqb_refl|unfold is_byte; lia|apply crc8_spec_is_byte].
Qed.

(** ** A conversion that cannot be started *)

(** X17. When the transfer that starts the conversion fails,
    [get_voltages] returns 0 at once: the start command is the only
    message that reaches the bus, and nothing is written to the caller's
    buffer. *)
Theorem get_voltages_start_failure {B : Type}
    (hw : B -> list wire_xfer -> B * Z * list (list Z))
    (fuel : nat) (pk : pack) (s : batch) (b : B) :
  length (xfer s) = Z.to_nat MAX_XFER ->
  length (tx_buff s) = Z.to_nat SPI_BUFF_SIZE ->
  let start := [{| wx_tx := write_frame BROADCAST ADC_CONVERT AC_CONV;
                   wx_rx := false |}] in
  snd (fst (hw b start)) <> 0 ->
  exists s',
    get_voltages (recording hw) fuel pk s (b, [])
    = Some (0, [], s', (fst (fst (hw b start)), [start]))
    /\ overrun s' = overrun s.
Proof.
  intros Hx Ht start Hst. unfold get_voltages.
  pose proof (tidy_prepare s Hx Ht) as T0.
  destruct (writeRegister_tidy BROADCAST ADC_CONVERT AC_CONV
              (bq_prepare_spi_message s) T0)
    as (s1 & E1 & T1 & W1 & _ & _ & O1 & _);
    [cbn; unfold MAX_XFER; lia|cbn; unfold SPI_BUFF_SIZE; lia|].
  rewrite E1, spi_sync_recording.
  change (wire (bq_prepare_spi_message s)) with (@nil wire_xfer) in W1.
  cbn [app] in W1. fold start in W1.
  destruct (spi_sync_tidy hw s1 b T1) as (s2 & E2 & _ & _ & _ & _ & _ & _ & O2).
  rewrite W1 in *. rewrite E2. cbn [fst snd].
  apply Z.eqb_neq in Hst. rewrite Hst. cbn [negb app].
  exists s2. split; [reflexivity|]. rewrite O2, O1. reflexivity.
Qed.

Lemma get_voltages_start_failure_witness :
  let start := [{| wx_tx := write_frame BROADCAST ADC_CONVERT AC_CONV;
                   wx_rx := false |}] in
  exists s',
    get_voltages (recording (flaky sim_hw (-5))) 7 ready_pack initial_batch
      ((ready_chain, 0%nat), [])
    = Some (0, [], s',
            (fst (fst (flaky sim_hw (-5) (ready_chain, 0%nat) start)), [start]))
    /\ overrun s' = overrun initial_batch.
Proof.
  apply (get_voltages_start_failure (flaky sim_hw (-5)) 7 ready_pack initial_batch
           (ready_chain, 0%nat)).
  - reflexivity.
  - reflexivity.
  - vm_compute. discriminate.
Defined.
